(** * XTBpy: the connection and session engine, embedded in Rocq

    A shallow embedding of [XTB/client.py] (class [Client]: [check],
    [create], [open], [send], [receive], [close]), of [XTB/handler.py]
    (classes [_GeneralHandler], [_DataHandler], [_StreamHandler] and
    [HandlerManager]) and of the data channel of [XTB/wrapper.py] (class
    [Wrapper]), followed by the properties of the engine that its
    specification states and by further properties that the code
    shows.

    Conventions of the embedding:
    - Python values that the code compares, tests for truth or indexes
      are values of [pyval]; [==], [bool()], [in] and [x[k]] are the
      functions [py_eq], [truthy], [py_in] and [py_getitem].  JSON
      numbers are integers here.
    - A method is a computation in the monad [M S]: it threads a state,
      and returns a value, raises a Python exception, or runs out of the
      fuel that bounds its [while] loops.
    - Objects live on a heap and are referred to by their position; the
      attributes that a handler inherits from [Client] are the component
      [net] of the handler.
    - What the operating system and the peer answer is read from oracles
      stored with the client; what the JSON library computes, the
      callback injected with [_set_reconnect_method] and the time the
      rounds of the ping loop take are the fields of an [environment].
      The constructors of the handlers, which connect and log in, are
      parameters of the manager.
    - Locks are not modelled: every method runs alone, start to end.
      The one place where a lock decides what a method does alone is the
      callback of a data handler, which its callers invoke while they
      hold the ping lock that [_login] asks for; there the call is
      modelled as never returning.  Threads are recorded when spawned
      and joined; their target functions are ordinary computations.
    - A string stands for bytes on the wire and a text for its UTF-8
      encoding; times are whole milliseconds.
    - Of the logging calls, only the two that report the server's error
      code and description are recorded. *)

From Stdlib Require Import ZArith String Lia.
From stdpp Require Import base list strings pretty.
Set Warnings "-register-all".

Local Open Scope string_scope.
Local Open Scope list_scope.
Local Open Scope nat_scope.

(** ** Python values *)

Inductive pyval : Type :=
| PyNone
| PyBool (b : bool)
| PyInt (z : Z)
| PyStr (s : string)
| PyTuple (xs : list pyval)
| PyList (xs : list pyval)
| PyDict (kvs : list (string * pyval))
| PyMethod (obj : nat) (name : string).

Abbreviation PyTrue := (PyBool true).
Abbreviation PyFalse := (PyBool false).

(** Dictionaries keep insertion order; keys are strings. *)
Fixpoint dict_get {A : Type} (k : string) (d : list (string * A)) : option A :=
  match d with
  | [] => None
  | (k', v) :: d' => if String.eqb k k' then Some v else dict_get k d'
  end.

Fixpoint dict_set {A : Type} (k : string) (v : A) (d : list (string * A))
  : list (string * A) :=
  match d with
  | [] => [(k, v)]
  | (k', v') :: d' =>
      if String.eqb k k' then (k, v) :: d' else (k', v') :: dict_set k v d'
  end.

Definition dict_has {A : Type} (k : string) (d : list (string * A)) : bool :=
  match dict_get k d with Some _ => true | None => false end.

(** [d.update(e)] *)
Definition dict_update {A : Type} (d e : list (string * A)) : list (string * A) :=
  fold_left (fun acc kv => dict_set (fst kv) (snd kv) acc) e d.

(** Python's [==].  Sequences compare element-wise and only with their own
    kind; [bool] is a subclass of [int]; dictionaries compare as maps. *)
Fixpoint py_eq (a b : pyval) {struct a} : bool :=
  let fix seq_eq (xs ys : list pyval) {struct xs} : bool :=
    match xs, ys with
    | [], [] => true
    | x :: xs', y :: ys' => py_eq x y && seq_eq xs' ys'
    | _, _ => false
    end in
  let fix dict_sub (d1 d2 : list (string * pyval)) {struct d1} : bool :=
    match d1 with
    | [] => true
    | (k, v) :: d1' =>
        match dict_get k d2 with
        | Some w => py_eq v w && dict_sub d1' d2
        | None => false
        end
    end in
  match a, b with
  | PyNone, PyNone => true
  | PyBool x, PyBool y => Bool.eqb x y
  | PyBool x, PyInt z => Z.eqb (Z.b2z x) z
  | PyInt z, PyBool x => Z.eqb z (Z.b2z x)
  | PyInt x, PyInt y => Z.eqb x y
  | PyStr x, PyStr y => String.eqb x y
  | PyTuple xs, PyTuple ys => seq_eq xs ys
  | PyList xs, PyList ys => seq_eq xs ys
  | PyDict d1, PyDict d2 => Nat.eqb (length d1) (length d2) && dict_sub d1 d2
  | PyMethod o n, PyMethod o' n' => Nat.eqb o o' && String.eqb n n'
  | _, _ => false
  end.

(** [x in l] for a Python list [l]. *)
Definition py_mem (x : pyval) (l : list pyval) : bool := existsb (py_eq x) l.

(** [bool(v)] *)
Definition truthy (v : pyval) : bool :=
  match v with
  | PyNone => false
  | PyBool b => b
  | PyInt z => negb (Z.eqb z 0)
  | PyStr s => negb (Nat.eqb (String.length s) 0)
  | PyTuple xs | PyList xs => negb (Nat.eqb (length xs) 0)
  | PyDict d => negb (Nat.eqb (length d) 0)
  | PyMethod _ _ => true
  end.

Fixpoint is_prefix (p s : string) : bool :=
  match p, s with
  | EmptyString, _ => true
  | String a p', String b s' => Ascii.eqb a b && is_prefix p' s'
  | String _ _, EmptyString => false
  end.

Fixpoint is_substring (p s : string) : bool :=
  is_prefix p s ||
  match s with
  | EmptyString => false
  | String _ s' => is_substring p s'
  end.

(** ** Exceptions, results and the state monad *)

Inductive exn : Type :=
| KeyError (k : pyval)
| IndexError
| TypeError
| RuntimeError
| AttributeError (attr : string)
| ValueError
| UnboundLocalError (var : string)
| UnicodeDecodeError.

Inductive res (A : Type) : Type :=
| Val (a : A)
| Raised (e : exn)
| OutOfFuel.
Arguments Val {A} a.
Arguments Raised {A} e.
Arguments OutOfFuel {A}.

Definition M (S A : Type) : Type := S -> res A * S.

Definition ret {S A : Type} (a : A) : M S A := fun s => (Val a, s).

Definition bind {S A B : Type} (c : M S A) (k : A -> M S B) : M S B :=
  fun s =>
    match c s with
    | (Val a, s') => k a s'
    | (Raised e, s') => (Raised e, s')
    | (OutOfFuel, s') => (OutOfFuel, s')
    end.

Definition raise {S A : Type} (e : exn) : M S A := fun s => (Raised e, s).
Definition out_of_fuel {S A : Type} : M S A := fun s => (OutOfFuel, s).
Definition gets {S A : Type} (f : S -> A) : M S A := fun s => (Val (f s), s).
Definition modify {S : Type} (f : S -> S) : M S unit := fun s => (Val tt, f s).

Notation "x <- c ;; k" := (bind c (fun x => k))
  (at level 100, c at next level, right associativity).
Notation "c ;; k" := (bind c (fun _ => k))
  (at level 100, right associativity).

(** [x in c] and [c[k]] for a string [k]; the container decides. *)
Definition py_in (k : string) (c : pyval) : res bool :=
  match c with
  | PyDict d => Val (dict_has k d)
  | PyStr s => Val (is_substring k s)
  | PyList xs | PyTuple xs => Val (py_mem (PyStr k) xs)
  | PyNone | PyBool _ | PyInt _ | PyMethod _ _ => Raised TypeError
  end.

Definition py_getitem (c : pyval) (k : string) : res pyval :=
  match c with
  | PyDict d =>
      match dict_get k d with
      | Some v => Val v
      | None => Raised (KeyError (PyStr k))
      end
  | _ => Raised TypeError
  end.

Definition lift_res {S A : Type} (r : res A) : M S A := fun s => (r, s).

(** ** The transport: class [Client] *)

Module Client.

(** What [socket.getaddrinfo] returns for TCP: one 5-tuple
    [(family, type, proto, canonname, sockaddr)] per candidate, the
    [sockaddr] a 2-tuple for IPv4 and a 4-tuple for IPv6. *)
Inductive sockaddr : Type :=
| Inet4 (ip : string) (port : Z)
| Inet6 (ip : string) (port flowinfo scopeid : Z).

Record addrinfo : Type := {
  ai_socktype : Z;
  ai_proto : Z;
  ai_cname : string;
  ai_sockaddr : sockaddr
}.

Definition AF_INET : Z := 2.
Definition AF_INET6 : Z := 10.

Definition ai_family (a : addrinfo) : Z :=
  match ai_sockaddr a with
  | Inet4 _ _ => AF_INET
  | Inet6 _ _ _ _ => AF_INET6
  end.

Definition sockaddr_val (s : sockaddr) : pyval :=
  match s with
  | Inet4 ip port => PyTuple [PyStr ip; PyInt port]
  | Inet6 ip port flow scope =>
      PyTuple [PyStr ip; PyInt port; PyInt flow; PyInt scope]
  end.

Definition addrinfo_val (a : addrinfo) : pyval :=
  PyTuple [PyInt (ai_family a); PyInt (ai_socktype a); PyInt (ai_proto a);
           PyStr (ai_cname a); sockaddr_val (ai_sockaddr a)].

(** One readability poll followed by [recv]: nothing pending, a chunk
    (empty when the peer has closed), or an exception. *)
Inductive poll : Type :=
| Quiet
| Chunk (data : string)
| RecvError.

(** The operating system and the peer.  Every oracle is indexed by the
    number of system interactions made so far.  A call of the socket
    library succeeds or fails with [socket.error]. *)
Record Os : Type := {
  getaddrinfo : option (list addrinfo);
  socket_socket : nat -> addrinfo -> bool;
  wrap_socket : nat -> bool;
  socket_send : nat -> nat -> option nat;
  socket_recv : nat -> poll;
  socket_shutdown : nat -> bool
}.

Record sock : Type := {
  fileno_open : bool;
  wrapped : bool;
  blocking : bool
}.

Inductive event : Type :=
| Attempt (a : addrinfo)
| SentBytes (n : nat)
| Polled (p : poll)
| Sleep
| Shutdown
| Closed.

Record state : Type := {
  _encrypted : bool;
  _blocking : bool;
  _used_addresses : list pyval;
  _selected : option addrinfo;
  _socket : option sock;
  _bytes_out : nat;
  _stream : bool;
  os : Os;
  clock : nat;
  trace : list event
}.

Definition set_used (u : list pyval) (c : state) : state :=
  {| _encrypted := _encrypted c; _blocking := _blocking c;
     _used_addresses := u; _selected := _selected c; _socket := _socket c;
     _bytes_out := _bytes_out c; _stream := _stream c; os := os c;
     clock := clock c; trace := trace c |}.

Definition set_selected (a : addrinfo) (c : state) : state :=
  {| _encrypted := _encrypted c; _blocking := _blocking c;
     _used_addresses := _used_addresses c; _selected := Some a;
     _socket := _socket c; _bytes_out := _bytes_out c; _stream := _stream c;
     os := os c; clock := clock c; trace := trace c |}.

Definition set_socket (s : sock) (c : state) : state :=
  {| _encrypted := _encrypted c; _blocking := _blocking c;
     _used_addresses := _used_addresses c; _selected := _selected c;
     _socket := Some s; _bytes_out := _bytes_out c; _stream := _stream c;
     os := os c; clock := clock c; trace := trace c |}.

(** One system interaction: the clock advances, the event is recorded. *)
Definition step (e : event) (c : state) : state :=
  {| _encrypted := _encrypted c; _blocking := _blocking c;
     _used_addresses := _used_addresses c; _selected := _selected c;
     _socket := _socket c; _bytes_out := _bytes_out c; _stream := _stream c;
     os := os c; clock := S (clock c); trace := trace c ++ [e] |}.

Definition sys {A : Type} (ask : Os -> nat -> A) (e : A -> event)
  : M state A :=
  fun c => let a := ask (os c) (clock c) in (Val a, step (e a) c).

(** *** [create] *)

(** [address[4] not in tried_addresses]: the socket address of the
    candidate is looked up among the 5-tuples tried so far. *)
Definition not_in_tried (tried_addresses : list addrinfo) (address : addrinfo)
  : bool :=
  negb (py_mem (sockaddr_val (ai_sockaddr address))
          (addrinfo_val <$> tried_addresses)).

Definition not_in_used (used : list pyval) (a : addrinfo) : bool :=
  negb (py_mem (sockaddr_val (ai_sockaddr a)) used).

(** The two [for ... break] scans; the result is [tried_addresses] after
    the scan. *)
Definition select_address (avl_addresses tried_addresses : list addrinfo)
  (used : list pyval) : list addrinfo :=
  let pick :=
    if length used + length tried_addresses <? length avl_addresses
    then List.find (fun address => not_in_tried tried_addresses address
                                   && not_in_used used address)
           avl_addresses
    else List.find (not_in_tried tried_addresses) avl_addresses in
  match pick with
  | Some a => tried_addresses ++ [a]
  | None => tried_addresses
  end.

Definition new_socket (c : state) : sock :=
  {| fileno_open := true; wrapped := false; blocking := true |}.

Definition wrap (s : sock) : sock :=
  {| fileno_open := fileno_open s; wrapped := true; blocking := blocking s |}.

Definition setblocking (b : bool) (s : sock) : sock :=
  {| fileno_open := fileno_open s; wrapped := wrapped s; blocking := b |}.

Definition close_sock (s : sock) : sock :=
  {| fileno_open := false; wrapped := wrapped s; blocking := blocking s |}.

Definition update_socket (f : sock -> sock) (c : state) : state :=
  match _socket c with
  | Some s => set_socket (f s) c
  | None => c
  end.

Fixpoint create_loop (n : nat) (avl_addresses tried_addresses : list addrinfo)
  : M state bool :=
  match n with
  | 0 => out_of_fuel
  | S n' =>
      if length tried_addresses <? length avl_addresses then
        used <- gets _used_addresses ;;
        let tried_addresses' :=
          select_address avl_addresses tried_addresses used in
        match last tried_addresses' with
        | None => raise IndexError
        | Some a =>
            modify (set_selected a) ;;
            made <- sys (fun o k => socket_socket o k a) (fun _ => Attempt a) ;;
            if negb made then create_loop n' avl_addresses tried_addresses'
            else
              c <- gets id ;;
              modify (set_socket (new_socket c)) ;;
              enc <- gets _encrypted ;;
              ok <- (if enc
                     then fun c => (Val (wrap_socket (os c) (clock c)), c)
                     else ret true) ;;
              if negb ok then create_loop n' avl_addresses tried_addresses'
              else
                (if enc then modify (update_socket wrap) else ret tt) ;;
                b <- gets _blocking ;;
                modify (update_socket (setblocking b)) ;;
                modify (fun c => set_used
                          (_used_addresses c ++ [sockaddr_val (ai_sockaddr a)]) c) ;;
                ret true
        end
      else
        modify (set_used []) ;;
        ret false
  end.

Definition create (fuel : nat) : M state bool :=
  o <- gets os ;;
  match getaddrinfo o with
  | None => ret false
  | Some avl_addresses => create_loop fuel avl_addresses []
  end.

(** *** [send] *)

Fixpoint send_loop (n : nat) (len sent : nat) : M state bool :=
  match n with
  | 0 => out_of_fuel
  | S n' =>
      if sent <? len then
        size <- gets (fun c => Nat.min (_bytes_out c) (len - sent)) ;;
        r <- sys (fun o k => socket_send o k size)
                 (fun r => SentBytes (default 0 r)) ;;
        match r with
        | None => ret false
        | Some k =>
            modify (step Sleep) ;;
            send_loop n' len (sent + k)
        end
      else ret true
  end.

Definition send (fuel : nat) (msg : string) : M state bool :=
  send_loop fuel (String.length msg) 0.

(** *** [receive]

    The result is [PyStr] of the text gathered, or [PyFalse].  A string
    stands for the bytes on the wire and a text for its UTF-8 encoding,
    so that decoding a chunk gives the chunk itself when it is well
    formed and raises [UnicodeDecodeError] when it is not; the chunks are
    decoded one by one, outside the [try] block. *)

(** [lo <= b <= hi] *)
Definition between (lo hi b : nat) : bool := (lo <=? b) && (b <=? hi).

(** The well-formed UTF-8 byte sequences: one byte below 0x80; a lead
    byte 0xC2..0xDF, 0xE0..0xEF or 0xF0..0xF4 with one, two or three
    continuation bytes, the first of them restricted after 0xE0, 0xED,
    0xF0 and 0xF4 so that overlong forms, surrogates and code points
    above U+10FFFF are refused, as [bytes.decode] in strict mode does. *)
Fixpoint utf8_bytes (l : list nat) : bool :=
  match l with
  | [] => true
  | b0 :: l1 =>
      if b0 <? 128 then utf8_bytes l1
      else if between 194 223 b0 then
        match l1 with
        | b1 :: l2 => between 128 191 b1 && utf8_bytes l2
        | _ => false
        end
      else if between 224 239 b0 then
        match l1 with
        | b1 :: b2 :: l3 =>
            between (if b0 =? 224 then 160 else 128)
                    (if b0 =? 237 then 159 else 191) b1
            && between 128 191 b2 && utf8_bytes l3
        | _ => false
        end
      else if between 240 244 b0 then
        match l1 with
        | b1 :: b2 :: b3 :: l4 =>
            between (if b0 =? 240 then 144 else 128)
                    (if b0 =? 244 then 143 else 191) b1
            && between 128 191 b2 && between 128 191 b3 && utf8_bytes l4
        | _ => false
        end
      else false
  end.

Definition utf8_valid (msg : string) : bool :=
  utf8_bytes (Ascii.nat_of_ascii <$> list_ascii_of_string msg).

Fixpoint receive_loop (n : nat) (full_msg : string) : M state pyval :=
  match n with
  | 0 => out_of_fuel
  | S n' =>
      p <- sys socket_recv Polled ;;
      match p with
      | RecvError => ret PyFalse
      | Quiet | Chunk _ =>
          let msg := match p with Chunk d => d | _ => "" end in
          if (0 <? String.length msg) && negb (utf8_valid msg)
          then raise UnicodeDecodeError
          else
          let full_msg' :=
            if 0 <? String.length msg then String.append full_msg msg
            else full_msg in
          stream <- gets _stream ;;
          if stream && (0 <? String.length msg) then ret (PyStr full_msg')
          else if negb stream && (String.length msg <=? 0)
               then ret (PyStr full_msg')
               else modify (step Sleep) ;; receive_loop n' full_msg'
      end
  end.

Definition receive (fuel : nat) : M state pyval := receive_loop fuel "".

(** *** [close] *)

Definition close : M state bool :=
  so <- gets _socket ;;
  match so with
  | None => raise (AttributeError "_socket")
  | Some s =>
      if fileno_open s then
        _ <- sys socket_shutdown (fun _ => Shutdown) ;;
        modify (update_socket close_sock) ;;
        modify (step Closed) ;;
        used <- gets _used_addresses ;;
        match used with
        | [] => raise IndexError
        | _ :: _ =>
            modify (set_used (removelast used)) ;;
            ret true
        end
      else ret true
  end.

End Client.

(** ** The transport, continued: [check] and [open], and what a trace
    shows *)

Module Connect.
Import Client.

(** The bytes that the socket accepted, the sleeps and the candidates
    attempted, read off a trace. *)
Fixpoint bytes_sent (l : list event) : nat :=
  match l with
  | [] => 0
  | SentBytes n :: l' => n + bytes_sent l'
  | _ :: l' => bytes_sent l'
  end.

Fixpoint sleeps (l : list event) : nat :=
  match l with
  | [] => 0
  | Sleep :: l' => S (sleeps l')
  | _ :: l' => sleeps l'
  end.

(** The events of the rounds of [receive] in which nothing arrived: a
    poll that found nothing pending, an empty chunk, and the sleep that
    follows either. *)
Definition idle (e : event) : bool :=
  match e with
  | Sleep | Polled Quiet | Polled (Chunk EmptyString) => true
  | _ => false
  end.

Fixpoint polls (l : list event) : nat :=
  match l with
  | [] => 0
  | Polled _ :: l' => S (polls l')
  | _ :: l' => polls l'
  end.

(** [''.join(chunks)] *)
Definition join (chunks : list string) : string :=
  fold_right String.append "" chunks.

(** From the system interaction number [start] on, the chunks [chunks]
    arrive one per poll, each followed by the sleep of [receive]. *)
Definition burst (o : Os) (start : nat) (chunks : list string) : Prop :=
  forall i d, chunks !! i = Some d ->
    socket_recv o (start + 2 * i) = Chunk d /\ d <> "".

(** What [select.select] with a zero timeout answers for an open socket,
    and whether [socket.connect] gets through. *)
Record link : Type := {
  select_errored : nat -> bool;
  select_readable : nat -> bool;
  select_writable : nat -> bool;
  socket_connect : nat -> bool
}.

(** [check]: every exception is caught and gives [False]: the
    [AttributeError] of a client without socket, the [ValueError] that
    [select] raises for a closed socket, the [ValueError] of an unknown
    mode. *)
Definition check (k : link) (mode : string) (c : state) : bool :=
  match _socket c with
  | None => false
  | Some s =>
      if String.eqb mode "basic" then
        if fileno_open s then negb (select_errored k (clock c)) else false
      else if String.eqb mode "readable" then
        if fileno_open s then select_readable k (clock c) else false
      else if String.eqb mode "writable" then
        if fileno_open s then select_writable k (clock c) else false
      else false
  end.

(** [for _ in range(self._max_fails)]: connect, and sleep after a
    failure. *)
Fixpoint connect_loop (k : link) (n : nat) : M state bool :=
  match n with
  | 0 => ret false
  | S n' =>
      now <- gets clock ;;
      if socket_connect k now then ret true
      else modify (step Sleep) ;; connect_loop k n'
  end.

(** [open]; [_max_fails] is the attribute of that name. *)
Definition open (k : link) (fuel _max_fails : nat) : M state bool :=
  healthy <- gets (check k "basic") ;;
  created <- (if negb healthy then create fuel else ret true) ;;
  if negb created then ret false
  else connect_loop k _max_fails.

(** [set_bytes_out] *)
Definition set_bytes_out (bytes_out : nat) (c : state) : state :=
  {| _encrypted := _encrypted c; _blocking := _blocking c;
     _used_addresses := _used_addresses c; _selected := _selected c;
     _socket := _socket c; _bytes_out := bytes_out; _stream := _stream c;
     os := os c; clock := clock c; trace := trace c |}.

End Connect.

(** ** The protocol layer: [_GeneralHandler], [_DataHandler], [_StreamHandler] *)

Module Handler.

(** [Thread(target=..., args=(arg,))] *)
Record thread : Type := {
  target : string;
  thread_arg : pyval
}.

(** [self._ping]: a dictionary with the keys ['ping'] and ['thread'],
    each present or not. *)
Record ping_dict : Type := {
  ping : option bool;
  ping_thread : option thread
}.

(** An entry of [self._streams['tasks']]. *)
Record task : Type := {
  command : string;
  arguments : list (string * pyval)
}.

(** [self._streams]: the key ['tasks'] is set by the constructor, the
    keys ['stream'] and ['thread'] by the first [streamData]. *)
Record streams_dict : Type := {
  tasks : list (nat * task);
  stream : option bool;
  stream_thread : option thread
}.

Inductive class : Type := DataHandler | StreamHandler.

(** One handler object.  A handler is a [Client]: [net] holds the
    inherited attributes.  [_stream_handlers] is used by a data handler,
    [_dh] and [_streams] by a stream handler; [_dh] and the members of
    [_stream_handlers] are references into the heap. *)
Record handler : Type := {
  cls : class;
  net : Client.state;
  _ping : ping_dict;
  _status : pyval;
  _deleted : bool;
  _ssid : pyval;
  _stream_handlers : list nat;
  _dh : nat;
  _streams : streams_dict
}.

Inductive event : Type :=
| Request (self : nat) (req : list (string * pyval)) (sent : bool)
| Reconnect (self : nat)
| Report (self : nat) (v : pyval)
| Spawn (self : nat) (t : thread)
| Join (self : nat) (t : thread)
| Print (v : pyval).

Record machine : Type := {
  heap : list handler;
  log : list event
}.

Definition is_reconnect (e : event) : bool :=
  match e with
  | Reconnect _ => true
  | _ => false
  end.

(** How many times the injected callback has been invoked. *)
Definition reconnects (l : list event) : nat :=
  length (List.filter is_reconnect l).

(** The request events of a log whose dictionary has a
    [streamSessionId] entry. *)
Definition carries_token (e : event) : bool :=
  match e with
  | Request _ req _ => dict_has "streamSessionId" req
  | _ => false
  end.

Definition set_net (n : Client.state) (h : handler) : handler :=
  {| cls := cls h; net := n; _ping := _ping h; _status := _status h;
     _deleted := _deleted h; _ssid := _ssid h;
     _stream_handlers := _stream_handlers h; _dh := _dh h;
     _streams := _streams h |}.

Definition set_ping (p : ping_dict) (h : handler) : handler :=
  {| cls := cls h; net := net h; _ping := p; _status := _status h;
     _deleted := _deleted h; _ssid := _ssid h;
     _stream_handlers := _stream_handlers h; _dh := _dh h;
     _streams := _streams h |}.

Definition set_status (v : pyval) (h : handler) : handler :=
  {| cls := cls h; net := net h; _ping := _ping h; _status := v;
     _deleted := _deleted h; _ssid := _ssid h;
     _stream_handlers := _stream_handlers h; _dh := _dh h;
     _streams := _streams h |}.

Definition set_deleted (b : bool) (h : handler) : handler :=
  {| cls := cls h; net := net h; _ping := _ping h; _status := _status h;
     _deleted := b; _ssid := _ssid h;
     _stream_handlers := _stream_handlers h; _dh := _dh h;
     _streams := _streams h |}.

Definition set_ssid (v : pyval) (h : handler) : handler :=
  {| cls := cls h; net := net h; _ping := _ping h; _status := _status h;
     _deleted := _deleted h; _ssid := v;
     _stream_handlers := _stream_handlers h; _dh := _dh h;
     _streams := _streams h |}.

Definition set_stream_handlers (l : list nat) (h : handler) : handler :=
  {| cls := cls h; net := net h; _ping := _ping h; _status := _status h;
     _deleted := _deleted h; _ssid := _ssid h;
     _stream_handlers := l; _dh := _dh h;
     _streams := _streams h |}.

Definition set_streams (s : streams_dict) (h : handler) : handler :=
  {| cls := cls h; net := net h; _ping := _ping h; _status := _status h;
     _deleted := _deleted h; _ssid := _ssid h;
     _stream_handlers := _stream_handlers h; _dh := _dh h;
     _streams := s |}.

(** The object [self] of [m] is [h] in every attribute of its own; the
    inherited client attributes may differ. *)
Definition kept (self : nat) (h : handler) (m : machine) : Prop :=
  exists n, heap m !! self = Some (set_net n h).

(** A decoded reply on which the checks of [_receive] raise nothing: a
    falsy value, or a dictionary whose [status], if present, is true or
    comes with [errorCode] and [errorDescr]. *)
Definition protocol_response (r : pyval) : bool :=
  match r with
  | PyDict d =>
      match dict_get "status" d with
      | None => true
      | Some st => truthy st || (dict_has "errorCode" d && dict_has "errorDescr" d)
      end
  | _ => negb (truthy r)
  end.

Definition set_heap (hp : list handler) (m : machine) : machine :=
  {| heap := hp; log := log m |}.

Definition emit (e : event) : M machine unit :=
  fun m => (Val tt, {| heap := heap m; log := log m ++ [e] |}).

(** Reading and writing the attributes of the object [self].  A reference
    to no object cannot arise in Python; here it stops the computation. *)
Definition attr {A : Type} (self : nat) (f : handler -> A) : M machine A :=
  fun m =>
    match heap m !! self with
    | Some h => (Val (f h), m)
    | None => (Raised (AttributeError "self"), m)
    end.

Definition setattr (self : nat) (f : handler -> handler) : M machine unit :=
  fun m =>
    match heap m !! self with
    | Some h => (Val tt, set_heap (<[self := f h]> (heap m)) m)
    | None => (Raised (AttributeError "self"), m)
    end.

(** An inherited [Client] method, run on the attributes of [self]. *)
Definition on_net {A : Type} (self : nat) (c : M Client.state A)
  : M machine A :=
  fun m =>
    match heap m !! self with
    | Some h =>
        let (r, n) := c (net h) in
        (r, set_heap (<[self := set_net n h]> (heap m)) m)
    | None => (Raised (AttributeError "self"), m)
    end.

(** What the handler code is run against: the bound on the iterations
    of every loop; [json.dumps] on a request dictionary and
    [JSONDecoder.raw_decode], where [None] stands for [JSONDecodeError];
    the callable that [_set_reconnect_method] stored in
    [self._call_reconnect], which sees the objects but not the record
    of what the handler did; the milliseconds that the [n]-th round of
    the ping loop took. *)
Record environment : Type := {
  fuel : nat;
  dumps : list (string * pyval) -> string;
  raw_decode : string -> option pyval;
  call_reconnect : nat -> list handler -> res pyval * list handler;
  elapsed : nat -> Z
}.

Section Protocol.

Variable env : environment.

(** *** [_GeneralHandler] *)

Definition _send_request (self : nat) (command : string) (stream : pyval)
  (arguments : option (list (string * pyval))) (tag : pyval)
  : M machine bool :=
  let req_dict := [("command", PyStr command)] in
  let req_dict :=
    match arguments with
    | Some a => dict_update req_dict a
    | None => req_dict
    end in
  let req_dict :=
    match stream with
    | PyNone => req_dict
    | _ => dict_set "streamSessionId" stream req_dict
    end in
  let req_dict :=
    match tag with
    | PyNone => req_dict
    | _ => dict_set "customTag" tag req_dict
    end in
  sent <- on_net self (Client.send (fuel env) (dumps env req_dict)) ;;
  emit (Request self req_dict sent) ;;
  ret sent.

Definition _receive_response (self : nat) : M machine pyval :=
  response <- on_net self (Client.receive (fuel env)) ;;
  if negb (truthy response) then ret PyFalse
  else
    match response with
    | PyStr text =>
        match raw_decode env text with
        | Some v => ret v
        | None => ret PyFalse
        end
    | _ => raise TypeError
    end.

Definition reconnect (self : nat) : M machine pyval :=
  emit (Reconnect self) ;;
  fun m =>
    let (r, hp) := call_reconnect env self (heap m) in (r, set_heap hp m).

Fixpoint _request_loop (n : nat) (self : nat) (retry : bool)
  (command : string) (stream : pyval)
  (arguments : option (list (string * pyval))) (tag : pyval)
  : M machine bool :=
  match n with
  | 0 => out_of_fuel
  | S n' =>
      sent <- _send_request self command stream arguments tag ;;
      if negb sent then
        if retry then
          reconnect self ;;
          _request_loop n' self false command stream arguments tag
        else ret false
      else ret true
  end.

Definition _request (self : nat) (retry : bool) (command : string)
  (stream : pyval) (arguments : option (list (string * pyval)))
  (tag : pyval) : M machine bool :=
  _request_loop (fuel env) self retry command stream arguments tag.

(** The [while True] loop of [_receive]: [None] when the method returns
    [False] from inside the loop, the response when the loop is left by
    [break]. *)
Fixpoint _receive_loop (n : nat) (self : nat) (retry : bool)
  : M machine (option pyval) :=
  match n with
  | 0 => out_of_fuel
  | S n' =>
      response <- _receive_response self ;;
      if negb (truthy response) then
        if retry then
          reconnect self ;;
          _receive_loop n' self false
        else ret None
      else ret (Some response)
  end.

Definition _receive (self : nat) (retry : bool) (data : bool)
  : M machine pyval :=
  r <- _receive_loop (fuel env) self retry ;;
  match r with
  | None => ret PyFalse
  | Some response =>
      if data then
        has <- lift_res (py_in "status" response) ;;
        if negb has then ret PyFalse
        else
          st <- lift_res (py_getitem response "status") ;;
          if negb (truthy st) then
            code <- lift_res (py_getitem response "errorCode") ;;
            emit (Report self code) ;;
            descr <- lift_res (py_getitem response "errorDescr") ;;
            emit (Report self descr) ;;
            ret PyFalse
          else ret response
      else ret response
  end.

Definition _stop_ping (self : nat) (inThread : bool) : M machine bool :=
  p <- attr self _ping ;;
  match ping p with
  | None => ret false
  | Some _ =>
      setattr self (set_ping {| ping := Some false;
                                ping_thread := ping_thread p |}) ;;
      (if negb inThread then
         match ping_thread p with
         | Some t => emit (Join self t)
         | None => raise (KeyError (PyStr "thread"))
         end
       else ret tt) ;;
      ret true
  end.

Definition _start_ping (self : nat) (ssid : pyval) : M machine bool :=
  p <- attr self _ping ;;
  (match ping p with
   | Some true => _ <- _stop_ping self false ;; ret tt
   | _ => ret tt
   end) ;;
  let t := {| target := "_send_ping";
              thread_arg := if truthy ssid then ssid else PyNone |} in
  setattr self (set_ping {| ping := Some true; ping_thread := Some t |}) ;;
  emit (Spawn self t) ;;
  ret true.

(** [60*9.9] seconds, in milliseconds. *)
Definition ping_interval : Z := 594000.

(** What the body of the ping loop does when a ping is due: [None] when
    [_send_ping] returns [False] from there. *)
Definition ping_due (self : nat) (ssid : pyval) : M machine (option unit) :=
  sent <- _request self true "ping"
            (if negb (truthy ssid) then ssid else PyNone) None PyNone ;;
  if negb sent then
    _ <- _stop_ping self true ;; ret None
  else if negb (truthy ssid) then
    r <- _receive self true true ;;
    if negb (truthy r) then
      _ <- _stop_ping self true ;; ret None
    else ret (Some tt)
  else ret (Some tt).

Fixpoint _send_ping_loop (n : nat) (self : nat) (ssid : pyval)
  (round : nat) (next_ping : Z) : M machine pyval :=
  match n with
  | 0 => out_of_fuel
  | S n' =>
      p <- attr self _ping ;;
      match ping p with
      | None => raise (KeyError (PyStr "ping"))
      | Some false => ret PyNone
      | Some true =>
          if (ping_interval <=? next_ping)%Z then
            r <- ping_due self ssid ;;
            match r with
            | None => ret PyFalse
            | Some _ =>
                _send_ping_loop n' self ssid (S round) (0 + elapsed env round)%Z
            end
          else
            _send_ping_loop n' self ssid (S round)
              (next_ping + elapsed env round)%Z
      end
  end.

Definition _send_ping (self : nat) (ssid : pyval) : M machine pyval :=
  _send_ping_loop (fuel env) self ssid 0 0%Z.

(** *** [_StreamHandler] *)

Fixpoint task_get (index : nat) (d : list (nat * task)) : option task :=
  match d with
  | [] => None
  | (i, t) :: d' => if Nat.eqb index i then Some t else task_get index d'
  end.

Fixpoint task_set (index : nat) (t : task) (d : list (nat * task))
  : list (nat * task) :=
  match d with
  | [] => [(index, t)]
  | (i, t') :: d' =>
      if Nat.eqb index i then (i, t) :: d' else (i, t') :: task_set index t d'
  end.

Fixpoint task_pop (index : nat) (d : list (nat * task)) : list (nat * task) :=
  match d with
  | [] => []
  | (i, t) :: d' => if Nat.eqb index i then d' else (i, t) :: task_pop index d'
  end.

Definition set_tasks (ts : list (nat * task)) (s : streams_dict)
  : streams_dict :=
  {| tasks := ts; stream := stream s; stream_thread := stream_thread s |}.

Definition set_stream (b : bool) (s : streams_dict) : streams_dict :=
  {| tasks := tasks s; stream := Some b; stream_thread := stream_thread s |}.

Definition read_thread : thread :=
  {| target := "_readStream"; thread_arg := PyNone |}.

Definition streamData (self : nat) (command : string)
  (kwargs : list (string * pyval)) : M machine bool :=
  dh <- attr self _dh ;;
  token <- attr dh _ssid ;;
  if negb (truthy token) then ret false
  else
    setattr self (set_ssid token) ;;
    ssid <- attr self _ssid ;;
    sent <- _request self true ("get" ++ command) ssid
              (if truthy (PyDict kwargs) then Some kwargs else None) PyNone ;;
    if negb sent then ret false
    else
      s <- attr self _streams ;;
      let index := length (tasks s) in
      let s := set_tasks (task_set index {| command := command;
                                            arguments := kwargs |} (tasks s)) s in
      setattr self (set_streams s) ;;
      (match stream s with
       | None =>
           setattr self
             (set_streams {| tasks := tasks s; stream := Some true;
                             stream_thread := Some read_thread |}) ;;
           emit (Spawn self read_thread)
       | Some _ => ret tt
       end) ;;
      ret true.

(** [for index in self._streams['tasks']: ...]: the iterator of a
    dictionary walks the keys in insertion order and, every time the next
    key is asked for, first raises [RuntimeError] if the size of the
    dictionary is no longer the one it had when the loop began.  [keys]
    are the keys still to come, [used] the size at the start, [command]
    the local variable last assigned by the body. *)
Fixpoint endStream_loop (self : nat) (keys : list nat) (used : nat)
  (command : option string) : M machine (option string) :=
  s <- attr self _streams ;;
  if negb (Nat.eqb (length (tasks s)) used) then raise RuntimeError
  else
    match keys with
    | [] => ret command
    | index :: keys' =>
        match task_get index (tasks s) with
        | None => raise (KeyError (PyInt (Z.of_nat index)))
        | Some t =>
            _ <- _request self false ("stop" ++ Handler.command t) PyNone
                   (match dict_get "symbol" (arguments t) with
                    | Some v => Some [("symbol", v)]
                    | None => None
                    end) PyNone ;;
            s <- attr self _streams ;;
            match task_get index (tasks s) with
            | None => raise (KeyError (PyInt (Z.of_nat index)))
            | Some _ =>
                setattr self (set_streams (set_tasks (task_pop index (tasks s)) s)) ;;
                endStream_loop self keys' used (Some (Handler.command t))
            end
        end
    end.

Definition endStream (self : nat) (inThread : pyval) : M machine bool :=
  s <- attr self _streams ;;
  match stream s with
  | None => raise (KeyError (PyStr "stream"))
  | Some running =>
      (if negb running then ret tt
       else setattr self (set_streams (set_stream false s))) ;;
      (if negb (truthy inThread) then
         match stream_thread s with
         | Some t => emit (Join self t)
         | None => raise (KeyError (PyStr "thread"))
         end
       else ret tt) ;;
      s <- attr self _streams ;;
      command <- endStream_loop self (fst <$> tasks s) (length (tasks s)) None ;;
      match command with
      | None => raise (UnboundLocalError "command")
      | Some _ => ret true
      end
  end.

Fixpoint _readStream_loop (n : nat) (self : nat) : M machine pyval :=
  match n with
  | 0 => out_of_fuel
  | S n' =>
      s <- attr self _streams ;;
      match stream s with
      | None => raise (KeyError (PyStr "stream"))
      | Some false => ret PyNone
      | Some true =>
          response <- _receive self true false ;;
          if negb (truthy response) then
            _ <- endStream self PyTrue ;; ret PyFalse
          else
            d <- lift_res (py_getitem response "data") ;;
            if negb (truthy d) then
              _ <- endStream self PyTrue ;; ret PyFalse
            else
              emit (Print d) ;;
              _readStream_loop n' self
      end
  end.

Definition _readStream (self : nat) : M machine pyval :=
  _readStream_loop (fuel env) self.

(** The keys of [self._streams], in insertion order. *)
Definition streams_keys (s : streams_dict) : list string :=
  ["tasks"] ++ (match stream s with Some _ => ["stream"] | None => [] end)
            ++ (match stream_thread s with Some _ => ["thread"] | None => [] end).

Fixpoint for_each {S A : Type} (l : list A) (body : A -> M S unit)
  : M S unit :=
  match l with
  | [] => ret tt
  | x :: l' => body x ;; for_each l' body
  end.

(** [list.remove]: the first occurrence goes. *)
Fixpoint list_remove (x : nat) (l : list nat) : list nat :=
  match l with
  | [] => []
  | y :: l' => if Nat.eqb x y then l' else y :: list_remove x l'
  end.

Definition _attach_stream_handler (self handler : nat) : M machine unit :=
  hs <- attr self _stream_handlers ;;
  if negb (existsb (Nat.eqb handler) hs)
  then setattr self (set_stream_handlers (hs ++ [handler]))
  else ret tt.

Definition _detach_stream_handler (self handler : nat) : M machine unit :=
  hs <- attr self _stream_handlers ;;
  if existsb (Nat.eqb handler) hs
  then setattr self (set_stream_handlers (list_remove handler hs))
  else ret tt.

Definition StreamHandler_delete (self : nat) : M machine bool :=
  deleted <- attr self _deleted ;;
  if deleted then ret true
  else
    s <- attr self _streams ;;
    for_each (streams_keys s)
      (fun index => _ <- endStream self (PyStr index) ;; ret tt) ;;
    _ <- _stop_ping self false ;;
    _ <- on_net self Client.close ;;
    setattr self (set_status (PyStr "inactive")) ;;
    dh <- attr self _dh ;;
    _detach_stream_handler dh self ;;
    setattr self (set_deleted true) ;;
    ret true.

(** *** [_DataHandler] *)

Definition _logout (self : nat) : M machine bool :=
  _ <- _request self false "logout" PyNone None PyNone ;;
  _ <- _receive self false true ;;
  _ <- on_net self Client.close ;;
  setattr self (set_ssid PyNone) ;;
  setattr self (set_status (PyStr "inactive")) ;;
  ret true.

Definition _close_stream_handlers (self : nat) : M machine bool :=
  hs <- attr self _stream_handlers ;;
  match hs with
  | [] => ret true
  | _ :: _ =>
      for_each hs (fun handler => _ <- StreamHandler_delete handler ;; ret tt) ;;
      ret true
  end.

Definition DataHandler_delete (self : nat) : M machine bool :=
  deleted <- attr self _deleted ;;
  if deleted then ret true
  else
    _ <- _close_stream_handlers self ;;
    _ <- _stop_ping self false ;;
    _ <- _logout self ;;
    setattr self (set_deleted true) ;;
    ret true.

Definition getData (self : nat) (command : string)
  (kwargs : list (string * pyval)) : M machine pyval :=
  ssid <- attr self _ssid ;;
  if negb (truthy ssid) then ret PyFalse
  else
    sent <- _request self true ("get" ++ command) PyNone
              (if truthy (PyDict kwargs)
               then Some [("arguments", PyDict kwargs)] else None) PyNone ;;
    if negb sent then ret PyFalse
    else
      response <- _receive self true true ;;
      if negb (truthy response) then ret PyFalse
      else
        has <- lift_res (py_in "returnData" response) ;;
        if negb has then ret PyFalse
        else lift_res (py_getitem response "returnData").

End Protocol.

End Handler.

(** ** The protocol layer, continued: the request dictionary, [_login]
    and [_reconnect] *)

Module Session.
Import Handler.

(** The dictionary that [_send_request] builds and serialises. *)
Definition request_of (command : string) (stream : pyval)
  (arguments : option (list (string * pyval))) (tag : pyval)
  : list (string * pyval) :=
  let req_dict := [("command", PyStr command)] in
  let req_dict :=
    match arguments with
    | Some a => dict_update req_dict a
    | None => req_dict
    end in
  let req_dict :=
    match stream with
    | PyNone => req_dict
    | _ => dict_set "streamSessionId" stream req_dict
    end in
  match tag with
  | PyNone => req_dict
  | _ => dict_set "customTag" tag req_dict
  end.

(** [arguments.get(key)] for the optional dictionary [arguments]. *)
Definition argument (key : string)
  (arguments : option (list (string * pyval))) : option pyval :=
  match arguments with
  | Some a => dict_get key a
  | None => None
  end.

(** The keys of a keyword dictionary are distinct. *)
Definition distinct_keys (arguments : option (list (string * pyval))) : Prop :=
  match arguments with
  | Some a => NoDup (fst <$> a)
  | None => True
  end.

(** [v is not None] *)
Definition is_not_None (v : pyval) : bool :=
  match v with
  | PyNone => false
  | _ => true
  end.

Section Login.

Variable env : environment.

(** What [select] and [connect] answer, the attribute [_max_fails], and
    the credentials of the module [account]. *)
Variable k : Connect.link.
Variable _max_fails : nat.
Variable userId password : pyval.

(** [_DataHandler._login] *)
Definition _login (self : nat) : M machine bool :=
  opened <- on_net self (Connect.open k (fuel env) _max_fails) ;;
  if negb opened then ret false
  else
    sent <- _request env self false "login" PyNone
              (Some [("arguments",
                      PyDict [("userId", userId); ("password", password)])])
              PyNone ;;
    if negb sent then ret false
    else
      response <- _receive env self false true ;;
      if negb (truthy response) then ret false
      else
        ssid <- lift_res (py_getitem response "streamSessionId") ;;
        setattr self (set_ssid ssid) ;;
        setattr self (set_status (PyStr "active")) ;;
        ret true.

(** [_DataHandler._reconnect] *)
Definition DataHandler_reconnect (self : nat) : M machine bool :=
  setattr self (set_status (PyStr "inactive")) ;;
  healthy <- attr self (fun h => Connect.check k "basic" (net h)) ;;
  if negb healthy then
    created <- on_net self (Client.create (fuel env)) ;;
    if negb created then ret false
    else
      logged <- _login self ;;
      if negb logged then ret false
      else
        setattr self (set_status (PyStr "active")) ;;
        _ <- _start_ping self PyNone ;;
        ret true
  else ret true.

End Login.

(** [_DataHandler._reconnect] when it is invoked as the callback.  The
    callback of a data handler is invoked by [_request] and [_receive]
    with [retry=True], which only [getData] and the ping loop call, and
    both hold the handler's [_ping_lock] while they do.  The lock is not
    reentrant, so the [with self._ping_lock] of [_login] never gets it:
    from there on the call does not return. *)
Definition reconnect_under_ping_lock (env : environment) (k : Connect.link)
  (self : nat) : M machine bool :=
  setattr self (set_status (PyStr "inactive")) ;;
  healthy <- attr self (fun h => Connect.check k "basic" (net h)) ;;
  if negb healthy then
    created <- on_net self (Client.create (fuel env)) ;;
    if negb created then ret false
    else out_of_fuel
  else ret true.

(** The callable that [_DataHandler.__init__] hands to
    [_set_reconnect_method]: the bound method [self._reconnect], seen
    from the objects. *)
Definition reconnect_method (env : environment) (k : Connect.link)
  (_max_fails : nat) (userId password : pyval) (self : nat)
  (hp : list handler) : res pyval * list handler :=
  match reconnect_under_ping_lock env k self {| heap := hp; log := [] |} with
  | (Val b, m) => (Val (PyBool b), heap m)
  | (Raised e, m) => (Raised e, heap m)
  | (OutOfFuel, m) => (OutOfFuel, heap m)
  end.

(** The environment of a data handler: the one given, with
    [_call_reconnect] set to the handler's own [_reconnect]. *)
Definition data_environment (env : environment) (k : Connect.link)
  (_max_fails : nat) (userId password : pyval) : environment :=
  {| fuel := fuel env;
     dumps := dumps env;
     raw_decode := raw_decode env;
     call_reconnect := reconnect_method env k _max_fails userId password;
     elapsed := elapsed env |}.

(** Two environments that differ at most in the callback. *)
Definition same_wire (env env' : environment) : Prop :=
  fuel env = fuel env' /\ dumps env = dumps env' /\
  raw_decode env = raw_decode env'.

(** The socket of the client is open. *)
Definition socket_open (c : Client.state) : Prop :=
  exists s, Client._socket c = Some s /\ Client.fileno_open s = true.

(** [_StreamHandler.set_datahandler], the setter of the property
    [dataHandler]; [len(self._streams)] counts the keys of the
    dictionary. *)
Definition set_dh (dh : nat) (h : handler) : handler :=
  {| cls := cls h; net := net h; _ping := _ping h; _status := _status h;
     _deleted := _deleted h; _ssid := _ssid h;
     _stream_handlers := _stream_handlers h; _dh := dh;
     _streams := _streams h |}.

Definition set_datahandler (self dataHandler : nat) : M machine pyval :=
  c <- attr dataHandler cls ;;
  match c with
  | StreamHandler => raise ValueError
  | DataHandler =>
      s <- attr self _streams ;;
      if 0 <? length (streams_keys s) then ret PyFalse
      else
        dh <- attr self _dh ;;
        _detach_stream_handler dh self ;;
        setattr self (set_dh dataHandler) ;;
        dh <- attr self _dh ;;
        _detach_stream_handler dh self ;;
        ret PyNone
  end.

(** The time that the [r] rounds of the ping loop from round [round] on
    take together. *)
Fixpoint waited (env : environment) (round r : nat) : Z :=
  match r with
  | 0 => 0%Z
  | S r' => (elapsed env round + waited env (S round) r')%Z
  end.

(** A computation that never invokes the reconnect callback. *)
Definition no_reconnect {A : Type} (c : M machine A) : Prop :=
  forall m, reconnects (log (snd (c m))) = reconnects (log m).

(** The object [self] of [m] is [h] in every attribute of its own, and
    its socket is open. *)
Definition kept_open (self : nat) (h : handler) (m : machine) : Prop :=
  exists n, heap m !! self = Some (set_net n h) /\ socket_open n.

End Session.

(** ** The pool: [HandlerManager] *)

Module Manager.

(** [self._handlers['data']] and [self._handlers['stream']] map a handler
    to its generated name, in the order of registration. *)
Record manager : Type := {
  _handlers_data : list (nat * string);
  _handlers_stream : list (nat * string);
  _max_streams : nat;
  _max_connections : Z;
  _connections : Z;
  _deleted : bool
}.

Record world : Type := {
  mach : Handler.machine;
  mgr : manager
}.

Definition set_connections (z : Z) (g : manager) : manager :=
  {| _handlers_data := _handlers_data g;
     _handlers_stream := _handlers_stream g;
     _max_streams := _max_streams g;
     _max_connections := _max_connections g;
     _connections := z; _deleted := _deleted g |}.

Definition set_deleted (b : bool) (g : manager) : manager :=
  {| _handlers_data := _handlers_data g;
     _handlers_stream := _handlers_stream g;
     _max_streams := _max_streams g;
     _max_connections := _max_connections g;
     _connections := _connections g; _deleted := b |}.

Fixpoint register (h : nat) (name : string) (d : list (nat * string))
  : list (nat * string) :=
  match d with
  | [] => [(h, name)]
  | (h', name') :: d' =>
      if Nat.eqb h h' then (h', name) :: d' else (h', name') :: register h name d'
  end.

Definition set_handlers_data (d : list (nat * string)) (g : manager) : manager :=
  {| _handlers_data := d;
     _handlers_stream := _handlers_stream g;
     _max_streams := _max_streams g;
     _max_connections := _max_connections g;
     _connections := _connections g; _deleted := _deleted g |}.

Definition set_handlers_stream (d : list (nat * string)) (g : manager) : manager :=
  {| _handlers_data := _handlers_data g;
     _handlers_stream := d;
     _max_streams := _max_streams g;
     _max_connections := _max_connections g;
     _connections := _connections g; _deleted := _deleted g |}.

Definition update_mgr (f : manager -> manager) : M world unit :=
  modify (fun w => {| mach := mach w; mgr := f (mgr w) |}).

(** A method of a handler, called by the manager. *)
Definition on_machine {A : Type} (c : M Handler.machine A) : M world A :=
  fun w => let (r, m) := c (mach w) in (r, {| mach := m; mgr := mgr w |}).

(** [list(v)] *)
Definition py_list (v : pyval) : res (list pyval) :=
  match v with
  | PyList xs | PyTuple xs => Val xs
  | PyDict d => Val ((fun kv => PyStr (fst kv)) <$> d)
  | PyStr s => Val ((fun a => PyStr (String a EmptyString)) <$> list_ascii_of_string s)
  | PyNone | PyBool _ | PyInt _ | PyMethod _ _ => Raised TypeError
  end.

Section Pool.

Variable env : Handler.environment.

(** The constructors [_DataHandler(demo, logger)] and
    [_StreamHandler(dataHandler, demo, logger)]: each returns the
    reference of the object it has put on the heap. *)
Variable new_DataHandler : M Handler.machine nat.
Variable new_StreamHandler : nat -> M Handler.machine nat.

(** [for handler in d: if test(handler): return handler] and, after the
    loop, [return None]. *)
Fixpoint first_handler (d : list (nat * string)) (test : nat -> M world bool)
  : M world (option nat) :=
  match d with
  | [] => ret None
  | (h, _) :: d' =>
      ok <- test h ;;
      if ok then ret (Some h) else first_handler d' test
  end.

Definition get_status (handler : nat) : M world pyval :=
  on_machine (Handler.attr handler Handler._status).

Definition _avlb_DataHandler : M world (option nat) :=
  g <- gets mgr ;;
  first_handler (_handlers_data g)
    (fun handler =>
       st <- get_status handler ;;
       ret (py_eq st (PyStr "active"))).

Definition _avlb_StreamHandler : M world (option nat) :=
  g <- gets mgr ;;
  first_handler (_handlers_stream g)
    (fun handler =>
       st <- get_status handler ;;
       if py_eq st (PyStr "active") then
         s <- on_machine (Handler.attr handler Handler._streams) ;;
         ret (length (Handler.tasks s) <? _max_streams g)
       else ret false).

Definition _generate_DataHandler : M world (option nat) :=
  g <- gets mgr ;;
  if (_max_connections g <=? _connections g)%Z then ret None
  else
    let index := length (_handlers_data g) in
    let name := String.append "DH_" (pretty index) in
    dh <- on_machine new_DataHandler ;;
    update_mgr (fun g => set_handlers_data (register dh name (_handlers_data g)) g) ;;
    update_mgr (fun g => set_connections (_connections g + 1)%Z g) ;;
    ret (Some dh).

Definition provide_DataHandler : M world (option nat) :=
  handler <- _avlb_DataHandler ;;
  match handler with
  | Some h => ret (Some h)
  | None => _generate_DataHandler
  end.

Definition _generate_StreamHandler : M world (option nat) :=
  g <- gets mgr ;;
  if (_max_connections g <=? _connections g)%Z then ret None
  else
    let index := length (_handlers_stream g) in
    let name := String.append "SH_" (pretty index) in
    dh <- provide_DataHandler ;;
    sh <- match dh with
          | Some d => on_machine (new_StreamHandler d)
          | None => raise ValueError
          end ;;
    update_mgr (fun g => set_handlers_stream (register sh name (_handlers_stream g)) g) ;;
    update_mgr (fun g => set_connections (_connections g + 1)%Z g) ;;
    ret (Some sh).

Definition provide_StreamHandler : M world (option nat) :=
  handler <- _avlb_StreamHandler ;;
  match handler with
  | Some h => ret (Some h)
  | None => _generate_StreamHandler
  end.

Definition _delete_handler (handler : nat) : M world bool :=
  c <- on_machine (Handler.attr handler Handler.cls) ;;
  match c with
  | Handler.DataHandler =>
      _ <- on_machine (Handler.DataHandler_delete env handler) ;;
      update_mgr (fun g => set_connections (_connections g - 1)%Z g) ;;
      attached <- lift_res (py_list (PyMethod handler "get_StreamHandler")) ;;
      Handler.for_each attached
        (fun _ => update_mgr (fun g => set_connections (_connections g - 1)%Z g)) ;;
      ret true
  | Handler.StreamHandler =>
      _ <- on_machine (Handler.StreamHandler_delete env handler) ;;
      update_mgr (fun g => set_connections (_connections g - 1)%Z g) ;;
      ret true
  end.

(** [HandlerManager.delete]; [handler.get_status] is the bound method. *)
Definition delete : M world pyval :=
  g <- gets mgr ;;
  if _deleted g then ret PyTrue
  else
    Handler.for_each (_handlers_data g)
      (fun entry =>
         let handler := fst entry in
         if py_eq (PyMethod handler "get_status") (PyStr "active")
         then _ <- _delete_handler handler ;; ret tt
         else ret tt) ;;
    update_mgr (set_deleted true) ;;
    ret PyNone.

End Pool.

End Manager.

(** ** The facade: class [Wrapper], and what it inherits from
    [HandlerManager] *)

Module Wrapper.
Import Manager.

(** [handler.get_status() == 'active'] and
    [len(handler._streams['tasks']) < self._max_streams], read off the
    heap. *)
Definition is_active (m : Handler.machine) (handler : nat) : bool :=
  match Handler.heap m !! handler with
  | Some h => py_eq (Handler._status h) (PyStr "active")
  | None => false
  end.

Definition has_room (m : Handler.machine) (max_streams : nat) (handler : nat)
  : bool :=
  match Handler.heap m !! handler with
  | Some h => length (Handler.tasks (Handler._streams h)) <? max_streams
  | None => false
  end.

(** Every handler of the table is an object of the heap. *)
Definition registered (d : list (nat * string)) (m : Handler.machine) : Prop :=
  forall e, e ∈ d -> is_Some (Handler.heap m !! fst e).

(** The entry of [handler] in a table of [self._handlers]. *)
Definition entry (handler : nat) (d : list (nat * string)) : option string :=
  snd <$> List.find (fun e => Nat.eqb handler (fst e)) d.

(** [HandlerManager._get_name]: [self._handlers['data'][handler]['name']].
    The key of the [KeyError] is the handler, shown by its reference. *)
Definition _get_name (handler : nat) : M world string :=
  g <- gets mgr ;;
  match entry handler (_handlers_data g) with
  | Some name => ret name
  | None => raise (KeyError (PyInt (Z.of_nat handler)))
  end.

(** [isinstance(v, str)] and [isinstance(v, int)]; [bool] is a subclass
    of [int]. *)
Definition isinstance_str (v : pyval) : bool :=
  match v with
  | PyStr _ => true
  | _ => false
  end.

Definition isinstance_int (v : pyval) : bool :=
  match v with
  | PyInt _ | PyBool _ => true
  | _ => false
  end.

(** [sep.join(items)]: [TypeError] at the first item that is not a
    string. *)
Fixpoint str_join (sep : string) (items : list pyval) : res string :=
  match items with
  | [] => Val ""
  | PyStr a :: rest =>
      match rest with
      | [] => Val a
      | _ :: _ =>
          match str_join sep rest with
          | Val r => Val (String.append a (String.append sep r))
          | Raised e => Raised e
          | OutOfFuel => OutOfFuel
          end
      end
  | _ :: _ => Raised TypeError
  end.

(** [cmds = [0, 1, 2, 3, 4, 5, 6, 7]] *)
Definition cmds : list pyval :=
  [PyInt 0; PyInt 1; PyInt 2; PyInt 3; PyInt 4; PyInt 5; PyInt 6; PyInt 7].

(** [periods] and the spans of [relativedelta] that the chart requests
    use. *)
Definition periods : list pyval :=
  [PyStr "M1"; PyStr "M5"; PyStr "M15"; PyStr "M30"; PyStr "H1"; PyStr "H4";
   PyStr "D1"; PyStr "W1"; PyStr "MN1"].

Inductive span : Type := Years13 | Months7 | Months1.

Section Channel.

Variable env : Handler.environment.
Variable new_DataHandler : M Handler.machine nat.

(** [_open_data_channel(command=..., **kwargs)].  [self._logger] is a
    [logging.Logger], which is not callable: [self._logger("...")]
    raises [TypeError]. *)
Definition _open_data_channel (command : string)
  (kwargs : list (string * pyval)) : M world pyval :=
  dh <- provide_DataHandler new_DataHandler ;;
  match dh with
  | None => raise TypeError
  | Some d =>
      response <- on_machine (Handler.getData env d command kwargs) ;;
      if negb (truthy response) then ret PyFalse else ret response
  end.

Definition getProfitCalculation (symbol volume openPrice closePrice cmd : pyval)
  : M world pyval :=
  if negb (py_mem cmd cmds) then
    _ <- lift_res (str_join ", " cmds) ;;
    ret PyFalse
  else
    _open_data_channel "ProfitCalculation"
      [("closePrice", closePrice); ("cmd", cmd); ("openPrice", openPrice);
       ("symbol", symbol); ("volume", volume)].

Definition tradeTransaction (cmd symbol volume openPrice sl tp comment : pyval)
  : M world pyval :=
  if negb (py_mem cmd cmds) then
    _ <- lift_res (str_join ", " cmds) ;;
    ret PyFalse
  else
    _open_data_channel "TradeTransaction"
      [("cmd", cmd); ("symbol", symbol); ("volume", volume);
       ("openPrice", openPrice); ("sl", sl); ("tp", tp);
       ("comment", comment)].

(** [getTradeRecords(orders)] and [getTradingHours(symbols)], for lists
    [orders] and [symbols]. *)
Definition getTradeRecords (orders : list pyval) : M world pyval :=
  if forallb isinstance_int orders then ret PyFalse
  else _open_data_channel "TradeRecords" [("orders", PyList orders)].

Definition getTradingHours (symbols : list pyval) : M world pyval :=
  if forallb isinstance_str symbols then ret PyFalse
  else _open_data_channel "TradingHours" [("symbols", PyList symbols)].

(** [getChartLastRequest(symbol, period, start)].  Times are the
    integers that [timestamp()] gives: [now] for [datetime.datetime.now()],
    [before s] for [now - relativedelta(...)] with the span [s], and
    [start] for the argument, [None] when it is left out.  After
    [import datetime], [datetime.min] is an attribute that the module
    does not have. *)
Definition getChartLastRequest (now : Z) (before : span -> Z)
  (symbol period : pyval) (start : option Z) : M world pyval :=
  if negb (py_mem period periods) then raise TypeError
  else
    time_limit <-
      (if py_mem period (drop 6 periods) then raise (AttributeError "timestamp")
       else if py_mem period (drop 5 periods) then ret (before Years13)
       else if py_mem period (drop 3 periods) then ret (before Months7)
       else ret (before Months1)) ;;
    start_time <-
      match start with
      | None => raise (AttributeError "min")
      | Some t => ret t
      end ;;
    if (now <? start_time)%Z then ret PyFalse
    else
      let start_time :=
        if (start_time <? time_limit)%Z then time_limit else start_time in
      _open_data_channel "ChartLastRequest"
        [("period", period); ("start", PyInt start_time); ("symbol", symbol)].

End Channel.

End Wrapper.

(** ** Scenarios

    Concrete systems, clients and handlers on which the embedded code is
    run. *)

Module Scenario.
Import Client.

(** Two candidates for the demonstration host. *)
Definition addr_A : addrinfo :=
  {| ai_socktype := 1; ai_proto := 6; ai_cname := "";
     ai_sockaddr := Inet4 "192.0.2.1" 5124 |}.
Definition addr_B : addrinfo :=
  {| ai_socktype := 1; ai_proto := 6; ai_cname := "";
     ai_sockaddr := Inet4 "192.0.2.2" 5124 |}.
Definition addr_C : addrinfo :=
  {| ai_socktype := 1; ai_proto := 6; ai_cname := "";
     ai_sockaddr := Inet4 "192.0.2.3" 5124 |}.

(** A system on which no socket can be created and nothing is ever
    pending. *)
Definition os_no_sockets (avl : list addrinfo) : Os :=
  {| getaddrinfo := Some avl;
     socket_socket := fun _ _ => false;
     wrap_socket := fun _ => true;
     socket_send := fun _ n => Some n;
     socket_recv := fun _ => Quiet;
     socket_shutdown := fun _ => true |}.

Definition fresh_client (o : Os) (stream : bool) : state :=
  {| _encrypted := true; _blocking := true; _used_addresses := [];
     _selected := None; _socket := None; _bytes_out := 1024;
     _stream := stream; os := o; clock := 0; trace := [] |}.

(** A client that has connected to A before ([_used_addresses] holds
    A's socket address) and now resolves A, B and C. *)
Definition used_A_client : state :=
  set_used [sockaddr_val (ai_sockaddr addr_A)]
    (fresh_client (os_no_sockets [addr_A; addr_B; addr_C]) false).

(** A system on which sockets work, every send goes through and the
    peer's text [reply] is pending at the system interaction number
    [at_clock], nothing otherwise. *)
Definition os_reply (at_clock : nat) (reply : string) : Os :=
  {| getaddrinfo := Some [addr_A];
     socket_socket := fun _ _ => true;
     wrap_socket := fun _ => true;
     socket_send := fun _ n => Some n;
     socket_recv := fun k => if Nat.eqb k at_clock then Chunk reply else Quiet;
     socket_shutdown := fun _ => true |}.

(** The client after a successful [create] to A. *)
Definition connected_client (o : Os) (stream : bool) : state :=
  {| _encrypted := true; _blocking := true;
     _used_addresses := [sockaddr_val (ai_sockaddr addr_A)];
     _selected := Some addr_A;
     _socket := Some {| fileno_open := true; wrapped := true; blocking := true |};
     _bytes_out := 1024; _stream := stream; os := o; clock := 0; trace := [] |}.

(** A handler object right after [_GeneralHandler.__init__]. *)
Definition general_handler (c : Handler.class) (n : state) : Handler.handler :=
  {| Handler.cls := c; Handler.net := n;
     Handler._ping := {| Handler.ping := None; Handler.ping_thread := None |};
     Handler._status := PyNone; Handler._deleted := false;
     Handler._ssid := PyNone; Handler._stream_handlers := [];
     Handler._dh := 0;
     Handler._streams := {| Handler.tasks := []; Handler.stream := None;
                            Handler.stream_thread := None |} |}.

Definition ping_thread_of (arg : pyval) : Handler.thread :=
  {| Handler.target := "_send_ping"; Handler.thread_arg := arg |}.

(** A data handler that has logged in: token stored, status active,
    keepalive started. *)
Definition session (n : state) : Handler.handler :=
  Handler.set_ping {| Handler.ping := Some true;
                      Handler.ping_thread := Some (ping_thread_of PyNone) |}
    (Handler.set_status (PyStr "active")
       (Handler.set_ssid (PyStr "token")
          (general_handler Handler.DataHandler n))).

(** A stream handler of the data handler at reference [dh], with the
    given subscriptions and its read loop and keepalive running. *)
Definition multiplexer (dh : nat) (n : state)
  (ts : list (nat * Handler.task)) : Handler.handler :=
  {| Handler.cls := Handler.StreamHandler; Handler.net := n;
     Handler._ping := {| Handler.ping := Some true;
                         Handler.ping_thread := Some (ping_thread_of (PyStr "token")) |};
     Handler._status := PyStr "active"; Handler._deleted := false;
     Handler._ssid := PyStr "token"; Handler._stream_handlers := [];
     Handler._dh := dh;
     Handler._streams := {| Handler.tasks := ts; Handler.stream := Some true;
                            Handler.stream_thread := Some Handler.read_thread |} |}.

Definition keepalive_task : Handler.task :=
  {| Handler.command := "KeepAlive"; Handler.arguments := [] |}.
Definition ticker_task : Handler.task :=
  {| Handler.command := "TickPrices";
     Handler.arguments := [("symbol", PyStr "ETHEREUM")] |}.

(** The texts on the wire of the scenarios and the values that decoding
    them gives. *)
Definition replies : list (string * pyval) :=
  [("balance",
    PyDict [("status", PyTrue);
            ("returnData", PyDict [("balance", PyInt 100)])]);
   ("no-payload", PyDict [("status", PyTrue)]);
   ("error-E1",
    PyDict [("status", PyFalse); ("errorCode", PyStr "E1");
            ("errorDescr", PyStr "bad")]);
   ("status-false", PyDict [("status", PyFalse)]);
   ("push-without-data", PyDict [("command", PyStr "keepAlive")]);
   ("push-empty-data",
    PyDict [("command", PyStr "tickPrices"); ("data", PyDict [])])].

(** The environment of the scenarios: a callback that does nothing and
    returns [True], rounds of the ping loop that take a whole ping
    interval each. *)
Definition scenario_env : Handler.environment :=
  {| Handler.fuel := 4;
     Handler.dumps := fun _ => "request";
     Handler.raw_decode := fun text => dict_get text replies;
     Handler.call_reconnect := fun _ hp => (Val PyTrue, hp);
     Handler.elapsed := fun _ => 594000%Z |}.

Definition machine_of (hp : list Handler.handler) : Handler.machine :=
  {| Handler.heap := hp; Handler.log := [] |}.

(** A session alone on the heap, at reference 0; the text [reply] is
    pending on its socket at the system interaction number [at_clock]. *)
Definition reply_machine (at_clock : nat) (reply : string) : Handler.machine :=
  machine_of [session (connected_client (os_reply at_clock reply) false)].

(** The same session before it has logged in: no token. *)
Definition tokenless_machine : Handler.machine :=
  machine_of
    [Handler.set_ssid PyNone (session (connected_client (os_reply 99 "") false));
     multiplexer 0 (connected_client (os_reply 99 "") true) []].


(** A system on which every [recv] fails. *)
Definition os_broken : Os :=
  {| getaddrinfo := Some [addr_A];
     socket_socket := fun _ _ => true;
     wrap_socket := fun _ => true;
     socket_send := fun _ n => Some n;
     socket_recv := fun _ => RecvError;
     socket_shutdown := fun _ => true |}.

(** A session on whose socket [recv] fails. *)
Definition broken_machine : Handler.machine :=
  machine_of [session (connected_client os_broken false)].

(** A stream handler with two subscriptions on a socket that fails. *)
Definition broken_stream_machine : Handler.machine :=
  machine_of
    [Handler.set_stream_handlers [1]
       (session (connected_client (os_reply 99 "") false));
     multiplexer 0 (connected_client os_broken true)
       [(0, keepalive_task); (1, ticker_task)]].

(** A client whose socket is open although its used list is empty, as
    after a [create] on which every candidate failed. *)
Definition open_client_without_history : state :=
  set_used [] (connected_client (os_reply 99 "") false).

(** A stream handler that has been deleted. *)
Definition deleted_machine : Handler.machine :=
  machine_of
    [session (connected_client (os_reply 99 "") false);
     Handler.set_deleted true
       (multiplexer 0 (connected_client (os_reply 99 "") true) [])].

(** A session at reference 0 and, at reference 1, a stream handler whose
    socket is open and whose keepalive has not been started yet. *)
Definition ping_machine : Handler.machine :=
  machine_of
    [session (connected_client (os_reply 99 "") false);
     general_handler Handler.StreamHandler
       (connected_client (os_reply 99 "") true)].

(** A session at reference 0 with, attached to it at reference 1, a stream
    handler that holds the keepalive subscription and a ticker
    subscription; the packet [packet] is pending on the stream socket. *)
Definition stream_machine (packet : string) : Handler.machine :=
  machine_of
    [Handler.set_stream_handlers [1]
       (session (connected_client (os_reply 99 "") false));
     multiplexer 0 (connected_client (os_reply 0 packet) true)
       [(0, keepalive_task); (1, ticker_task)]].

(** Constructors whose connection and login succeed: the new object goes
    to the end of the heap. *)
Definition construct_session : M Handler.machine nat :=
  fun m =>
    (Val (length (Handler.heap m)),
     Handler.set_heap
       (Handler.heap m ++ [session (connected_client (os_reply 99 "") false)]) m).

Definition construct_multiplexer (dh : nat) : M Handler.machine nat :=
  fun m =>
    (Val (length (Handler.heap m)),
     Handler.set_heap
       (Handler.heap m
        ++ [multiplexer dh (connected_client (os_reply 99 "") true)
              [(0, keepalive_task)]]) m).

(** A manager that has handed out nothing yet. *)
Definition new_manager (max_connections : Z) : Manager.world :=
  {| Manager.mach := machine_of [];
     Manager.mgr :=
       {| Manager._handlers_data := []; Manager._handlers_stream := [];
          Manager._max_streams := 5;
          Manager._max_connections := max_connections;
          Manager._connections := 0; Manager._deleted := false |} |}.

(** A manager with one registered, active session. *)
Definition manager_with_session : Manager.world :=
  {| Manager.mach := reply_machine 99 "";
     Manager.mgr :=
       {| Manager._handlers_data := [(0, "DH_0")];
          Manager._handlers_stream := [];
          Manager._max_streams := 5; Manager._max_connections := 50;
          Manager._connections := 1; Manager._deleted := false |} |}.

(** A system on which a response arrives in two chunks. *)
Definition os_two_chunks : Os :=
  {| getaddrinfo := Some [addr_A];
     socket_socket := fun _ _ => true;
     wrap_socket := fun _ => true;
     socket_send := fun _ n => Some n;
     socket_recv := fun k =>
       if Nat.eqb k 0 then Chunk "bal"
       else if Nat.eqb k 2 then Chunk "ance" else Quiet;
     socket_shutdown := fun _ => true |}.

(** A system on which the two bytes of a character arrive in different
    chunks: the first chunk ends with 0xC3, the second is 0xA9. *)
Definition os_split_character : Os :=
  {| getaddrinfo := Some [addr_A];
     socket_socket := fun _ _ => true;
     wrap_socket := fun _ => true;
     socket_send := fun _ n => Some n;
     socket_recv := fun k =>
       if Nat.eqb k 0
       then Chunk (String.append "caf" (String (Ascii.ascii_of_nat 195) ""))
       else if Nat.eqb k 2 then Chunk (String (Ascii.ascii_of_nat 169) "")
       else Quiet;
     socket_shutdown := fun _ => true |}.

(** A healthy socket on which the third [connect] gets through. *)
Definition link_third_try : Connect.link :=
  {| Connect.select_errored := fun _ => false;
     Connect.select_readable := fun _ => false;
     Connect.select_writable := fun _ => true;
     Connect.socket_connect := fun k => Nat.leb 2 k |}.

(** A connected client whose chunk size has been set to zero. *)
Definition zero_chunk_client : state :=
  Connect.set_bytes_out 0 (connected_client (os_reply 99 "") false).

(** A socket that [select] never reports as failed and on which the
    first [connect] gets through. *)
Definition link_healthy : Connect.link :=
  {| Connect.select_errored := fun _ => false;
     Connect.select_readable := fun _ => true;
     Connect.select_writable := fun _ => true;
     Connect.socket_connect := fun _ => true |}.

(** The answers of the server to a login, and the environment in which
    they are decoded. *)
Definition login_replies : list (string * pyval) :=
  [("welcome",
    PyDict [("status", PyTrue); ("streamSessionId", PyStr "token")]);
   ("welcome-without-token", PyDict [("status", PyTrue)]);
   ("balance",
    PyDict [("status", PyTrue);
            ("returnData", PyDict [("balance", PyInt 100)])])].

Definition login_env : Handler.environment :=
  {| Handler.fuel := 4;
     Handler.dumps := fun _ => "request";
     Handler.raw_decode := fun text => dict_get text login_replies;
     Handler.call_reconnect := fun _ hp => (Val PyTrue, hp);
     Handler.elapsed := fun _ => 594000%Z |}.

(** A data handler in the middle of its constructor, before [_login]:
    the socket created, no token, no status; the text [reply] is pending
    at the system interaction number [at_clock]. *)
Definition unlogged_machine (at_clock : nat) (reply : string)
  : Handler.machine :=
  machine_of
    [general_handler Handler.DataHandler
       (connected_client (os_reply at_clock reply) false)].

(** A system on which the first [send] fails and every later one goes
    through; the text [reply] is pending at [at_clock]. *)
Definition os_first_send_fails (at_clock : nat) (reply : string) : Os :=
  {| getaddrinfo := Some [addr_A];
     socket_socket := fun _ _ => true;
     wrap_socket := fun _ => true;
     socket_send := fun k n => if Nat.eqb k 0 then None else Some n;
     socket_recv := fun k => if Nat.eqb k at_clock then Chunk reply else Quiet;
     socket_shutdown := fun _ => true |}.

(** The environment of a data handler over [login_env]. *)
Definition session_env : Handler.environment :=
  Session.data_environment login_env link_healthy 10
    (PyStr "user") (PyStr "secret").

(** The environment of the scenarios with, as the callback, the data
    handler's own [_reconnect] on a healthy socket: unlike the callback
    of [scenario_env], it leaves the handler marked as inactive. *)
Definition retry_env : Handler.environment :=
  Session.data_environment scenario_env link_healthy 10
    (PyStr "user") (PyStr "secret").

(** A session on whose socket the first [send] fails; the text [reply]
    is pending at [at_clock]. *)
Definition retry_machine (at_clock : nat) (reply : string) : Handler.machine :=
  machine_of [session (connected_client (os_first_send_fails at_clock reply)
                         false)].

End Scenario.

(** * Properties of the transport *)

Module ClientFacts.
Import Client Scenario.

(** A socket address is a 2-tuple or a 4-tuple and a candidate is a
    5-tuple, so the two never compare equal. *)
Lemma sockaddr_ne_addrinfo (s : sockaddr) (a : addrinfo) :
  py_eq (sockaddr_val s) (addrinfo_val a) = false.
Proof.
  destruct s as [ip port | ip port flow scope]; cbn;
    rewrite ?andb_false_r; reflexivity.
Qed.

(** Hence the test [address[4] not in tried_addresses] always passes. *)
Lemma not_in_tried_always (tried : list addrinfo) (a : addrinfo) :
  not_in_tried tried a = true.
Proof.
  unfold not_in_tried, py_mem.
  induction tried as [| t tried IH]; [reflexivity |].
  cbn [fmap list_fmap existsb]. rewrite sockaddr_ne_addrinfo. exact IH.
Qed.

Lemma select_address_fresh (a : addrinfo) (rest tried : list addrinfo) :
  length tried < length (a :: rest) ->
  select_address (a :: rest) tried [] = tried ++ [a].
Proof.
  intros Hlt. unfold select_address.
  replace (length (@nil pyval) + length tried <? length (a :: rest)) with true
    by (symmetry; apply Nat.ltb_lt; simpl in *; lia).
  cbn [List.find]. rewrite not_in_tried_always. reflexivity.
Qed.

(** C1, on the code.  With two candidates A and B, none of them used
    before, and socket creation failing, one call of [create] attempts A
    twice and B never, then clears the used list and returns [False].
    With candidates A, B and C, of which A is in the used list, one call
    attempts B twice and then the used A, and C never. *)
Theorem create_retries_same_candidate :
  (let c := fresh_client (os_no_sockets [addr_A; addr_B]) false in
   fst (create 8 c) = Val false /\
   trace (snd (create 8 c)) = [Attempt addr_A; Attempt addr_A] /\
   _used_addresses (snd (create 8 c)) = []) /\
  (fst (create 8 used_A_client) = Val false /\
   trace (snd (create 8 used_A_client))
     = [Attempt addr_B; Attempt addr_B; Attempt addr_A] /\
   _used_addresses (snd (create 8 used_A_client)) = []).
Proof. vm_compute. repeat split. Qed.

(** With nothing in the used list and every socket creation failing,
    [create] attempts the first candidate as many times as there are
    candidates, whatever the others are. *)
Lemma create_loop_all_fail (a : addrinfo) (rest : list addrinfo) :
  forall (k n : nat) (tried : list addrinfo) (c : state),
    length tried + k = length (a :: rest) ->
    k < n ->
    _used_addresses c = [] ->
    (forall i x, socket_socket (os c) i x = false) ->
    exists c',
      create_loop n (a :: rest) tried c = (Val false, c') /\
      trace c' = trace c ++ repeat (Attempt a) k /\
      _used_addresses c' = [].
Proof.
  induction k as [| k IH]; intros n tried c Hlen Hn Hused Hfail.
  - destruct n as [| n]; [lia |].
    cbn [create_loop].
    replace (length tried <? length (a :: rest)) with false
      by (symmetry; apply Nat.ltb_ge; lia).
    eexists. split; [reflexivity |]. cbn. rewrite app_nil_r. auto.
  - destruct n as [| n]; [lia |].
    cbn [create_loop].
    replace (length tried <? length (a :: rest)) with true
      by (symmetry; apply Nat.ltb_lt; lia).
    unfold bind at 1. unfold gets at 1. rewrite Hused.
    rewrite select_address_fresh by lia.
    rewrite last_snoc.
    unfold bind, modify, sys. cbn [os set_selected step clock].
    rewrite Hfail. cbn [negb].
    destruct (IH n (tried ++ [a])
                (step (Attempt a) (set_selected a c))) as (c' & He & Ht & Hu).
    + rewrite length_app. simpl in *. lia.
    + lia.
    + exact Hused.
    + exact Hfail.
    + exists c'. split; [exact He |]. split; [| exact Hu].
      rewrite Ht. cbn [trace step set_selected].
      rewrite <- app_assoc. reflexivity.
Qed.

Lemma create_all_fail (fuel : nat) (a : addrinfo) (rest : list addrinfo)
  (c : state) :
  getaddrinfo (os c) = Some (a :: rest) ->
  length (a :: rest) < fuel ->
  _used_addresses c = [] ->
  (forall i x, socket_socket (os c) i x = false) ->
  exists c',
    create fuel c = (Val false, c') /\
    trace c' = trace c ++ repeat (Attempt a) (length (a :: rest)) /\
    _used_addresses c' = [].
Proof.
  intros Hres Hfuel Hused Hfail.
  unfold create, bind, gets. rewrite Hres.
  apply (create_loop_all_fail a rest (length (a :: rest)) fuel [] c);
    auto.
Qed.

(** *** [receive] on a quiet socket *)

(** Not in streaming mode and nothing pending at the first poll:
    [receive] returns the empty string after that one poll, the only
    event recorded. *)
Lemma receive_quiet (n : nat) (c : state) :
  _stream c = false ->
  socket_recv (os c) (clock c) = Quiet ->
  receive (S n) c = (Val (PyStr ""), step (Polled Quiet) c).
Proof.
  intros Hs Hq. unfold receive. cbn [receive_loop].
  unfold bind, sys, gets. rewrite Hq.
  cbn [String.length Nat.ltb Nat.leb andb _stream step]. rewrite Hs.
  reflexivity.
Qed.

(** A failing [recv] makes [receive] return [False]. *)
Lemma receive_error (n : nat) (c : state) :
  socket_recv (os c) (clock c) = RecvError ->
  receive (S n) c = (Val PyFalse, step (Polled RecvError) c).
Proof.
  intros He. unfold receive. cbn [receive_loop].
  unfold bind, sys. rewrite He. reflexivity.
Qed.

(** *** [close] *)

Lemma close_closed (c : state) (s : sock) :
  _socket c = Some s -> fileno_open s = false -> close c = (Val true, c).
Proof.
  intros Hs Hc. unfold close, bind, gets. rewrite Hs, Hc. reflexivity.
Qed.

Lemma close_open (c : state) (s : sock) :
  _socket c = Some s -> fileno_open s = true -> _used_addresses c <> [] ->
  exists c1 s1,
    close c = (Val true, c1) /\ _socket c1 = Some s1 /\
    fileno_open s1 = false.
Proof.
  intros Hs Ho Hu. unfold close, bind, gets, sys, modify.
  destruct c as [enc blk used sel so bo st o k tr]; cbn in *.
  subst so. rewrite Ho. cbn.
  destruct used as [| u us]; [congruence |].
  eexists. eexists. split; [reflexivity |].
  cbn. split; reflexivity.
Qed.

(** Closing twice: the first call returns [True] when the socket is
    already closed or an address is on the used list to pop; the second
    call then returns [True] and changes nothing. *)
Lemma close_twice (c : state) (s : sock) :
  _socket c = Some s ->
  fileno_open s = false \/ _used_addresses c <> [] ->
  exists c1,
    close c = (Val true, c1) /\ close c1 = (Val true, c1).
Proof.
  intros Hs Hpre.
  destruct (fileno_open s) eqn:Ho.
  - destruct Hpre as [Hc | Hu]; [discriminate |].
    destruct (close_open c s Hs Ho Hu) as (c1 & s1 & H1 & Hs1 & Hc1).
    exists c1. split; [exact H1 |]. exact (close_closed c1 s1 Hs1 Hc1).
  - exists c. split; exact (close_closed c s Hs Ho).
Qed.

(** *** What sending and receiving leave alone *)

Lemma send_loop_keeps (n len sent : nat) (c c' : state) (r : res bool) :
  send_loop n len sent c = (r, c') ->
  _socket c' = _socket c /\ _used_addresses c' = _used_addresses c.
Proof.
  revert sent c. induction n as [| n IH]; intros sent c.
  - intros H. injection H as _ <-. auto.
  - cbn [send_loop]. destruct (sent <? len).
    + unfold bind, gets, sys, modify.
      destruct (socket_send (os c) (clock c)
                  (Nat.min (_bytes_out c) (len - sent))) as [k |].
      * intros H. apply IH in H. cbn in H. exact H.
      * intros H. injection H as _ <-. auto.
    + intros H. injection H as _ <-. auto.
Qed.

Lemma receive_loop_keeps (n : nat) (acc : string) (c c' : state)
  (r : res pyval) :
  receive_loop n acc c = (r, c') ->
  _socket c' = _socket c /\ _used_addresses c' = _used_addresses c.
Proof.
  revert acc c. induction n as [| n IH]; intros acc c.
  - intros H. injection H as _ <-. auto.
  - cbn [receive_loop]. unfold bind, sys, gets, modify.
    destruct (socket_recv (os c) (clock c)) as [| d |].
    + cbn [String.length Nat.ltb Nat.leb andb _stream step].
      destruct (_stream c); cbn [andb negb].
      * intros H. apply IH in H. cbn in H. exact H.
      * intros H. injection H as _ <-. auto.
    + destruct ((0 <? String.length d) && negb (utf8_valid d));
        [unfold raise; intros H; injection H as _ <-; auto |].
      cbn [_stream step].
      destruct (_stream c && (0 <? String.length d)).
      * intros H. injection H as _ <-. auto.
      * destruct (negb (_stream c) && (String.length d <=? 0)).
        -- intros H. injection H as _ <-. auto.
        -- intros H. apply IH in H. cbn in H. exact H.
    + intros H. injection H as _ <-. auto.
Qed.

(** [receive] returns a string or [False]. *)
Lemma receive_loop_value (n : nat) (acc : string) (c c' : state) (v : pyval) :
  receive_loop n acc c = (Val v, c') ->
  v = PyFalse \/ exists text, v = PyStr text.
Proof.
  revert acc c. induction n as [| n IH]; intros acc c.
  - discriminate.
  - cbn [receive_loop]. unfold bind, sys, gets, modify.
    destruct (socket_recv (os c) (clock c)) as [| d |].
    + cbn [String.length Nat.ltb Nat.leb andb _stream step].
      destruct (_stream c); cbn [andb negb].
      * apply IH.
      * intros H. injection H as <- _. eauto.
    + destruct ((0 <? String.length d) && negb (utf8_valid d));
        [discriminate |].
      cbn [_stream step].
      destruct (_stream c && (0 <? String.length d)).
      * intros H. injection H as <- _. eauto.
      * destruct (negb (_stream c) && (String.length d <=? 0)).
        -- intros H. injection H as <- _. eauto.
        -- apply IH.
    + intros H. injection H as <- _. auto.
Qed.

End ClientFacts.

(** * Properties of the protocol layer *)

Module HandlerFacts.
Import Handler.

(** ** The record of reconnections *)

Arguments reconnects : simpl never.

Lemma reconnects_app (l l' : list event) :
  reconnects (l ++ l') = reconnects l + reconnects l'.
Proof. unfold reconnects. rewrite List.filter_app, length_app. reflexivity. Qed.

(** ** Running the primitives *)

Lemma lookup_insert_self (hp : list handler) (self : nat) (h h' : handler) :
  hp !! self = Some h -> <[self := h']> hp !! self = Some h'.
Proof.
  intros H. apply list_lookup_insert_eq. eapply lookup_lt_Some, H.
Qed.

Lemma attr_run {A : Type} (self : nat) (f : handler -> A) (m : machine)
  (h : handler) :
  heap m !! self = Some h -> attr self f m = (Val (f h), m).
Proof. intros H. unfold attr. rewrite H. reflexivity. Qed.

Lemma setattr_run (self : nat) (f : handler -> handler) (m : machine)
  (h : handler) :
  heap m !! self = Some h ->
  setattr self f m = (Val tt, set_heap (<[self := f h]> (heap m)) m).
Proof. intros H. unfold setattr. rewrite H. reflexivity. Qed.

Lemma on_net_run {A : Type} (self : nat) (c : M Client.state A) (m : machine)
  (h : handler) (r : res A) (n : Client.state) :
  heap m !! self = Some h -> c (net h) = (r, n) ->
  on_net self c m = (r, set_heap (<[self := set_net n h]> (heap m)) m).
Proof. intros H Hc. unfold on_net. rewrite H, Hc. reflexivity. Qed.

Lemma on_net_log {A : Type} (self : nat) (c : M Client.state A) (m : machine) :
  log (snd (on_net self c m)) = log m.
Proof.
  unfold on_net. destruct (heap m !! self) as [h |]; [| reflexivity].
  destruct (c (net h)). reflexivity.
Qed.

Lemma bind_val {S A B : Type} (c : M S A) (k : A -> M S B) (s s' : S) (a : A) :
  c s = (Val a, s') -> bind c k s = k a s'.
Proof. intros H. unfold bind. rewrite H. reflexivity. Qed.

Lemma setattr_at (self : nat) (f : handler -> handler) (m : machine)
  (h : handler) :
  heap m !! self = Some h ->
  exists m',
    setattr self f m = (Val tt, m') /\ heap m' !! self = Some (f h) /\
    log m' = log m.
Proof.
  intros H. rewrite (setattr_run _ _ _ _ H). eexists. split; [reflexivity |].
  split; [| reflexivity]. cbn [heap set_heap].
  apply (lookup_insert_self _ _ _ _ H).
Qed.

Lemma on_net_at {A : Type} (self : nat) (c : M Client.state A) (m : machine)
  (h : handler) (r : res A) (n : Client.state) :
  heap m !! self = Some h -> c (net h) = (r, n) ->
  exists m',
    on_net self c m = (r, m') /\ heap m' !! self = Some (set_net n h) /\
    log m' = log m.
Proof.
  intros H Hc. rewrite (on_net_run _ _ _ _ _ _ H Hc). eexists.
  split; [reflexivity |]. split; [| reflexivity]. cbn [heap set_heap].
  apply (lookup_insert_self _ _ _ _ H).
Qed.

(** ** Stopping the keepalive *)

Lemma stop_ping_never_started self inThread (m : machine) (h : handler) :
  heap m !! self = Some h -> ping (_ping h) = None ->
  _stop_ping self inThread m = (Val false, m).
Proof.
  intros Hh Hp. unfold _stop_ping.
  rewrite (bind_val _ _ _ _ _ (attr_run _ _ _ _ Hh)), Hp. reflexivity.
Qed.

Lemma stop_ping_started self (m : machine) (h : handler) b t :
  heap m !! self = Some h ->
  ping (_ping h) = Some b -> ping_thread (_ping h) = Some t ->
  _stop_ping self false m
  = (Val true,
     {| heap := <[self := set_ping {| ping := Some false;
                                      ping_thread := Some t |} h]> (heap m);
        log := log m ++ [Join self t] |}).
Proof.
  intros Hh Hp Ht. unfold _stop_ping.
  rewrite (bind_val _ _ _ _ _ (attr_run _ _ _ _ Hh)), Hp, Ht.
  rewrite (bind_val _ _ _ _ _ (setattr_run _ _ _ _ Hh)).
  reflexivity.
Qed.

(** Stopping twice: both calls return [True] and the second leaves every
    object as the first left it. *)
Lemma stop_ping_twice self (m : machine) (h : handler) b t :
  heap m !! self = Some h ->
  ping (_ping h) = Some b -> ping_thread (_ping h) = Some t ->
  exists m1 m2,
    _stop_ping self false m = (Val true, m1) /\
    _stop_ping self false m1 = (Val true, m2) /\
    heap m2 = heap m1.
Proof.
  intros Hh Hp Ht.
  rewrite (stop_ping_started _ _ _ _ _ Hh Hp Ht).
  set (h1 := set_ping {| ping := Some false; ping_thread := Some t |} h).
  eexists. eexists. split; [reflexivity |].
  rewrite (stop_ping_started self
             {| heap := <[self := h1]> (heap m);
                log := log m ++ [Join self t] |} h1 false t
             (lookup_insert_self _ _ _ _ Hh) eq_refl eq_refl).
  split; [reflexivity |]. cbn [heap].
  rewrite list_insert_insert_eq. reflexivity.
Qed.

Section Facts.

Variable env : environment.

Lemma send_request_log self cmd stream args tag (m : machine) :
  reconnects (log (snd (_send_request env self cmd stream args tag m)))
  = reconnects (log m).
Proof.
  unfold _send_request, bind.
  match goal with |- context [on_net self ?c m] =>
    pose proof (on_net_log self c m) as Hl; destruct (on_net self c m) as [[b | e |] m1]
  end; cbn in *; rewrite ?Hl; try reflexivity.
  rewrite reconnects_app. unfold reconnects at 2. cbn. lia.
Qed.

Lemma receive_response_log self (m : machine) :
  log (snd (_receive_response env self m)) = log m.
Proof.
  unfold _receive_response, bind.
  match goal with |- context [on_net self ?c m] =>
    pose proof (on_net_log self c m) as Hl; destruct (on_net self c m) as [[v | e |] m1]
  end; cbn in *; try exact Hl.
  destruct (truthy v); cbn; [| exact Hl].
  destruct v; cbn; try exact Hl.
  destruct (raw_decode env s); exact Hl.
Qed.

Lemma reconnect_log self (m : machine) :
  log (snd (reconnect env self m)) = log m ++ [Reconnect self].
Proof.
  unfold reconnect, bind, emit. cbn.
  destruct (call_reconnect env self (heap m)). reflexivity.
Qed.

(** The loop of [_request] with [retry=False] is one attempt. *)
Lemma request_loop_no_retry (n : nat) self cmd stream args tag (m : machine) :
  _request_loop env (S n) self false cmd stream args tag m
  = _send_request env self cmd stream args tag m.
Proof.
  cbn [_request_loop]. unfold bind.
  destruct (_send_request env self cmd stream args tag m) as [[[] | e |] m1];
    reflexivity.
Qed.


Lemma receive_loop_no_retry (n : nat) self (m : machine) :
  _receive_loop env (S n) self false m
  = (r <- _receive_response env self ;;
     ret (if truthy r then Some r else None)) m.
Proof.
  cbn [_receive_loop]. unfold bind.
  destruct (_receive_response env self m) as [[v | e |] m1]; try reflexivity.
  destruct (truthy v); reflexivity.
Qed.

Lemma receive_loop_retry (n : nat) self (m : machine) :
  _receive_loop env (S (S n)) self true m
  = (r <- _receive_response env self ;;
     if truthy r then ret (Some r)
     else reconnect env self ;;
          r' <- _receive_response env self ;;
          ret (if truthy r' then Some r' else None)) m.
Proof.
  cbn [_receive_loop]. unfold bind.
  destruct (_receive_response env self m) as [[v | e |] m1]; try reflexivity.
  destruct (truthy v); cbn [negb]; [reflexivity |].
  destruct (reconnect env self m1) as [[w | e |] m2]; try reflexivity.
  destruct (_receive_response env self m2) as [[v' | e |] m3]; try reflexivity.
  destruct (truthy v'); reflexivity.
Qed.

(** What [_receive] does after its loop adds no reconnection. *)
Lemma receive_reconnects self retry data (m : machine) :
  reconnects (log (snd (_receive env self retry data m)))
  = reconnects (log (snd (_receive_loop env (fuel env) self retry m))).
Proof.
  unfold _receive, bind.
  destruct (_receive_loop env (fuel env) self retry m) as [[[r |] | e |] m1];
    try reflexivity.
  destruct data; [| reflexivity].
  unfold lift_res, emit, ret.
  destruct (py_in "status" r) as [[] | e |]; try reflexivity.
  cbn [negb].
  destruct (py_getitem r "status") as [st | e |]; try reflexivity.
  destruct (truthy st); cbn [negb]; [reflexivity |].
  destruct (py_getitem r "errorCode") as [code | e |]; try reflexivity.
  destruct (py_getitem r "errorDescr") as [descr | e |]; cbn [snd log];
    rewrite ?reconnects_app; unfold reconnects; cbn; lia.
Qed.

Lemma request_reconnects_no_retry (n : nat) self cmd stream args tag
  (m : machine) :
  reconnects (log (snd (_request_loop env (S n) self false cmd stream args tag m)))
  = reconnects (log m).
Proof. rewrite request_loop_no_retry. apply send_request_log. Qed.


Lemma receive_loop_reconnects_no_retry (n : nat) self (m : machine) :
  reconnects (log (snd (_receive_loop env (S n) self false m)))
  = reconnects (log m).
Proof.
  rewrite receive_loop_no_retry. unfold bind.
  pose proof (receive_response_log self m) as H1.
  destruct (_receive_response env self m) as [[v | e |] m1];
    cbn [snd ret] in *; rewrite H1; reflexivity.
Qed.

Lemma receive_loop_reconnects_retry (n : nat) self (m : machine) :
  reconnects (log (snd (_receive_loop env (S (S n)) self true m)))
  = match fst (_receive_response env self m) with
    | Val r => if truthy r then 0 else 1
    | _ => 0
    end + reconnects (log m).
Proof.
  rewrite receive_loop_retry. unfold bind.
  pose proof (receive_response_log self m) as H1.
  destruct (_receive_response env self m) as [[v | e |] m1];
    cbn [fst snd] in *; try (rewrite H1; reflexivity).
  destruct (truthy v); cbn [snd ret]; [rewrite H1; reflexivity |].
  pose proof (reconnect_log self m1) as H2.
  destruct (reconnect env self m1) as [[w | e |] m2]; cbn [snd] in *;
    try (rewrite H2, reconnects_app, H1; unfold reconnects at 2; cbn; lia).
  pose proof (receive_response_log self m2) as H3.
  destruct (_receive_response env self m2) as [[v' | e |] m3];
    cbn [snd ret] in *;
    rewrite H3, H2, reconnects_app, H1; unfold reconnects at 2; cbn; lia.
Qed.



(** ** What the protocol methods leave alone *)

Lemma set_net_same (h : handler) : set_net (net h) h = h.
Proof. destruct h; reflexivity. Qed.


Lemma kept_here (self : nat) (h : handler) (m : machine) :
  heap m !! self = Some h -> kept self h m.
Proof. intros H. exists (net h). rewrite set_net_same. exact H. Qed.

Lemma on_net_kept {A : Type} (self other : nat) (h : handler)
  (c : M Client.state A) (m : machine) :
  kept self h m -> kept self h (snd (on_net other c m)).
Proof.
  intros [n H]. unfold on_net.
  destruct (heap m !! other) as [o |] eqn:Ho; [| exists n; exact H].
  destruct (c (net o)) as [r n']. cbn [snd set_heap heap].
  destruct (decide (other = self)) as [-> | Hne].
  - rewrite H in Ho. injection Ho as <-.
    exists n'. cbn [set_heap heap].
    rewrite (lookup_insert_self _ _ _ _ H). reflexivity.
  - exists n. cbn [set_heap heap].
    rewrite list_lookup_insert_ne by exact Hne. exact H.
Qed.

Lemma send_request_kept self other h cmd stream args tag (m : machine) :
  kept self h m ->
  kept self h (snd (_send_request env other cmd stream args tag m)).
Proof.
  intros H. unfold _send_request, bind.
  match goal with |- context [on_net other ?c m] =>
    pose proof (on_net_kept self other h c m H) as Hk;
    destruct (on_net other c m) as [[b | e |] m1]
  end; exact Hk.
Qed.

Lemma receive_response_kept self other h (m : machine) :
  kept self h m -> kept self h (snd (_receive_response env other m)).
Proof.
  intros H. unfold _receive_response, bind.
  match goal with |- context [on_net other ?c m] =>
    pose proof (on_net_kept self other h c m H) as Hk;
    destruct (on_net other c m) as [[v | e |] m1]
  end; try exact Hk.
  destruct (truthy v); cbn [negb]; [| exact Hk].
  destruct v; try exact Hk.
  destruct (raw_decode env s); exact Hk.
Qed.

Lemma dict_get_truthy (k : string) (d : list (string * pyval)) (v : pyval) :
  dict_get k d = Some v -> truthy (PyDict d) = true.
Proof. destruct d; [discriminate | reflexivity]. Qed.

Lemma dict_get_has (k : string) (d : list (string * pyval)) (v : pyval) :
  dict_get k d = Some v -> dict_has k d = true.
Proof. intros H. unfold dict_has. rewrite H. reflexivity. Qed.

(** ** A response with a false status *)

Lemma receive_status_false self retry (m1 m2 : machine) d st code descr :
  1 <= fuel env ->
  _receive_response env self m1 = (Val (PyDict d), m2) ->
  dict_get "status" d = Some st -> truthy st = false ->
  dict_get "errorCode" d = Some code ->
  dict_get "errorDescr" d = Some descr ->
  _receive env self retry true m1
  = (Val PyFalse,
     {| heap := heap m2;
        log := log m2 ++ [Report self code; Report self descr] |}).
Proof.
  intros Hfuel Hrecv Hst Hfalse Hcode Hdescr.
  unfold _receive. destruct (fuel env) as [| n]; [lia |].
  cbn [_receive_loop]. unfold bind. rewrite Hrecv.
  rewrite (dict_get_truthy _ _ _ Hst). cbn [negb ret].
  unfold lift_res, py_in, py_getitem.
  rewrite (dict_get_has _ _ _ Hst), Hst, Hfalse, Hcode, Hdescr.
  cbn. rewrite <- app_assoc. reflexivity.
Qed.

(** The same once the loop of [_receive] has read the response, at the
    first attempt or at the retry. *)
Lemma receive_status_false_read self retry (m1 m2 : machine) d st code descr :
  _receive_loop env (fuel env) self retry m1 = (Val (Some (PyDict d)), m2) ->
  dict_get "status" d = Some st -> truthy st = false ->
  dict_get "errorCode" d = Some code ->
  dict_get "errorDescr" d = Some descr ->
  _receive env self retry true m1
  = (Val PyFalse,
     {| heap := heap m2;
        log := log m2 ++ [Report self code; Report self descr] |}).
Proof.
  intros Hloop Hst Hfalse Hcode Hdescr.
  unfold _receive. rewrite (bind_val _ _ _ _ _ Hloop).
  unfold bind, lift_res, py_in, py_getitem, emit, ret.
  rewrite (dict_get_has _ _ _ Hst), Hst, Hfalse, Hcode, Hdescr.
  cbn. rewrite <- app_assoc. reflexivity.
Qed.

(** C3.  A response whose [status] is false and which carries
    [errorCode] and [errorDescr]: once the loop of [_receive] has read
    it, at the first attempt or at the retry, [_receive] with [data=True]
    reports the two fields and returns [False] without invoking the
    callback and without changing an object; a [getData] whose request
    went out and which reads such a response returns [False], and leaves
    every object, the status of the handler included, as it was when the
    response had been read.  When the request goes out and the response
    is read at the first attempt, the callback is not invoked during the
    call and the status of the handler is what it was before. *)
Theorem application_failure_is_not_retried self cmd kwargs
  (m m1 m2 : machine) (h : handler) d st code descr :
  heap m !! self = Some h ->
  truthy (_ssid h) = true ->
  _request env self true ("get" ++ cmd) PyNone
    (if truthy (PyDict kwargs) then Some [("arguments", PyDict kwargs)]
     else None) PyNone m = (Val true, m1) ->
  _receive_loop env (fuel env) self true m1 = (Val (Some (PyDict d)), m2) ->
  dict_get "status" d = Some st -> truthy st = false ->
  dict_get "errorCode" d = Some code ->
  dict_get "errorDescr" d = Some descr ->
  let mf := {| heap := heap m2;
               log := log m2 ++ [Report self code; Report self descr] |} in
  (forall retry (m0 m0' : machine),
     _receive_loop env (fuel env) self retry m0 = (Val (Some (PyDict d)), m0') ->
     _receive env self retry true m0
     = (Val PyFalse,
        {| heap := heap m0';
           log := log m0' ++ [Report self code; Report self descr] |})) /\
  getData env self cmd kwargs m = (Val PyFalse, mf) /\
  reconnects (log mf) = reconnects (log m2) /\
  heap mf = heap m2 /\
  (1 <= fuel env ->
   _send_request env self ("get" ++ cmd) PyNone
     (if truthy (PyDict kwargs) then Some [("arguments", PyDict kwargs)]
      else None) PyNone m = (Val true, m1) ->
   _receive_response env self m1 = (Val (PyDict d), m2) ->
   (forall retry, _receive env self retry true m1 = (Val PyFalse, mf)) /\
   reconnects (log mf) = reconnects (log m) /\
   _status <$> (heap mf !! self) = Some (_status h)).
Proof.
  intros Hh Hssid Hreq Hloop Hst Hfalse Hcode Hdescr mf.
  assert (Hread : forall retry (m0 m0' : machine),
    _receive_loop env (fuel env) self retry m0 = (Val (Some (PyDict d)), m0') ->
    _receive env self retry true m0
    = (Val PyFalse,
       {| heap := heap m0';
          log := log m0' ++ [Report self code; Report self descr] |}))
    by (intros retry m0 m0' H; eapply receive_status_false_read; eassumption).
  split; [exact Hread |]. split; [| split; [| split; [reflexivity |]]].
  - unfold getData. rewrite (bind_val _ _ _ _ _ (attr_run _ _ _ _ Hh)), Hssid.
    cbn [negb]. rewrite (bind_val _ _ _ _ _ Hreq). cbn [negb].
    rewrite (bind_val _ _ _ _ _ (Hread true m1 m2 Hloop)). reflexivity.
  - subst mf. cbn [log]. rewrite reconnects_app.
    unfold reconnects at 2. cbn. lia.
  - intros Hfuel Hsend Hrecv.
    assert (Hr : forall retry,
      _receive env self retry true m1 = (Val PyFalse, mf))
      by (intros retry; eapply receive_status_false; eassumption).
    split; [exact Hr |]. split.
    + subst mf. cbn [log]. rewrite reconnects_app.
      pose proof (receive_response_log self m1) as H2. rewrite Hrecv in H2.
      pose proof (send_request_log self ("get" ++ cmd) PyNone
                    (if truthy (PyDict kwargs)
                     then Some [("arguments", PyDict kwargs)] else None)
                    PyNone m) as H1.
      rewrite Hsend in H1. cbn [snd] in H1, H2. rewrite H2, H1.
      unfold reconnects at 2. cbn. lia.
    + pose proof (send_request_kept self self h ("get" ++ cmd) PyNone
                    (if truthy (PyDict kwargs)
                     then Some [("arguments", PyDict kwargs)] else None)
                    PyNone m (kept_here _ _ _ Hh)) as K1.
      rewrite Hsend in K1. cbn [snd] in K1.
      pose proof (receive_response_kept self self h m1 K1) as K2.
      rewrite Hrecv in K2. cbn [snd] in K2. destruct K2 as [n K2].
      subst mf. cbn [heap]. rewrite K2. reflexivity.
Qed.

(** ** The session token and the payload *)

Lemma getData_without_token self cmd kwargs (m : machine) (h : handler) :
  heap m !! self = Some h -> truthy (_ssid h) = false ->
  getData env self cmd kwargs m = (Val PyFalse, m).
Proof.
  intros Hh Hs. unfold getData, bind.
  rewrite (attr_run _ _ _ _ Hh), Hs. reflexivity.
Qed.

Lemma streamData_without_token self cmd kwargs (m : machine)
  (h d : handler) :
  heap m !! self = Some h -> heap m !! _dh h = Some d ->
  truthy (_ssid d) = false ->
  streamData env self cmd kwargs m = (Val false, m).
Proof.
  intros Hh Hd Hs. unfold streamData, bind.
  rewrite (attr_run _ _ _ _ Hh), (attr_run _ _ _ _ Hd), Hs. reflexivity.
Qed.

(** What [_receive] with [data=True] lets through is a dictionary with a
    true [status]. *)
Lemma receive_validated self retry (m1 m2 : machine) (response : pyval) :
  _receive env self retry true m1 = (Val response, m2) ->
  truthy response = true ->
  exists d st,
    response = PyDict d /\ dict_get "status" d = Some st /\ truthy st = true.
Proof.
  unfold _receive, bind, lift_res, emit, ret.
  destruct (_receive_loop env (fuel env) self retry m1) as [[[r |] | e |] m'];
    try discriminate.
  2: { intros H Ht. injection H as <- _. discriminate. }
  destruct r as [| b | z | s | xs | xs | d | o nm]; cbn [py_in py_getitem];
    try discriminate;
    try (match goal with |- context [negb ?b] => destruct b end;
         cbn [negb]; intros H Ht; try discriminate H;
         injection H as <- _; discriminate Ht).
  destruct (dict_has "status" d) eqn:Hhas; cbn [negb].
  2: { intros H Ht. injection H as <- _. discriminate. }
  destruct (dict_get "status" d) as [st |] eqn:Hst; [| discriminate].
  destruct (truthy st) eqn:Htr; cbn [negb].
  - intros H _. injection H as <- _. exists d, st. auto.
  - destruct (dict_get "errorCode" d); [| discriminate].
    destruct (dict_get "errorDescr" d); [| discriminate].
    intros H Ht. injection H as <- _. discriminate.
Qed.

Lemma getData_with_token self cmd kwargs (m m1 m2 : machine) (h : handler)
  (response : pyval) :
  heap m !! self = Some h -> truthy (_ssid h) = true ->
  _request env self true ("get" ++ cmd) PyNone
    (if truthy (PyDict kwargs) then Some [("arguments", PyDict kwargs)]
     else None) PyNone m = (Val true, m1) ->
  _receive env self true true m1 = (Val response, m2) ->
  truthy response = true ->
  exists d,
    response = PyDict d /\
    getData env self cmd kwargs m
    = (Val (default PyFalse (dict_get "returnData" d)), m2).
Proof.
  intros Hh Hs Hreq Hrecv Ht.
  destruct (receive_validated _ _ _ _ _ Hrecv Ht) as (d & st & -> & _ & _).
  exists d. split; [reflexivity |].
  unfold getData, bind. rewrite (attr_run _ _ _ _ Hh), Hs. cbn [negb].
  rewrite Hreq. cbn [negb]. rewrite Hrecv, Ht. cbn [negb].
  unfold lift_res, py_in, py_getitem, dict_has.
  destruct (dict_get "returnData" d); reflexivity.
Qed.

(** C4.  Without a session token [getData] and [streamData] return
    [False] and leave the machine as it was: no request is built, nothing
    is handed to the socket.  With a token, a request that went out and a
    response that [_receive] let through, [getData] returns the
    [returnData] entry of the response, or [False] when there is none. *)
Theorem token_is_required_and_payload_returned cmd kwargs
  (dh sh : nat) (m : machine) (h hs d : handler)
  (self : nat) (m' m1 m2 : machine) (h' : handler) (response : pyval) :
  heap m !! dh = Some h -> truthy (_ssid h) = false ->
  heap m !! sh = Some hs -> heap m !! _dh hs = Some d ->
  truthy (_ssid d) = false ->
  heap m' !! self = Some h' -> truthy (_ssid h') = true ->
  _request env self true ("get" ++ cmd) PyNone
    (if truthy (PyDict kwargs) then Some [("arguments", PyDict kwargs)]
     else None) PyNone m' = (Val true, m1) ->
  _receive env self true true m1 = (Val response, m2) ->
  truthy response = true ->
  getData env dh cmd kwargs m = (Val PyFalse, m) /\
  streamData env sh cmd kwargs m = (Val false, m) /\
  exists payload,
    response = PyDict payload /\
    getData env self cmd kwargs m'
    = (match dict_get "returnData" payload with
       | Some v => Val v
       | None => Val PyFalse
       end, m2).
Proof.
  intros Hh Hs Hhs Hd Hds Hh' Hs' Hreq Hrecv Ht.
  split; [eapply getData_without_token; eassumption |].
  split; [eapply streamData_without_token; eassumption |].
  destruct (getData_with_token _ _ _ _ _ _ _ _ Hh' Hs' Hreq Hrecv Ht)
    as (p & -> & Hg).
  exists p. split; [reflexivity |]. rewrite Hg.
  destruct (dict_get "returnData" p); reflexivity.
Qed.

(** ** A quiet socket *)

Lemma receive_response_quiet self (m : machine) (h : handler) :
  1 <= fuel env ->
  heap m !! self = Some h ->
  Client._stream (net h) = false ->
  Client.socket_recv (Client.os (net h)) (Client.clock (net h)) = Client.Quiet ->
  fst (_receive_response env self m) = Val PyFalse.
Proof.
  intros Hfuel Hh Hs Hq. unfold _receive_response, bind.
  destruct (fuel env) as [| n]; [lia |].
  rewrite (on_net_run _ _ _ _ _ _ Hh (ClientFacts.receive_quiet n _ Hs Hq)).
  reflexivity.
Qed.

Lemma receive_response_error self (m : machine) (h : handler) :
  1 <= fuel env ->
  heap m !! self = Some h ->
  Client.socket_recv (Client.os (net h)) (Client.clock (net h))
  = Client.RecvError ->
  fst (_receive_response env self m) = Val PyFalse.
Proof.
  intros Hfuel Hh He. unfold _receive_response, bind.
  destruct (fuel env) as [| n]; [lia |].
  rewrite (on_net_run _ _ _ _ _ _ Hh (ClientFacts.receive_error n _ He)).
  reflexivity.
Qed.

(** C10.  Not in streaming mode and with nothing pending at the first
    poll, [receive] returns the empty string after that single poll,
    without a sleep; [_receive_response] turns it into [False], the value
    it also gives when [recv] fails; and [_receive] with [retry=True]
    answers it by invoking the reconnect callback once. *)
Theorem quiet_socket_reads_as_failure self data
  (m m' : machine) (h h' : handler) :
  2 <= fuel env ->
  heap m !! self = Some h ->
  Client._stream (net h) = false ->
  Client.socket_recv (Client.os (net h)) (Client.clock (net h))
  = Client.Quiet ->
  heap m' !! self = Some h' ->
  Client.socket_recv (Client.os (net h')) (Client.clock (net h'))
  = Client.RecvError ->
  Client.receive (fuel env) (net h)
  = (Val (PyStr ""), Client.step (Client.Polled Client.Quiet) (net h)) /\
  Client.trace (snd (Client.receive (fuel env) (net h)))
  = Client.trace (net h) ++ [Client.Polled Client.Quiet] /\
  fst (_receive_response env self m) = Val PyFalse /\
  fst (_receive_response env self m') = Val PyFalse /\
  reconnects (log (snd (_receive env self true data m)))
  = 1 + reconnects (log m).
Proof.
  intros Hfuel Hh Hs Hq Hh' He.
  assert (Hr : Client.receive (fuel env) (net h)
               = (Val (PyStr ""),
                  Client.step (Client.Polled Client.Quiet) (net h))).
  { destruct (fuel env) as [| n]; [lia |].
    apply ClientFacts.receive_quiet; assumption. }
  split; [exact Hr |]. split; [rewrite Hr; reflexivity |].
  assert (Hq' : fst (_receive_response env self m) = Val PyFalse)
    by (apply (receive_response_quiet self m h); auto; lia).
  split; [exact Hq' |].
  split; [apply (receive_response_error self m' h'); auto; lia |].
  rewrite receive_reconnects.
  destruct (fuel env) as [| [| n]]; [lia | lia |].
  rewrite receive_loop_reconnects_retry, Hq'. reflexivity.
Qed.

(** ** Ending a stream *)

Lemma request_kept self other h n retry cmd stream args tag (m : machine) :
  retry = false ->
  kept self h m ->
  kept self h (snd (_request_loop env n other retry cmd stream args tag m)).
Proof.
  intros -> H. destruct n as [| n]; [exact H |].
  rewrite request_loop_no_retry. apply send_request_kept, H.
Qed.

(** After its first round the loop of [endStream] finds the dictionary
    one entry shorter than when it began. *)
Lemma endStream_loop_size self keys used command (m : machine) (h : handler) :
  heap m !! self = Some h ->
  length (tasks (_streams h)) <> used ->
  endStream_loop env self keys used command m = (Raised RuntimeError, m).
Proof.
  intros Hh Hne.
  destruct keys; cbn [endStream_loop]; unfold bind;
    rewrite (attr_run _ _ _ _ Hh);
    destruct (Nat.eqb_spec (length (tasks (_streams h))) used);
    try contradiction; reflexivity.
Qed.

Lemma task_pop_head (i : nat) (t : task) (rest : list (nat * task)) :
  task_pop i ((i, t) :: rest) = rest.
Proof. cbn. rewrite Nat.eqb_refl. reflexivity. Qed.

(** With entries in the dictionary the loop never completes, without
    entries it leaves [command] unassigned. *)
Lemma endStream_loop_result self (m : machine) (h : handler) :
  heap m !! self = Some h ->
  forall c m',
    endStream_loop env self (fst <$> tasks (_streams h))
      (length (tasks (_streams h))) None m <> (Val (Some c), m').
Proof.
  intros Hh c m'.
  destruct (tasks (_streams h)) as [| [i t] rest] eqn:Ht.
  - cbn [fmap list_fmap endStream_loop]. unfold bind.
    rewrite (attr_run _ _ _ _ Hh), Ht. cbn. discriminate.
  - cbn [fmap list_fmap fst endStream_loop]. unfold bind at 1.
    rewrite (attr_run _ _ _ _ Hh), Ht. rewrite Nat.eqb_refl. cbn [negb].
    cbn [task_get]. rewrite Nat.eqb_refl. unfold bind at 1.
    pose proof (request_kept self self h (fuel env) false
                  ("stop" ++ command t) PyNone
                  match dict_get "symbol" (arguments t) with
                  | Some v => Some [("symbol", v)]
                  | None => None
                  end PyNone m eq_refl (kept_here _ _ _ Hh)) as K.
    unfold _request.
    destruct (_request_loop env (fuel env) self false ("stop" ++ command t)
                PyNone _ PyNone m) as [[b | e |] m1]; try discriminate.
    cbn [snd] in K. destruct K as [n K].
    unfold bind at 1. rewrite (attr_run _ _ _ _ K).
    cbn [_streams set_net]. rewrite Ht. cbn [task_get].
    rewrite Nat.eqb_refl. unfold bind at 1.
    rewrite (setattr_run _ _ _ _ K).
    erewrite endStream_loop_size; [discriminate | |].
    + cbn [heap set_heap]. apply (lookup_insert_self _ _ _ _ K).
    + cbn [_streams set_streams set_net tasks set_tasks].
      rewrite task_pop_head. cbn [length]. lia.
Qed.

(** [endStream] never returns: it ends in [KeyError] when no stream was
    ever started, in [RuntimeError] when a subscription is registered, in
    [UnboundLocalError] when none is. *)
Lemma endStream_never_returns self inThread (m m' : machine) (b : bool) :
  endStream env self inThread m <> (Val b, m').
Proof.
  unfold endStream. unfold bind at 1. unfold attr at 1.
  destruct (heap m !! self) as [h |] eqn:Hh; [| discriminate].
  destruct (stream (_streams h)) as [running |] eqn:Hs; [| discriminate].
  assert (Hstep1 : exists m1 h1,
    (if negb running then ret tt
     else setattr self (set_streams (set_stream false (_streams h)))) m
    = (Val tt, m1) /\ heap m1 !! self = Some h1 /\
    tasks (_streams h1) = tasks (_streams h)).
  { destruct running; cbn [negb].
    - rewrite (setattr_run _ _ _ _ Hh). eexists. eexists.
      split; [reflexivity |]. split.
      + cbn [heap set_heap]. apply (lookup_insert_self _ _ _ _ Hh).
      + reflexivity.
    - exists m, h. auto. }
  destruct Hstep1 as (m1 & h1 & E1 & Hh1 & Ht1).
  unfold bind at 1. rewrite E1.
  assert (Hstep2 : forall r m2,
    (if negb (truthy inThread)
     then match stream_thread (_streams h) with
          | Some t => emit (Join self t)
          | None => raise (KeyError (PyStr "thread"))
          end
     else ret tt) m1 = (r, m2) -> heap m2 = heap m1).
  { intros r m2. destruct (truthy inThread); cbn [negb].
    - intros H. injection H as _ <-. reflexivity.
    - destruct (stream_thread (_streams h)); intros H;
        injection H as _ <-; reflexivity. }
  unfold bind at 1.
  destruct ((if negb (truthy inThread)
             then match stream_thread (_streams h) with
                  | Some t => emit (Join self t)
                  | None => raise (KeyError (PyStr "thread"))
                  end
             else ret tt) m1) as [[[] | e |] m2] eqn:E2; try discriminate.
  pose proof (Hstep2 _ _ eq_refl) as E2'.
  assert (Hh2 : heap m2 !! self = Some h1) by (rewrite E2'; exact Hh1).
  unfold bind at 1. rewrite (attr_run _ _ _ _ Hh2).
  unfold bind.
  pose proof (endStream_loop_result self m2 h1 Hh2) as Hloop.
  destruct (endStream_loop env self (fst <$> tasks (_streams h1))
              (length (tasks (_streams h1))) None m2)
    as [[[c |] | e |] m3] eqn:E3; try discriminate.
  exfalso. exact (Hloop c m3 eq_refl).
Qed.

(** A packet without a [data] entry: the read loop ends in [KeyError],
    in the state in which [_receive] left the handler; [endStream] is not
    run. *)
Lemma readStream_missing_data self (m m1 : machine) (h : handler) d :
  1 <= fuel env ->
  heap m !! self = Some h ->
  stream (_streams h) = Some true ->
  _receive env self true false m = (Val (PyDict d), m1) ->
  d <> [] -> dict_get "data" d = None ->
  _readStream env self m = (Raised (KeyError (PyStr "data")), m1).
Proof.
  intros Hfuel Hh Hs Hrecv Hd Hdata.
  unfold _readStream. destruct (fuel env) as [| n]; [lia |].
  cbn [_readStream_loop]. unfold bind.
  rewrite (attr_run _ _ _ _ Hh), Hs, Hrecv.
  replace (truthy (PyDict d)) with true by (destruct d; [contradiction | reflexivity]).
  cbn [negb]. unfold lift_res, py_getitem. rewrite Hdata. reflexivity.
Qed.

(** A packet with an empty [data] entry: [endStream] is run and the read
    loop does not return. *)
Lemma readStream_empty_data self (m m1 : machine) (h : handler) d v :
  heap m !! self = Some h ->
  stream (_streams h) = Some true ->
  _receive env self true false m = (Val (PyDict d), m1) ->
  dict_get "data" d = Some v -> truthy v = false ->
  forall r m', _readStream env self m = (Val r, m') -> False.
Proof.
  intros Hh Hs Hrecv Hd Hv r m'.
  unfold _readStream. destruct (fuel env) as [| n]; [discriminate |].
  cbn [_readStream_loop]. unfold bind.
  rewrite (attr_run _ _ _ _ Hh), Hs, Hrecv.
  rewrite (dict_get_truthy _ _ _ Hd). cbn [negb].
  unfold lift_res, py_getitem. rewrite Hd, Hv. cbn [negb].
  pose proof (endStream_never_returns self PyTrue m1) as Hn.
  destruct (endStream env self PyTrue m1) as [[b | e |] m2]; try discriminate.
  exfalso. exact (Hn m2 b eq_refl).
Qed.

(** ** The keepalive of a stream handler *)

Lemma ping_request_log (n : nat) self retry (m : machine) :
  existsb carries_token
    (log (snd (_request_loop env n self retry "ping" PyNone None PyNone m)))
  = existsb carries_token (log m).
Proof.
  revert retry m. induction n as [| n IH]; intros retry m; [reflexivity |].
  cbn [_request_loop]. unfold bind at 1.
  assert (Hs : existsb carries_token
                 (log (snd (_send_request env self "ping" PyNone None PyNone m)))
               = existsb carries_token (log m)).
  { unfold _send_request, bind.
    match goal with |- context [on_net self ?c m] =>
      pose proof (on_net_log self c m) as Hl;
      destruct (on_net self c m) as [[b | e |] m1]
    end; cbn [snd emit ret log] in *; rewrite ?Hl; try reflexivity.
    rewrite existsb_app. cbn. rewrite orb_false_r. reflexivity. }
  destruct (_send_request env self "ping" PyNone None PyNone m)
    as [[[] | e |] m1]; cbn [snd negb ret] in *; try exact Hs.
  destruct retry; cbn [snd ret]; [| exact Hs].
  unfold bind at 1.
  pose proof (reconnect_log self m1) as Hr.
  destruct (reconnect env self m1) as [[v | e |] m2]; cbn [snd] in *;
    rewrite ?IH, Hr, existsb_app, Hs; cbn; rewrite orb_false_r; reflexivity.
Qed.

Lemma stop_ping_in_thread_log self (m : machine) :
  log (snd (_stop_ping self true m)) = log m.
Proof.
  unfold _stop_ping, bind, attr.
  destruct (heap m !! self) as [h |]; [| reflexivity].
  destruct (ping (_ping h)); [| reflexivity].
  unfold setattr. destruct (heap m !! self); reflexivity.
Qed.

(** Started with a token, the ping loop sends no request with a
    [streamSessionId]. *)
Lemma token_ping_sends_no_token (n : nat) self ssid round next_ping
  (m : machine) :
  truthy ssid = true ->
  existsb carries_token
    (log (snd (_send_ping_loop env n self ssid round next_ping m)))
  = existsb carries_token (log m).
Proof.
  intros Ht. revert round next_ping m.
  induction n as [| n IH]; intros round next_ping m; [reflexivity |].
  cbn [_send_ping_loop]. unfold bind at 1. unfold attr at 1.
  destruct (heap m !! self) as [h |]; [| reflexivity].
  destruct (ping (_ping h)) as [[] |]; try reflexivity.
  destruct (ping_interval <=? next_ping)%Z; [| apply IH].
  unfold bind at 1. unfold ping_due. rewrite Ht. cbn [negb].
  unfold bind at 1. unfold _request.
  pose proof (ping_request_log (fuel env) self true m) as Hq.
  destruct (_request_loop env (fuel env) self true "ping" PyNone None PyNone m)
    as [[[] | e |] m1]; cbn [snd negb ret] in *; try exact Hq.
  - rewrite IH. exact Hq.
  - unfold bind at 1.
    pose proof (stop_ping_in_thread_log self m1) as Hst.
    destruct (_stop_ping self true m1) as [[b | e |] m2]; cbn [snd ret] in *;
      rewrite Hst; exact Hq.
Qed.

(** ** Deleting a handler *)

Lemma DataHandler_delete_deleted self (m : machine) (h : handler) :
  heap m !! self = Some h -> _deleted h = true ->
  DataHandler_delete env self m = (Val true, m).
Proof.
  intros Hh Hd. unfold DataHandler_delete.
  rewrite (bind_val _ _ _ _ _ (attr_run _ _ _ _ Hh)), Hd. reflexivity.
Qed.


Lemma send_request_at self cmd (m : machine) (h : handler) sent n :
  heap m !! self = Some h ->
  Client.send (fuel env) (dumps env [("command", PyStr cmd)]) (net h)
  = (Val sent, n) ->
  exists m',
    _send_request env self cmd PyNone None PyNone m = (Val sent, m') /\
    heap m' !! self = Some (set_net n h).
Proof.
  intros Hh Hs. unfold _send_request.
  destruct (on_net_at _ _ _ _ _ _ Hh Hs) as (m' & E & L & _).
  rewrite (bind_val _ _ _ _ _ E). unfold bind, emit, ret.
  eexists. split; [reflexivity |]. exact L.
Qed.

(** On a protocol response the checks of [_receive] raise nothing. *)
Lemma receive_no_retry_at self (m : machine) (h : handler) text n :
  1 <= fuel env ->
  heap m !! self = Some h ->
  Client.receive (fuel env) (net h) = (Val text, n) ->
  (forall wire r, text = PyStr wire -> raw_decode env wire = Some r ->
                  protocol_response r = true) ->
  exists v m',
    _receive env self false true m = (Val v, m') /\
    heap m' !! self = Some (set_net n h).
Proof.
  intros Hfuel Hh Hrecv Hproto.
  destruct (on_net_at _ _ _ _ _ _ Hh Hrecv) as (m' & E & L & _).
  assert (Hresp : exists r,
    _receive_response env self m = (Val r, m') /\ protocol_response r = true).
  { unfold _receive_response. rewrite (bind_val _ _ _ _ _ E).
    destruct (ClientFacts.receive_loop_value _ _ _ _ _ Hrecv) as [-> | [w ->]].
    - exists PyFalse. auto.
    - destruct (truthy (PyStr w)); cbn [negb]; [| exists PyFalse; auto].
      destruct (raw_decode env w) as [r |] eqn:Hdec.
      + exists r. split; [reflexivity |]. eapply Hproto; eauto.
      + exists PyFalse. auto. }
  destruct Hresp as (r & Hr & Hp).
  unfold _receive. destruct (fuel env) as [| k]; [lia |].
  unfold bind at 1. rewrite receive_loop_no_retry.
  unfold bind at 1. rewrite Hr. cbn [ret].
  destruct (truthy r) eqn:Htr.
  2: { eexists. eexists. split; [reflexivity | exact L]. }
  destruct r as [| b | z | s | xs | xs | d | o nm];
    try (unfold protocol_response in Hp; rewrite Htr in Hp; discriminate Hp).
  cbn [protocol_response] in Hp.
  unfold lift_res, py_in, py_getitem, dict_has, bind, emit, ret.
  destruct (dict_get "status" d) as [st |]; cbn [negb].
  2: { eexists. eexists. split; [reflexivity | exact L]. }
  destruct (truthy st); cbn [negb orb] in *.
  { eexists. eexists. split; [reflexivity | exact L]. }
  unfold dict_has in Hp.
  destruct (dict_get "errorCode" d); [| discriminate].
  destruct (dict_get "errorDescr" d); [| discriminate].
  eexists. eexists. split; [reflexivity | exact L].
Qed.

Lemma logout_at self (m : machine) (h : handler) s sent n1 text n2 :
  1 <= fuel env ->
  heap m !! self = Some h ->
  Client._socket (net h) = Some s ->
  Client.fileno_open s = false \/ Client._used_addresses (net h) <> [] ->
  Client.send (fuel env) (dumps env [("command", PyStr "logout")]) (net h)
  = (Val sent, n1) ->
  Client.receive (fuel env) n1 = (Val text, n2) ->
  (forall wire r, text = PyStr wire -> raw_decode env wire = Some r ->
                  protocol_response r = true) ->
  exists m' h',
    _logout env self m = (Val true, m') /\ heap m' !! self = Some h'.
Proof.
  intros Hfuel Hh Hsock Hpre Hsend Hrecv Hproto.
  destruct (send_request_at self "logout" m _ sent n1 Hh Hsend)
    as (mb & Eb & Hb).
  assert (Hreq : _request env self false "logout" PyNone None PyNone m
                 = (Val sent, mb)).
  { unfold _request. destruct (fuel env) as [| k]; [lia |].
    rewrite request_loop_no_retry. exact Eb. }
  destruct (receive_no_retry_at self mb _ text n2 Hfuel Hb Hrecv Hproto)
    as (v & mc & Ec & Hc).
  destruct (ClientFacts.send_loop_keeps _ _ _ _ _ _ Hsend) as [Hs1 Hu1].
  destruct (ClientFacts.receive_loop_keeps _ _ _ _ _ Hrecv) as [Hs2 Hu2].
  destruct (ClientFacts.close_twice n2 s) as (n3 & Hclose & _).
  { rewrite Hs2, Hs1. exact Hsock. }
  { rewrite Hu2, Hu1. exact Hpre. }
  destruct (on_net_at self Client.close mc _ _ _ Hc Hclose) as (md & Ed & Hd & _).
  destruct (setattr_at self (set_ssid PyNone) md _ Hd) as (me & Ee & He & _).
  destruct (setattr_at self (set_status (PyStr "inactive")) me _ He)
    as (mf & Ef & Hf & _).
  unfold _logout.
  rewrite (bind_val _ _ _ _ _ Hreq), (bind_val _ _ _ _ _ Ec),
    (bind_val _ _ _ _ _ Ed), (bind_val _ _ _ _ _ Ee), (bind_val _ _ _ _ _ Ef).
  eexists. eexists. split; [reflexivity | exact Hf].
Qed.

(** The first [delete] of a data handler without stream handlers. *)
Lemma DataHandler_delete_once self (m : machine) (h : handler)
  b t s sent n1 text n2 :
  1 <= fuel env ->
  heap m !! self = Some h ->
  _deleted h = false -> _stream_handlers h = [] ->
  ping (_ping h) = Some b -> ping_thread (_ping h) = Some t ->
  Client._socket (net h) = Some s ->
  Client.fileno_open s = false \/ Client._used_addresses (net h) <> [] ->
  Client.send (fuel env) (dumps env [("command", PyStr "logout")]) (net h)
  = (Val sent, n1) ->
  Client.receive (fuel env) n1 = (Val text, n2) ->
  (forall wire r, text = PyStr wire -> raw_decode env wire = Some r ->
                  protocol_response r = true) ->
  exists m1 h1,
    DataHandler_delete env self m = (Val true, m1) /\
    heap m1 !! self = Some h1 /\ _deleted h1 = true.
Proof.
  intros Hfuel Hh Hdel Hsh Hp Ht Hsock Hpre Hsend Hrecv Hproto.
  unfold DataHandler_delete.
  rewrite (bind_val _ _ _ _ _ (attr_run _ _ _ _ Hh)), Hdel.
  assert (Hcl : _close_stream_handlers env self m = (Val true, m)).
  { unfold _close_stream_handlers.
    rewrite (bind_val _ _ _ _ _ (attr_run _ _ _ _ Hh)), Hsh. reflexivity. }
  rewrite (bind_val _ _ _ _ _ Hcl).
  rewrite (bind_val _ _ _ _ _ (stop_ping_started _ _ _ _ _ Hh Hp Ht)).
  destruct (logout_at self
              {| heap := <[self := set_ping {| ping := Some false;
                                               ping_thread := Some t |} h]> (heap m);
                 log := log m ++ [Join self t] |}
              (set_ping {| ping := Some false; ping_thread := Some t |} h)
              s sent n1 text n2 Hfuel
              (lookup_insert_self _ _ _ _ Hh) Hsock Hpre Hsend Hrecv Hproto)
    as (ml & hl & El & Hl).
  rewrite (bind_val _ _ _ _ _ El).
  destruct (setattr_at self (set_deleted true) ml _ Hl) as (mg & Eg & Hg & _).
  rewrite (bind_val _ _ _ _ _ Eg). cbn [ret].
  eexists. eexists. split; [reflexivity |]. split; [exact Hg | reflexivity].
Qed.

(** What does hold of second calls.  [close] called twice on a client
    whose socket is closed already or whose used list is not empty,
    [_stop_ping] called twice on a handler whose keepalive has been
    started, and [delete] called twice on a data handler without stream
    handlers (keepalive started, socket as for [close], the reply to the
    logout a protocol response) raise nothing: both calls return [True]
    and the second changes no object.  [_stop_ping] on a handler whose
    keepalive was never started returns [False] and changes nothing,
    every time. *)
Lemma second_call_changes_nothing
  (c : Client.state) (s : Client.sock)
  (self : nat) (m0 : machine) (h0 : handler)
  (dh : nat) (m : machine) (h : handler) b t sd sent n1 text n2 :
  Client._socket c = Some s ->
  Client.fileno_open s = false \/ Client._used_addresses c <> [] ->
  heap m0 !! self = Some h0 -> ping (_ping h0) = None ->
  1 <= fuel env ->
  heap m !! dh = Some h ->
  _deleted h = false -> _stream_handlers h = [] ->
  ping (_ping h) = Some b -> ping_thread (_ping h) = Some t ->
  Client._socket (net h) = Some sd ->
  Client.fileno_open sd = false \/ Client._used_addresses (net h) <> [] ->
  Client.send (fuel env) (dumps env [("command", PyStr "logout")]) (net h)
  = (Val sent, n1) ->
  Client.receive (fuel env) n1 = (Val text, n2) ->
  (forall wire r, text = PyStr wire -> raw_decode env wire = Some r ->
                  protocol_response r = true) ->
  (exists c1,
     Client.close c = (Val true, c1) /\ Client.close c1 = (Val true, c1)) /\
  (exists m1 m2,
     _stop_ping dh false m = (Val true, m1) /\
     _stop_ping dh false m1 = (Val true, m2) /\ heap m2 = heap m1) /\
  (exists m1,
     DataHandler_delete env dh m = (Val true, m1) /\
     DataHandler_delete env dh m1 = (Val true, m1)) /\
  _stop_ping self false m0 = (Val false, m0).
Proof.
  intros Hsock Hpre Hh0 Hp0 Hfuel Hh Hdel Hsh Hp Ht Hsd Hpred Hsend Hrecv
    Hproto.
  split; [exact (ClientFacts.close_twice c s Hsock Hpre) |].
  split; [exact (stop_ping_twice dh m h b t Hh Hp Ht) |].
  split.
  - destruct (DataHandler_delete_once dh m h b t sd sent n1 text n2
                Hfuel Hh Hdel Hsh Hp Ht Hsd Hpred Hsend Hrecv Hproto)
      as (m1 & h1 & E1 & Hh1 & Hd1).
    exists m1. split; [exact E1 |].
    exact (DataHandler_delete_deleted dh m1 h1 Hh1 Hd1).
  - exact (stop_ping_never_started self false m0 h0 Hh0 Hp0).
Qed.

End Facts.

(** ** The scenarios *)

Import Scenario.


(** C3, as stated, fails: the response [{status: false}], without
    [errorCode], makes [_receive] and [getData] raise [KeyError] instead
    of returning [False]. *)
Lemma status_false_without_error_fields_raises :
  fst (_receive_response scenario_env 0 (reply_machine 0 "status-false"))
  = Val (PyDict [("status", PyFalse)]) /\
  fst (_receive scenario_env 0 true true (reply_machine 0 "status-false"))
  = Raised (KeyError (PyStr "errorCode")) /\
  fst (getData scenario_env 0 "Balance" [] (reply_machine 2 "status-false"))
  = Raised (KeyError (PyStr "errorCode")).
Proof. vm_compute. repeat split. Qed.

(** The retry path: the first send fails, the handler's own callback
    marks it as inactive, the second send goes out and the response with
    the false status is read.  The first attempt alone: nothing but the
    request and the two reports. *)
Lemma application_failure_witness :
  fst (getData retry_env 0 "Balance" [] (retry_machine 3 "error-E1"))
  = Val PyFalse /\
  log (snd (getData retry_env 0 "Balance" [] (retry_machine 3 "error-E1")))
  = [Request 0 [("command", PyStr "getBalance")] false; Reconnect 0;
     Request 0 [("command", PyStr "getBalance")] true;
     Report 0 (PyStr "E1"); Report 0 (PyStr "bad")] /\
  _status <$> heap (snd (getData retry_env 0 "Balance" []
                           (retry_machine 3 "error-E1"))) !! 0
  = Some (PyStr "inactive") /\
  fst (getData scenario_env 0 "Balance" [] (reply_machine 2 "error-E1"))
  = Val PyFalse /\
  log (snd (getData scenario_env 0 "Balance" [] (reply_machine 2 "error-E1")))
  = [Request 0 [("command", PyStr "getBalance")] true;
     Report 0 (PyStr "E1"); Report 0 (PyStr "bad")].
Proof.
  assert (Hretry :
    getData retry_env 0 "Balance" [] (retry_machine 3 "error-E1")
    = (Val PyFalse,
       {| heap := heap (snd (_receive_loop retry_env 4 0 true
                               (snd (_request retry_env 0 true "getBalance"
                                       PyNone None PyNone
                                       (retry_machine 3 "error-E1")))));
          log := log (snd (_receive_loop retry_env 4 0 true
                             (snd (_request retry_env 0 true "getBalance"
                                     PyNone None PyNone
                                     (retry_machine 3 "error-E1")))))
                 ++ [Report 0 (PyStr "E1"); Report 0 (PyStr "bad")] |})).
  { pose (m := retry_machine 3 "error-E1").
    pose (m1 := snd (_request retry_env 0 true "getBalance" PyNone None
                       PyNone m)).
    pose (m2 := snd (_receive_loop retry_env 4 0 true m1)).
    destruct (application_failure_is_not_retried retry_env 0 "Balance" []
                m m1 m2
                (session (connected_client (os_first_send_fails 3 "error-E1")
                            false))
                [("status", PyFalse); ("errorCode", PyStr "E1");
                 ("errorDescr", PyStr "bad")]
                PyFalse (PyStr "E1") (PyStr "bad"))
      as (_ & H & _);
      [ reflexivity | reflexivity | vm_compute; reflexivity
      | vm_compute; reflexivity | reflexivity | reflexivity | reflexivity
      | reflexivity |].
    exact H. }
  assert (Hfirst :
    getData scenario_env 0 "Balance" [] (reply_machine 2 "error-E1")
    = (Val PyFalse,
       {| heap := heap (snd (_receive_loop scenario_env 4 0 true
                               (snd (_request scenario_env 0 true "getBalance"
                                       PyNone None PyNone
                                       (reply_machine 2 "error-E1")))));
          log := log (snd (_receive_loop scenario_env 4 0 true
                             (snd (_request scenario_env 0 true "getBalance"
                                     PyNone None PyNone
                                     (reply_machine 2 "error-E1")))))
                 ++ [Report 0 (PyStr "E1"); Report 0 (PyStr "bad")] |})).
  { pose (m := reply_machine 2 "error-E1").
    pose (m1 := snd (_request scenario_env 0 true "getBalance" PyNone None
                       PyNone m)).
    pose (m2 := snd (_receive_loop scenario_env 4 0 true m1)).
    destruct (application_failure_is_not_retried scenario_env 0 "Balance" []
                m m1 m2
                (session (connected_client (os_reply 2 "error-E1") false))
                [("status", PyFalse); ("errorCode", PyStr "E1");
                 ("errorDescr", PyStr "bad")]
                PyFalse (PyStr "E1") (PyStr "bad"))
      as (_ & H & _);
      [ reflexivity | reflexivity | vm_compute; reflexivity
      | vm_compute; reflexivity | reflexivity | reflexivity | reflexivity
      | reflexivity |].
    exact H. }
  rewrite Hretry, Hfirst. vm_compute. repeat split.
Defined.

Lemma token_is_required_witness :
  fst (getData scenario_env 0 "Balance" [] tokenless_machine) = Val PyFalse /\
  fst (streamData scenario_env 1 "Balance" [] tokenless_machine)
  = Val false /\
  fst (getData scenario_env 0 "Balance" [] (reply_machine 2 "balance"))
  = Val (PyDict [("balance", PyInt 100)]).
Proof.
  pose (m' := reply_machine 2 "balance").
  pose (m1 := snd (_request scenario_env 0 true "getBalance" PyNone None
                     PyNone m')).
  pose (m2 := snd (_receive scenario_env 0 true true m1)).
  destruct (token_is_required_and_payload_returned scenario_env "Balance" []
              0 1 tokenless_machine
              (Handler.set_ssid PyNone
                 (session (connected_client (os_reply 99 "") false)))
              (multiplexer 0 (connected_client (os_reply 99 "") true) [])
              (Handler.set_ssid PyNone
                 (session (connected_client (os_reply 99 "") false)))
              0 m' m1 m2
              (session (connected_client (os_reply 2 "balance") false))
              (PyDict [("status", PyTrue);
                       ("returnData", PyDict [("balance", PyInt 100)])]))
    as (Hg & Hs & p & Hp & Hd).
  - reflexivity.
  - reflexivity.
  - reflexivity.
  - reflexivity.
  - reflexivity.
  - reflexivity.
  - reflexivity.
  - vm_compute. reflexivity.
  - vm_compute. reflexivity.
  - reflexivity.
  - rewrite Hg, Hs. fold m'. rewrite Hd.
    injection Hp as <-. repeat split.
Defined.

(** C6, on the code.  With the keepalive and a ticker subscription
    registered, a packet without [data] ends the read loop in [KeyError]:
    no unsubscribe request goes out, both subscriptions stay registered
    and the running flag stays set.  A packet with an empty [data], and
    likewise a failed receive, ends it in [RuntimeError] after the first
    subscription has been unsubscribed: the ticker subscription stays
    registered. *)
Theorem read_loop_fault_leaves_subscriptions :
  (let r := _readStream scenario_env 1 (stream_machine "push-without-data") in
   fst r = Raised (KeyError (PyStr "data")) /\
   log (snd r) = [] /\
   _streams <$> (heap (snd r) !! 1)
   = Some {| tasks := [(0, keepalive_task); (1, ticker_task)];
             stream := Some true; stream_thread := Some read_thread |}) /\
  (let r := _readStream scenario_env 1 (stream_machine "push-empty-data") in
   fst r = Raised RuntimeError /\
   log (snd r) = [Request 1 [("command", PyStr "stopKeepAlive")] true] /\
   _streams <$> (heap (snd r) !! 1)
   = Some {| tasks := [(1, ticker_task)];
             stream := Some false; stream_thread := Some read_thread |}) /\
  (let r := _readStream scenario_env 1 broken_stream_machine in
   fst r = Raised RuntimeError /\
   log (snd r)
   = [Reconnect 1; Request 1 [("command", PyStr "stopKeepAlive")] true] /\
   _streams <$> (heap (snd r) !! 1)
   = Some {| tasks := [(1, ticker_task)];
             stream := Some false; stream_thread := Some read_thread |}).
Proof. vm_compute. repeat split. Qed.

(** The same fault makes [delete] raise, on the stream handler and on
    the data handler it is attached to. *)
Lemma delete_with_subscriptions_raises :
  fst (StreamHandler_delete scenario_env 1 (stream_machine ""))
  = Raised RuntimeError /\
  fst (DataHandler_delete scenario_env 0 (stream_machine ""))
  = Raised RuntimeError.
Proof. vm_compute. split; reflexivity. Qed.

(** [close] on an open socket with an empty used list raises, after the
    socket has been closed. *)
Lemma close_without_history_raises :
  fst (Client.close open_client_without_history) = Raised IndexError /\
  Client.fileno_open
    <$> Client._socket (snd (Client.close open_client_without_history))
  = Some false.
Proof. vm_compute. split; reflexivity. Qed.

(** On a handler whose keepalive was never started [_stop_ping] reports
    failure, the first and the second time. *)
Lemma stop_ping_not_started_reports_failure :
  fst (_stop_ping 1 false ping_machine) = Val false /\
  fst (_stop_ping 1 false (snd (_stop_ping 1 false ping_machine)))
  = Val false.
Proof. vm_compute. split; reflexivity. Qed.

Lemma second_call_of_data_delete :
  fst (DataHandler_delete scenario_env 0 (reply_machine 99 "")) = Val true /\
  fst (DataHandler_delete scenario_env 0
         (snd (DataHandler_delete scenario_env 0 (reply_machine 99 ""))))
  = Val true.
Proof.
  pose (c := connected_client (os_reply 99 "") false).
  pose (n1 := snd (Client.send 4 "request" c)).
  pose (n2 := snd (Client.receive 4 n1)).
  destruct (second_call_changes_nothing scenario_env
              c {| Client.fileno_open := true; Client.wrapped := true;
                   Client.blocking := true |}
              1 ping_machine
              (general_handler StreamHandler
                 (connected_client (os_reply 99 "") true))
              0 (reply_machine 99 "") (session c) true (ping_thread_of PyNone)
              {| Client.fileno_open := true; Client.wrapped := true;
                 Client.blocking := true |}
              true n1 (PyStr "") n2)
    as (_ & _ & (m1 & E1 & E2) & _).
  - reflexivity.
  - right. discriminate.
  - reflexivity.
  - reflexivity.
  - vm_compute; lia.
  - reflexivity.
  - reflexivity.
  - reflexivity.
  - reflexivity.
  - reflexivity.
  - reflexivity.
  - right. discriminate.
  - vm_compute. reflexivity.
  - vm_compute. reflexivity.
  - intros wire r Hw Hd. injection Hw as <-. vm_compute in Hd. discriminate.
  - rewrite E1. cbn [fst snd]. rewrite E2. split; reflexivity.
Qed.

(** C7, on the code.  The first [delete] of a stream handler with its
    subscriptions raises [RuntimeError] after one unsubscription: the
    handler is not marked as deleted, its keepalive is not stopped, its
    status stays ['active'] and it stays attached.  The second [delete]
    raises again and is no no-op: it sends another request and pops
    another subscription.  [delete] of the data handler that the stream
    handler is attached to raises as well, before the session is logged
    out.  [close] on an open socket with an empty used list raises
    [IndexError]; only the [close] after it returns [True]. *)
Theorem first_delete_raises :
  (let first := StreamHandler_delete scenario_env 1 (stream_machine "") in
   let second := StreamHandler_delete scenario_env 1 (snd first) in
   fst first = Raised RuntimeError /\
   log (snd first) = [Request 1 [("command", PyStr "stopKeepAlive")] true] /\
   _deleted <$> (heap (snd first) !! 1) = Some false /\
   _status <$> (heap (snd first) !! 1) = Some (PyStr "active") /\
   (ping ∘ _ping) <$> (heap (snd first) !! 1) = Some (Some true) /\
   (tasks ∘ _streams) <$> (heap (snd first) !! 1)
   = Some [(1, ticker_task)] /\
   _stream_handlers <$> (heap (snd first) !! 0) = Some [1] /\
   fst second = Raised RuntimeError /\
   log (snd second)
   = log (snd first)
     ++ [Request 1 [("command", PyStr "stopTickPrices");
                    ("symbol", PyStr "ETHEREUM")] true] /\
   (tasks ∘ _streams) <$> (heap (snd second) !! 1) = Some [] /\
   _deleted <$> (heap (snd second) !! 1) = Some false) /\
  (let r := DataHandler_delete scenario_env 0 (stream_machine "") in
   fst r = Raised RuntimeError /\
   _deleted <$> (heap (snd r) !! 0) = Some false /\
   _ssid <$> (heap (snd r) !! 0) = Some (PyStr "token") /\
   _status <$> (heap (snd r) !! 0) = Some (PyStr "active")) /\
  (let r := Client.close open_client_without_history in
   fst r = Raised IndexError /\
   Client.fileno_open <$> Client._socket (snd r) = Some false /\
   fst (Client.close (snd r)) = Val true).
Proof. vm_compute. repeat split. Qed.

(** C9, on the code.  [_start_ping] with the token spawns the loop with
    the token as its argument, and every ping request the loop then sends
    is [{command: ping}], without [streamSessionId]; the loop does not
    wait for a response.  Started without a token, the loop sends the
    same request and waits for the response. *)
Theorem stream_ping_carries_no_token :
  (let started := _start_ping 1 (PyStr "token") ping_machine in
   fst started = Val true /\
   log (snd started) = [Spawn 1 (ping_thread_of (PyStr "token"))] /\
   log (snd (_send_ping scenario_env 1 (PyStr "token") (snd started)))
   = [Spawn 1 (ping_thread_of (PyStr "token"));
      Request 1 [("command", PyStr "ping")] true;
      Request 1 [("command", PyStr "ping")] true;
      Request 1 [("command", PyStr "ping")] true]) /\
  (let r := _send_ping scenario_env 0 PyNone (reply_machine 99 "") in
   fst r = Val PyFalse /\
   log (snd r) = [Request 0 [("command", PyStr "ping")] true; Reconnect 0]).
Proof. vm_compute. repeat split. Qed.

Lemma quiet_socket_witness :
  fst (_receive_response scenario_env 0 (reply_machine 99 "")) = Val PyFalse /\
  fst (_receive_response scenario_env 0 broken_machine) = Val PyFalse /\
  reconnects (log (snd (_receive scenario_env 0 true true
                          (reply_machine 99 "")))) = 1.
Proof.
  destruct (quiet_socket_reads_as_failure scenario_env 0 true
              (reply_machine 99 "") broken_machine
              (session (connected_client (os_reply 99 "") false))
              (session (connected_client os_broken false)))
    as (_ & _ & H1 & H2 & H3).
  - vm_compute; lia.
  - reflexivity.
  - reflexivity.
  - reflexivity.
  - reflexivity.
  - reflexivity.
  - rewrite H1, H2, H3. repeat split.
Defined.


End HandlerFacts.

(** * Properties of the pool *)

Module ManagerFacts.
Import Manager Scenario.

(** A bound method is not the string ['active']. *)
Lemma bound_method_is_not_active (handler : nat) :
  py_eq (PyMethod handler "get_status") (PyStr "active") = false.
Proof. reflexivity. Qed.

Section Facts.

Variable env : Handler.environment.
Variable new_DataHandler : M Handler.machine nat.
Variable new_StreamHandler : nat -> M Handler.machine nat.

(** The loop of [delete] calls [_delete_handler] for no handler. *)
Lemma delete_loop_skips (d : list (nat * string)) (w : world) :
  Handler.for_each d
    (fun entry =>
       let handler := fst entry in
       if py_eq (PyMethod handler "get_status") (PyStr "active")
       then _ <- _delete_handler env handler ;; ret tt
       else ret tt) w
  = (Val tt, w).
Proof.
  induction d as [| [h name] d IH]; [reflexivity |].
  cbn [Handler.for_each fst]. rewrite bound_method_is_not_active.
  unfold bind at 1. cbn [ret]. exact IH.
Qed.

(** [delete] on a manager that is not deleted yet: no handler is touched,
    the connection count stays, the manager is marked deleted and the
    result is [None]. *)
Lemma delete_tears_nothing_down (w : world) :
  _deleted (mgr w) = false ->
  delete env w
  = (Val PyNone, {| mach := mach w; mgr := set_deleted true (mgr w) |}).
Proof.
  intros Hd. unfold delete. unfold bind at 1. unfold gets at 1. rewrite Hd.
  unfold bind at 1. rewrite delete_loop_skips. reflexivity.
Qed.

(** At capacity the two generators refuse. *)
Lemma generate_at_capacity (w : world) :
  (_max_connections (mgr w) <= _connections (mgr w))%Z ->
  _generate_DataHandler new_DataHandler w = (Val None, w) /\
  _generate_StreamHandler new_DataHandler new_StreamHandler w = (Val None, w).
Proof.
  intros Hcap.
  unfold _generate_DataHandler, _generate_StreamHandler, bind, gets.
  replace (_max_connections (mgr w) <=? _connections (mgr w))%Z with true
    by (symmetry; apply Z.leb_le; exact Hcap).
  split; reflexivity.
Qed.

(** With nothing registered and room for one more connection,
    [provide_StreamHandler] allocates a data handler and a stream
    handler, and counts both. *)
Lemma data_allocation_counts_one (w : world) (dh : nat)
  (m1 : Handler.machine) :
  _handlers_data (mgr w) = [] ->
  (_connections (mgr w) < _max_connections (mgr w))%Z ->
  new_DataHandler (mach w) = (Val dh, m1) ->
  exists g,
    provide_DataHandler new_DataHandler w
    = (Val (Some dh), {| mach := m1; mgr := g |}) /\
    _connections g = (_connections (mgr w) + 1)%Z /\
    _max_connections g = _max_connections (mgr w) /\
    _handlers_stream g = _handlers_stream (mgr w).
Proof.
  intros Hd Hroom Hnew.
  unfold provide_DataHandler.
  assert (Ha : _avlb_DataHandler w = (Val None, w)).
  { unfold _avlb_DataHandler, bind, gets. rewrite Hd. reflexivity. }
  rewrite (HandlerFacts.bind_val _ _ _ _ _ Ha).
  unfold _generate_DataHandler, bind, gets.
  replace (_max_connections (mgr w) <=? _connections (mgr w))%Z with false
    by (symmetry; apply Z.leb_gt; exact Hroom).
  unfold on_machine, update_mgr, modify, ret. rewrite Hnew. cbn [mach mgr].
  eexists. split; [reflexivity |]. cbn. auto.
Qed.

Lemma stream_allocation_counts_two (w : world) (dh sh : nat)
  (m1 m2 : Handler.machine) :
  _handlers_data (mgr w) = [] -> _handlers_stream (mgr w) = [] ->
  (_connections (mgr w) < _max_connections (mgr w))%Z ->
  new_DataHandler (mach w) = (Val dh, m1) ->
  new_StreamHandler dh m1 = (Val sh, m2) ->
  exists g,
    provide_StreamHandler new_DataHandler new_StreamHandler w
    = (Val (Some sh), {| mach := m2; mgr := g |}) /\
    _connections g = (_connections (mgr w) + 2)%Z /\
    _max_connections g = _max_connections (mgr w).
Proof.
  intros Hd Hs Hroom Hnew1 Hnew2.
  destruct (data_allocation_counts_one w dh m1 Hd Hroom Hnew1)
    as (g1 & Hp & Hc1 & Hm1 & Hs1).
  unfold provide_StreamHandler.
  assert (Ha : _avlb_StreamHandler w = (Val None, w)).
  { unfold _avlb_StreamHandler, bind, gets. rewrite Hs. reflexivity. }
  rewrite (HandlerFacts.bind_val _ _ _ _ _ Ha).
  unfold _generate_StreamHandler. unfold bind at 1. unfold gets at 1.
  replace (_max_connections (mgr w) <=? _connections (mgr w))%Z with false
    by (symmetry; apply Z.leb_gt; exact Hroom).
  rewrite (HandlerFacts.bind_val _ _ _ _ _ Hp).
  unfold bind, on_machine, update_mgr, modify, ret. cbn [mach mgr].
  rewrite Hnew2. cbn [mach mgr].
  eexists. split; [reflexivity |]. cbn. split; [lia | exact Hm1].
Qed.

End Facts.

(** C5, on the code.  A manager configured for one connection and asked
    for a stream handler allocates a data handler and a stream handler:
    the count reaches two. *)
Theorem stream_allocation_exceeds_maximum :
  let w := new_manager 1 in
  let r := provide_StreamHandler construct_session construct_multiplexer w in
  fst r = Val (Some 1) /\
  _connections (mgr (snd r)) = 2%Z /\
  _max_connections (mgr (snd r)) = 1%Z /\
  length (Handler.heap (mach (snd r))) = 2.
Proof. vm_compute. repeat split. Qed.

(** C8, on the code.  [delete] on a manager with one registered, active
    session returns [None] and leaves the session as it was: still
    active, not deleted, nothing sent, and still counted. *)
Theorem manager_delete_tears_nothing_down :
  let r := delete scenario_env manager_with_session in
  fst r = Val PyNone /\
  Handler._status <$> (Handler.heap (mach (snd r)) !! 0)
  = Some (PyStr "active") /\
  Handler._deleted <$> (Handler.heap (mach (snd r)) !! 0) = Some false /\
  Handler.log (mach (snd r)) = [] /\
  _connections (mgr (snd r)) = 1%Z /\
  _deleted (mgr (snd r)) = true.
Proof. vm_compute. repeat split. Qed.

(** Had the loop called it, [_delete_handler] would have deleted the
    session, counted it down and then raised on [list] of a bound
    method. *)
Lemma delete_handler_raises :
  let r := _delete_handler scenario_env 0 manager_with_session in
  fst r = Raised TypeError /\
  Handler._deleted <$> (Handler.heap (mach (snd r)) !! 0) = Some true /\
  _connections (mgr (snd r)) = 0%Z.
Proof. vm_compute. repeat split. Qed.

End ManagerFacts.

(** * More on the transport *)

Module TransportFacts.
Import Client Connect Scenario.

(** ** [create] *)

Lemma select_address_within (avl tried : list addrinfo) (used : list pyval) :
  Forall (fun a => In a avl) tried ->
  Forall (fun a => In a avl) (select_address avl tried used).
Proof.
  intros Ht. unfold select_address.
  destruct (length used + length tried <? length avl).
  - destruct (List.find _ avl) as [a |] eqn:Hf; [| exact Ht].
    apply Forall_app. split; [exact Ht |].
    constructor; [| constructor]. apply (List.find_some _ _ Hf).
  - destruct (List.find _ avl) as [a |] eqn:Hf; [| exact Ht].
    apply Forall_app. split; [exact Ht |].
    constructor; [| constructor]. apply (List.find_some _ _ Hf).
Qed.

Lemma last_within (avl l : list addrinfo) (a : addrinfo) :
  Forall (fun a => In a avl) l -> last l = Some a -> In a avl.
Proof.
  intros Hl Ha. apply last_Some in Ha as [l' ->].
  apply Forall_app in Hl as [_ Hl]. inversion Hl; assumption.
Qed.

(** What one run of the loop of [create] leaves behind, by its result. *)
Lemma create_loop_post (n : nat) (avl : list addrinfo) :
  forall (tried : list addrinfo) (c : state),
    Forall (fun a => In a avl) tried ->
    match create_loop n avl tried c with
    | (Val true, c') =>
        exists a l,
          In a avl /\ _selected c' = Some a /\
          _used_addresses c'
          = _used_addresses c ++ [sockaddr_val (ai_sockaddr a)] /\
          _socket c' = Some {| fileno_open := true; wrapped := _encrypted c;
                               blocking := _blocking c |} /\
          trace c' = trace c ++ l ++ [Attempt a]
    | (Val false, c') => _used_addresses c' = []
    | (Raised e, _) => e = IndexError
    | (OutOfFuel, _) => True
    end.
Proof.
  induction n as [| n IH]; intros tried c Ht; [exact I |].
  cbn [create_loop].
  destruct (length tried <? length avl); [| reflexivity].
  unfold bind at 1. unfold gets at 1.
  pose proof (select_address_within avl tried (_used_addresses c) Ht) as Ht'.
  destruct (last (select_address avl tried (_used_addresses c)))
    as [a |] eqn:Hlast; [| reflexivity].
  pose proof (last_within _ _ _ Ht' Hlast) as Ha.
  unfold bind at 1. unfold modify at 1. unfold bind at 1. unfold sys at 1.
  cbn [os clock set_selected].
  set (c1 := step (Attempt a) (set_selected a c)).
  destruct (socket_socket (os c) (clock c) a); cbn [negb].
  - unfold bind at 1. unfold gets at 1. unfold bind at 1. unfold modify at 1.
    unfold bind at 1. unfold gets at 1. cbn [_encrypted set_socket].
    replace (_encrypted c1) with (_encrypted c) by reflexivity.
    destruct (_encrypted c) eqn:Henc.
    + unfold bind at 1.
      match goal with |- context [wrap_socket ?o ?k] =>
        destruct (wrap_socket o k) end; cbn [negb].
      * unfold bind, modify, gets, ret. cbn.
        exists a, []. repeat split; try assumption; reflexivity.
      * unfold id.
        specialize (IH (select_address avl tried (_used_addresses c))
                      (set_socket (new_socket c1) c1) Ht').
        destruct (create_loop n avl _ (set_socket (new_socket c1) c1))
          as [[[] | e |] c']; try exact IH.
        destruct IH as (a' & l & Hin & Hsel & Hused & Hsock & Htr).
        exists a', (Attempt a :: l). cbn in Hused, Hsock, Htr.
        rewrite Henc in Hsock. repeat split; try assumption.
        rewrite Htr, <- app_assoc. reflexivity.
    + unfold bind, modify, gets, ret. cbn.
      exists a, []. repeat split; try assumption; reflexivity.
  - specialize (IH (select_address avl tried (_used_addresses c)) c1 Ht').
    destruct (create_loop n avl _ c1) as [[[] | e |] c']; try exact IH.
    destruct IH as (a' & l & Hin & Hsel & Hused & Hsock & Htr).
    exists a', (Attempt a :: l). cbn in Hused, Hsock, Htr.
    repeat split; try assumption.
    rewrite Htr, <- app_assoc. reflexivity.
Qed.

(** The scans of [create] never skip a candidate for having been
    tried. *)
Lemma find_ignores_tried (tried : list addrinfo) (f : addrinfo -> bool)
  (avl : list addrinfo) :
  List.find (fun address => not_in_tried tried address && f address) avl
  = List.find f avl.
Proof.
  induction avl as [| a avl IH]; [reflexivity |].
  cbn [List.find]. rewrite ClientFacts.not_in_tried_always. cbn [andb].
  rewrite IH. reflexivity.
Qed.

Lemma find_any_tried (tried : list addrinfo) (avl : list addrinfo) :
  List.find (not_in_tried tried) avl = head avl.
Proof.
  destruct avl as [| a avl]; [reflexivity |].
  cbn [List.find]. rewrite ClientFacts.not_in_tried_always. reflexivity.
Qed.

(** A scan adds one candidate, unless it is the first one and every
    candidate is on the used list. *)
Lemma select_address_grows (avl tried : list addrinfo) (used : list pyval) :
  length tried < length avl ->
  tried = [] \/ length avl <= length used + length tried \/
  List.find (not_in_used used) avl <> None ->
  (exists a, select_address avl tried used = tried ++ [a]) \/
  (tried = [] /\ select_address avl tried used = []).
Proof.
  intros Hlt Hinv. unfold select_address.
  destruct (Nat.ltb_spec (length used + length tried) (length avl))
    as [Hc | Hc].
  - rewrite find_ignores_tried.
    destruct (List.find (not_in_used used) avl) as [a |] eqn:Hf;
      [left; eauto |].
    destruct Hinv as [-> | [Hge | Hne]]; [right; auto | lia | congruence].
  - rewrite find_any_tried.
    destruct avl as [| a avl]; [simpl in Hlt; lia |].
    left. exists a. reflexivity.
Qed.

(** With more rounds than candidates the loop of [create] comes to an
    end. *)
Lemma create_loop_total (n : nat) (avl : list addrinfo) :
  forall (tried : list addrinfo) (c : state),
    tried = [] \/
    length avl <= length (_used_addresses c) + length tried \/
    List.find (not_in_used (_used_addresses c)) avl <> None ->
    length avl - length tried < n ->
    fst (create_loop n avl tried c) <> OutOfFuel.
Proof.
  induction n as [| n IH]; intros tried c Hinv Hn; [lia |].
  cbn [create_loop].
  destruct (Nat.ltb_spec (length tried) (length avl)) as [Hlt | Hge];
    [| discriminate].
  unfold bind at 1. unfold gets at 1.
  assert (Hnext : forall c1,
    _used_addresses c1 = _used_addresses c ->
    forall a, select_address avl tried (_used_addresses c) = tried ++ [a] ->
    fst (create_loop n avl (select_address avl tried (_used_addresses c)) c1)
    <> OutOfFuel).
  { intros c1 Hu a Ha. apply IH.
    - rewrite Hu, Ha, length_app. cbn [length].
      destruct (Nat.ltb_spec (length (_used_addresses c) + length tried)
                  (length avl)) as [Hc | Hc].
      + right. right. intros Hf.
        unfold select_address in Ha.
        replace (length (_used_addresses c) + length tried <? length avl)
          with true in Ha by (symmetry; apply Nat.ltb_lt; exact Hc).
        rewrite find_ignores_tried, Hf in Ha.
        apply (f_equal length) in Ha. rewrite length_app in Ha.
        cbn [length] in Ha. lia.
      + right. left. lia.
    - rewrite Ha, length_app. cbn [length]. lia. }
  destruct (select_address_grows avl tried (_used_addresses c) Hlt Hinv)
    as [[a Ha] | [-> Hnil]].
  2: { rewrite Hnil. discriminate. }
  assert (Hlast : last (select_address avl tried (_used_addresses c)) = Some a)
    by (rewrite Ha; apply last_snoc).
  rewrite Hlast.
  unfold bind at 1. unfold modify at 1. unfold bind at 1. unfold sys at 1.
  cbn [os clock set_selected].
  set (c1 := step (Attempt a) (set_selected a c)).
  destruct (socket_socket (os c) (clock c) a); cbn [negb].
  - unfold bind at 1. unfold gets at 1. unfold bind at 1. unfold modify at 1.
    unfold bind at 1. unfold gets at 1. cbn [_encrypted set_socket].
    replace (_encrypted c1) with (_encrypted c) by reflexivity.
    destruct (_encrypted c).
    + unfold bind at 1.
      match goal with |- context [wrap_socket ?o ?k] =>
        destruct (wrap_socket o k) end; cbn [negb].
      * unfold bind, modify, gets, ret. discriminate.
      * unfold id.
        apply (Hnext (set_socket (new_socket c1) c1) eq_refl a Ha).
    + unfold bind, modify, gets, ret. discriminate.
  - apply (Hnext c1 eq_refl a Ha).
Qed.

(** X1.  With more rounds than resolved candidates, [create] comes to an
    end: it returns or it raises.  If it returns [True], the socket is a
    fresh open one, wrapped exactly when [_encrypted] is set and blocking
    as [_blocking] says, the selected candidate is one of those resolved,
    it was the last one attempted and its socket address has been
    appended to the used list.  If it returns [False], either resolution
    failed and nothing changed, or the used list is empty. *)
Theorem create_outcomes (fuel : nat) (c : state) :
  (forall avl, getaddrinfo (os c) = Some avl -> length avl < fuel) ->
  match create fuel c with
  | (Val true, c') =>
      exists avl a l,
        getaddrinfo (os c) = Some avl /\ In a avl /\
        _selected c' = Some a /\
        _used_addresses c'
        = _used_addresses c ++ [sockaddr_val (ai_sockaddr a)] /\
        _socket c' = Some {| fileno_open := true; wrapped := _encrypted c;
                             blocking := _blocking c |} /\
        trace c' = trace c ++ l ++ [Attempt a]
  | (Val false, c') =>
      (getaddrinfo (os c) = None /\ c' = c) \/ _used_addresses c' = []
  | (Raised _, _) => True
  | (OutOfFuel, _) => False
  end.
Proof.
  intros Hfuel. unfold create, bind, gets.
  destruct (getaddrinfo (os c)) as [avl |] eqn:Hres; [| left; auto].
  pose proof (create_loop_post fuel avl [] c (List.Forall_nil _)) as H.
  pose proof (create_loop_total fuel avl [] c (or_introl eq_refl)) as Ht.
  cbn [length] in Ht. rewrite Nat.sub_0_r in Ht.
  specialize (Ht (Hfuel avl eq_refl)).
  destruct (create_loop fuel avl [] c) as [[[] | e |] c']; cbn [fst] in Ht.
  - destruct H as (a & l & H). exists avl, a, l. split; [reflexivity | exact H].
  - right. exact H.
  - exact I.
  - apply Ht. reflexivity.
Qed.

Lemma create_outcomes_witness :
  exists avl a l,
    getaddrinfo (os (fresh_client (os_reply 99 "") false)) = Some avl /\
    In a avl /\
    _selected (snd (create 2 (fresh_client (os_reply 99 "") false))) = Some a /\
    _used_addresses (snd (create 2 (fresh_client (os_reply 99 "") false)))
    = [] ++ [sockaddr_val (ai_sockaddr a)] /\
    _socket (snd (create 2 (fresh_client (os_reply 99 "") false)))
    = Some {| fileno_open := true; wrapped := true; blocking := true |} /\
    trace (snd (create 2 (fresh_client (os_reply 99 "") false)))
    = [] ++ l ++ [Attempt a].
Proof.
  apply (create_outcomes 2 (fresh_client (os_reply 99 "") false)).
  intros avl H. injection H as <-. simpl. lia.
Defined.

Lemma find_untried_unused (used : list pyval) (avl : list addrinfo) :
  List.find (fun address => not_in_tried [] address && not_in_used used address)
    avl
  = List.find (not_in_used used) avl.
Proof.
  induction avl as [| a avl IH]; [reflexivity |].
  cbn [List.find]. rewrite ClientFacts.not_in_tried_always. cbn [andb].
  rewrite IH. reflexivity.
Qed.

Lemma find_untried (avl : list addrinfo) :
  List.find (not_in_tried []) avl = head avl.
Proof.
  destruct avl as [| a avl]; [reflexivity |].
  cbn [List.find]. rewrite ClientFacts.not_in_tried_always. reflexivity.
Qed.

(** The trace only grows. *)
Lemma create_loop_trace (n : nat) (avl : list addrinfo) :
  forall (tried : list addrinfo) (c : state),
    exists l, trace (snd (create_loop n avl tried c)) = trace c ++ l.
Proof.
  induction n as [| n IH]; intros tried c.
  - exists []. cbn. rewrite app_nil_r. reflexivity.
  - cbn [create_loop].
    destruct (length tried <? length avl).
    2: { exists []. cbn. rewrite app_nil_r. reflexivity. }
    unfold bind at 1. unfold gets at 1.
    destruct (last (select_address avl tried (_used_addresses c))) as [a |].
    2: { exists []. cbn. rewrite app_nil_r. reflexivity. }
    unfold bind at 1. unfold modify at 1. unfold bind at 1. unfold sys at 1.
    cbn [os clock set_selected].
    set (c1 := step (Attempt a) (set_selected a c)).
    destruct (socket_socket (os c) (clock c) a); cbn [negb].
    + unfold bind at 1. unfold gets at 1. unfold bind at 1. unfold modify at 1.
      unfold bind at 1. unfold gets at 1. unfold id.
      destruct (_encrypted (set_socket (new_socket c1) c1)).
      * unfold bind at 1.
        match goal with |- context [wrap_socket ?o ?k] =>
          destruct (wrap_socket o k) end; cbn [negb].
        -- exists [Attempt a]. reflexivity.
        -- destruct (IH (select_address avl tried (_used_addresses c))
                       (set_socket (new_socket c1) c1)) as [l Hl].
           exists (Attempt a :: l). rewrite Hl. cbn.
           rewrite <- app_assoc. reflexivity.
      * exists [Attempt a]. reflexivity.
    + destruct (IH (select_address avl tried (_used_addresses c)) c1)
        as [l Hl].
      exists (Attempt a :: l). rewrite Hl. cbn.
      rewrite <- app_assoc. reflexivity.
Qed.

(** X2.  The candidate that [create] attempts first is the first resolved
    candidate whose socket address is not on the used list, as long as
    the used list is shorter than the list of candidates; once the used
    list is that long, it is the first candidate of all. *)
Theorem create_first_attempt (fuel : nat) (c : state)
  (avl : list addrinfo) (a : addrinfo) :
  getaddrinfo (os c) = Some avl ->
  (if length (_used_addresses c) <? length avl
   then List.find (not_in_used (_used_addresses c)) avl
   else head avl) = Some a ->
  exists l, trace (snd (create (S fuel) c)) = trace c ++ (Attempt a :: l).
Proof.
  intros Hres Hpick. unfold create, bind, gets. rewrite Hres.
  cbn [create_loop].
  assert (Hne : (length (@nil addrinfo) <? length avl) = true).
  { apply Nat.ltb_lt. destruct avl; [| simpl; lia].
    destruct (length (_used_addresses c) <? 0); discriminate. }
  rewrite Hne. unfold bind at 1. unfold gets at 1.
  assert (Hsel : select_address avl [] (_used_addresses c) = [a]).
  { unfold select_address. cbn [length]. rewrite Nat.add_0_r.
    rewrite find_untried_unused, find_untried.
    destruct (length (_used_addresses c) <? length avl);
      rewrite Hpick; reflexivity. }
  rewrite Hsel. cbn [last].
  unfold bind at 1. unfold modify at 1. unfold bind at 1. unfold sys at 1.
  cbn [os clock set_selected].
  set (c1 := step (Attempt a) (set_selected a c)).
  destruct (socket_socket (os c) (clock c) a); cbn [negb].
  - unfold bind at 1. unfold gets at 1. unfold bind at 1. unfold modify at 1.
    unfold bind at 1. unfold gets at 1. unfold id.
    destruct (_encrypted (set_socket (new_socket c1) c1)).
    + unfold bind at 1.
      match goal with |- context [wrap_socket ?o ?k] =>
        destruct (wrap_socket o k) end; cbn [negb].
      * exists []. reflexivity.
      * destruct (create_loop_trace fuel avl [a]
                    (set_socket (new_socket c1) c1)) as [l Hl].
        exists l. rewrite Hl. cbn. rewrite <- app_assoc. reflexivity.
    + exists []. reflexivity.
  - destruct (create_loop_trace fuel avl [a] c1) as [l Hl].
    exists l. rewrite Hl. cbn. rewrite <- app_assoc. reflexivity.
Qed.

Lemma create_first_attempt_witness :
  exists l,
    trace (snd (create 8 used_A_client)) = Attempt addr_B :: l.
Proof.
  apply (create_first_attempt 7 used_A_client [addr_A; addr_B; addr_C] addr_B).
  - reflexivity.
  - vm_compute. reflexivity.
Defined.

(** ** [close] after [create] *)

Lemma close_pops (c : state) (s : sock) (u : list pyval) (x : pyval) :
  _socket c = Some s -> fileno_open s = true ->
  _used_addresses c = u ++ [x] ->
  exists c',
    close c = (Val true, c') /\ _used_addresses c' = u /\
    fileno_open <$> _socket c' = Some false /\
    trace c' = trace c ++ [Shutdown; Closed].
Proof.
  intros Hs Ho Hu. unfold close, bind, gets, sys, modify.
  destruct c as [enc blk used sel so bo st o k tr]; cbn in *.
  subst so used. rewrite Ho. cbn.
  destruct (u ++ [x]) as [| y ys] eqn:E; [destruct u; discriminate |].
  rewrite <- E, removelast_last.
  eexists. split; [reflexivity |]. cbn. rewrite <- app_assoc. auto.
Qed.

(** X3.  A [close] that follows a successful [create] returns [True],
    closes the socket and takes off the used list exactly the address
    that [create] put there: the used list is what it was before. *)
Theorem create_then_close (fuel : nat) (c c1 : state) :
  create fuel c = (Val true, c1) ->
  exists c2,
    close c1 = (Val true, c2) /\
    _used_addresses c2 = _used_addresses c /\
    fileno_open <$> _socket c2 = Some false.
Proof.
  intros Hc. unfold create, bind, gets in Hc.
  destruct (getaddrinfo (os c)) as [avl |]; [| discriminate].
  pose proof (create_loop_post fuel avl [] c (List.Forall_nil _)) as H.
  rewrite Hc in H. destruct H as (a & l & _ & _ & Hu & Hs & _).
  destruct (close_pops c1 _ _ _ Hs eq_refl Hu) as (c2 & E & Hu2 & Hs2 & _).
  exists c2. auto.
Qed.

Lemma create_then_close_witness :
  exists c2,
    close (snd (create 4 (fresh_client (os_reply 99 "") false)))
    = (Val true, c2) /\
    _used_addresses c2 = [] /\
    fileno_open <$> _socket c2 = Some false.
Proof.
  apply (create_then_close 4 (fresh_client (os_reply 99 "") false)).
  vm_compute. reflexivity.
Defined.

(** ** [send] *)

Lemma send_loop_accepted (n len : nat) :
  forall (sent : nat) (c c' : state),
    send_loop n len sent c = (Val true, c') ->
    exists l, trace c' = trace c ++ l /\ len <= sent + bytes_sent l.
Proof.
  induction n as [| n IH]; intros sent c c'; [discriminate |].
  cbn [send_loop]. destruct (Nat.ltb_spec sent len) as [Hlt | Hge].
  - unfold bind at 1. unfold gets at 1. unfold bind at 1. unfold sys at 1.
    destruct (socket_send (os c) (clock c)
                (Nat.min (_bytes_out c) (len - sent))) as [k |];
      [| discriminate].
    unfold bind at 1. unfold modify at 1. intros H.
    apply IH in H as (l & Hl & Hb).
    exists (SentBytes k :: Sleep :: l). split.
    + rewrite Hl. cbn. rewrite <- !app_assoc. reflexivity.
    + cbn. lia.
  - intros H. injection H as <-. exists []. split.
    + rewrite app_nil_r. reflexivity.
    + cbn. lia.
Qed.

(** X4.  [send] reports success only when the byte counts that
    [socket.send] returned add up to at least the length of the
    message. *)
Theorem send_true_means_accepted (fuel : nat) (msg : string) (c c' : state) :
  send fuel msg c = (Val true, c') ->
  exists l, trace c' = trace c ++ l /\ String.length msg <= bytes_sent l.
Proof.
  intros H. apply send_loop_accepted in H as (l & Hl & Hb).
  exists l. split; [exact Hl | lia].
Qed.

Lemma send_true_means_accepted_witness :
  exists l,
    trace (snd (send 4 "request" (connected_client (os_reply 99 "") false)))
    = [] ++ l /\ 7 <= bytes_sent l.
Proof.
  apply (send_true_means_accepted 4 "request"
           (connected_client (os_reply 99 "") false)).
  vm_compute. reflexivity.
Defined.

Lemma send_loop_delivers (n len : nat) :
  forall (sent : nat) (c : state),
    (forall i size, socket_send (os c) i size = Some size) ->
    0 < _bytes_out c -> sent <= len -> len - sent < n ->
    exists c' l,
      send_loop n len sent c = (Val true, c') /\
      trace c' = trace c ++ l /\ sent + bytes_sent l = len /\
      sleeps l * _bytes_out c < len - sent + _bytes_out c /\
      len - sent <= sleeps l * _bytes_out c.
Proof.
  induction n as [| n IH]; intros sent c Hos Hb Hle Hn; [lia |].
  cbn [send_loop]. destruct (Nat.ltb_spec sent len) as [Hlt | Hge].
  - unfold bind at 1. unfold gets at 1. unfold bind at 1. unfold sys at 1.
    rewrite Hos. unfold bind at 1. unfold modify at 1.
    set (size := Nat.min (_bytes_out c) (len - sent)).
    set (c1 := step Sleep (step (SentBytes (default 0 (Some size))) c)).
    destruct (IH (sent + size) c1) as (c' & l & E & Hl & Hs & Hk1 & Hk2).
    + exact Hos.
    + exact Hb.
    + subst size. lia.
    + subst size. lia.
    + exists c', (SentBytes size :: Sleep :: l). split; [exact E |].
      split; [| split; [| split]].
      * rewrite Hl. cbn. rewrite <- !app_assoc. reflexivity.
      * cbn. lia.
      * cbn [sleeps]. replace (_bytes_out c1) with (_bytes_out c) in *
          by reflexivity.
        rewrite Nat.mul_succ_l. subst size.
        destruct (Nat.min_spec (_bytes_out c) (len - sent)) as [[? Hm] | [? Hm]];
          rewrite Hm in *; [lia |].
        destruct (sleeps l); cbn in *; lia.
      * cbn [sleeps]. replace (_bytes_out c1) with (_bytes_out c) in *
          by reflexivity.
        rewrite Nat.mul_succ_l. subst size.
        destruct (Nat.min_spec (_bytes_out c) (len - sent)) as [[? Hm] | [? Hm]];
          rewrite Hm in *; lia.
  - exists c, []. split; [reflexivity |]. rewrite app_nil_r.
    cbn. repeat split; lia.
Qed.

(** X5.  On a socket that takes every chunk whole, with a positive chunk
    size and enough rounds, [send] returns [True]; the chunks add up to
    exactly the message, and there are as many sleeps as chunks: the
    length of the message divided by [_bytes_out], rounded up. *)
Theorem send_delivers_in_chunks (fuel : nat) (msg : string) (c : state) :
  (forall i size, socket_send (os c) i size = Some size) ->
  0 < _bytes_out c -> String.length msg < fuel ->
  exists c' l,
    send fuel msg c = (Val true, c') /\
    trace c' = trace c ++ l /\
    bytes_sent l = String.length msg /\
    sleeps l = (String.length msg + _bytes_out c - 1) / _bytes_out c.
Proof.
  intros Hos Hb Hf.
  destruct (send_loop_delivers fuel (String.length msg) 0 c Hos Hb)
    as (c' & l & E & Hl & Hs & Hk1 & Hk2); [lia | lia |].
  exists c', l. repeat split; try assumption.
  apply Nat.div_unique with
    (r := String.length msg + _bytes_out c - 1 - sleeps l * _bytes_out c);
    lia.
Qed.

Lemma send_delivers_in_chunks_witness :
  exists c' l,
    send 8 "request" (connected_client (os_reply 99 "") false)
    = (Val true, c') /\
    trace c' = [] ++ l /\ bytes_sent l = 7 /\
    sleeps l = (7 + 1024 - 1) / 1024.
Proof.
  apply (send_delivers_in_chunks 8 "request"
           (connected_client (os_reply 99 "") false)).
  - reflexivity.
  - vm_compute. lia.
  - vm_compute. lia.
Defined.

Lemma send_loop_stalls (n len : nat) :
  forall (sent : nat) (c : state),
    _bytes_out c = 0 ->
    (forall i size, exists k, socket_send (os c) i size = Some k /\ k <= size) ->
    sent < len ->
    fst (send_loop n len sent c) = OutOfFuel.
Proof.
  induction n as [| n IH]; intros sent c Hb Hos Hlt; [reflexivity |].
  cbn [send_loop].
  replace (sent <? len) with true by (symmetry; apply Nat.ltb_lt; exact Hlt).
  unfold bind at 1. unfold gets at 1. unfold bind at 1. unfold sys at 1.
  rewrite Hb. cbn [Nat.min].
  destruct (Hos (clock c) 0) as (k & -> & Hk).
  assert (k = 0) as -> by lia.
  unfold bind at 1. unfold modify at 1. rewrite Nat.add_0_r.
  apply IH; assumption.
Qed.

(** X6.  With a chunk size of zero, on a socket that stays writable and
    never reports more bytes than it was offered, [send] of a non-empty
    message never finishes: whatever the number of rounds allowed, it is
    still looping. *)
Theorem send_with_zero_chunk_never_ends (msg : string) (c : state) :
  _bytes_out c = 0 ->
  (forall i size, exists k, socket_send (os c) i size = Some k /\ k <= size) ->
  msg <> "" ->
  forall fuel, fst (send fuel msg c) = OutOfFuel.
Proof.
  intros Hb Hos Hne fuel. apply send_loop_stalls; try assumption.
  destruct msg; [contradiction | simpl; lia].
Qed.

(** ** [receive] *)

Lemma append_empty_r (s : string) : String.append s "" = s.
Proof.
  induction s as [| a s IH]; [reflexivity |].
  change (String a (String.append s "") = String a s). rewrite IH. reflexivity.
Qed.

Lemma append_assoc (s t u : string) :
  String.append (String.append s t) u = String.append s (String.append t u).
Proof.
  induction s as [| a s IH]; [reflexivity |].
  change (String a (String.append (String.append s t) u)
          = String a (String.append s (String.append t u))).
  rewrite IH. reflexivity.
Qed.

(** The loop of [receive] in streaming mode, by its outcome: the rounds
    before the last are idle ones. *)
Lemma receive_loop_stream (n : nat) :
  forall (acc : string) (c : state),
    _stream c = true ->
    match receive_loop n acc c with
    | (Val v, c') =>
        exists l,
          Forall (fun e => idle e = true) l /\
          ((v = PyFalse /\ trace c' = trace c ++ l ++ [Polled RecvError]) \/
           (exists d,
              v = PyStr (String.append acc d) /\ d <> "" /\
              utf8_valid d = true /\
              trace c' = trace c ++ l ++ [Polled (Chunk d)]))
    | (Raised e, c') =>
        e = UnicodeDecodeError /\
        exists l d,
          Forall (fun e => idle e = true) l /\ d <> "" /\
          utf8_valid d = false /\
          trace c' = trace c ++ l ++ [Polled (Chunk d)]
    | (OutOfFuel, c') =>
        exists l,
          Forall (fun e => idle e = true) l /\ polls l = n /\
          trace c' = trace c ++ l
    end.
Proof.
  induction n as [| n IH]; intros acc c Hs.
  { exists []. cbn. rewrite app_nil_r. auto. }
  assert (Hidle : forall p,
    idle (Polled p) = true ->
    match receive_loop n acc (step Sleep (step (Polled p) c)) with
    | (Val v, c') =>
        exists l,
          Forall (fun e => idle e = true) l /\
          ((v = PyFalse /\ trace c' = trace c ++ l ++ [Polled RecvError]) \/
           (exists d,
              v = PyStr (String.append acc d) /\ d <> "" /\
              utf8_valid d = true /\
              trace c' = trace c ++ l ++ [Polled (Chunk d)]))
    | (Raised e, c') =>
        e = UnicodeDecodeError /\
        exists l d,
          Forall (fun e => idle e = true) l /\ d <> "" /\
          utf8_valid d = false /\
          trace c' = trace c ++ l ++ [Polled (Chunk d)]
    | (OutOfFuel, c') =>
        exists l,
          Forall (fun e => idle e = true) l /\ polls l = S n /\
          trace c' = trace c ++ l
    end).
  { intros p Hp.
    specialize (IH acc (step Sleep (step (Polled p) c)) Hs).
    destruct (receive_loop n acc (step Sleep (step (Polled p) c)))
      as [[v | e |] c'].
    - destruct IH as (l & Hl & IH).
      exists (Polled p :: Sleep :: l).
      split; [repeat constructor; assumption |].
      destruct IH as [[-> Ht] | (d & -> & Hd & Hv & Ht)];
        [left | right; exists d]; repeat split; try assumption;
        rewrite Ht; cbn [trace step]; rewrite <- !app_assoc; reflexivity.
    - destruct IH as (-> & l & d & Hl & Hd & Hv & Ht).
      split; [reflexivity |].
      exists (Polled p :: Sleep :: l), d.
      split; [repeat constructor; assumption |].
      repeat split; try assumption.
      rewrite Ht. cbn [trace step]. rewrite <- !app_assoc. reflexivity.
    - destruct IH as (l & Hl & Hp' & Ht).
      exists (Polled p :: Sleep :: l).
      split; [repeat constructor; assumption |].
      split; [cbn; rewrite Hp'; reflexivity |].
      rewrite Ht. cbn [trace step]. rewrite <- !app_assoc. reflexivity. }
  cbn [receive_loop]. unfold bind at 1. unfold sys at 1.
  destruct (socket_recv (os c) (clock c)) as [| d |] eqn:Hp.
  - cbn [String.length Nat.ltb Nat.leb andb].
    unfold bind at 1. unfold gets at 1. cbn [_stream step]. rewrite Hs.
    cbn [andb negb]. unfold bind at 1. unfold modify at 1.
    exact (Hidle Quiet eq_refl).
  - destruct d as [| a d].
    + cbn [String.length Nat.ltb Nat.leb andb].
      unfold bind at 1. unfold gets at 1. cbn [_stream step]. rewrite Hs.
      cbn [andb negb]. unfold bind at 1. unfold modify at 1.
      exact (Hidle (Chunk "") eq_refl).
    + change (0 <? String.length (String a d)) with true. cbn [andb].
      destruct (utf8_valid (String a d)) eqn:Hv; cbn [negb].
      * unfold bind at 1. unfold gets at 1. cbn [_stream step]. rewrite Hs.
        cbn [andb]. exists []. split; [constructor |]. right.
        exists (String a d).
        split; [reflexivity |]. split; [discriminate |].
        split; [exact Hv | reflexivity].
      * split; [reflexivity |]. exists [], (String a d).
        split; [constructor |]. split; [discriminate |].
        split; [exact Hv | reflexivity].
  - exists []. split; [constructor |]. left. split; reflexivity.
Qed.

(** X7.  In streaming mode [receive] returns the first non-empty chunk
    that arrives, when that chunk decodes by itself, and never the empty
    string: every round before the one in which it returns found nothing
    or an empty chunk.  It returns [False] only when [recv] fails, and
    raises [UnicodeDecodeError] when the first non-empty chunk is not
    well-formed UTF-8 by itself.  It is still waiting after [fuel]
    rounds only if all of them were idle. *)
Theorem stream_receive_is_one_packet (fuel : nat) (c : state) :
  _stream c = true ->
  match receive fuel c with
  | (Val v, c') =>
      exists l,
        Forall (fun e => idle e = true) l /\
        ((v = PyFalse /\ trace c' = trace c ++ l ++ [Polled RecvError]) \/
         (exists d,
            v = PyStr d /\ d <> "" /\ utf8_valid d = true /\
            trace c' = trace c ++ l ++ [Polled (Chunk d)]))
  | (Raised e, c') =>
      e = UnicodeDecodeError /\
      exists l d,
        Forall (fun e => idle e = true) l /\ d <> "" /\
        utf8_valid d = false /\
        trace c' = trace c ++ l ++ [Polled (Chunk d)]
  | (OutOfFuel, c') =>
      exists l,
        Forall (fun e => idle e = true) l /\ polls l = fuel /\
        trace c' = trace c ++ l
  end.
Proof. intros Hs. exact (receive_loop_stream fuel "" c Hs). Qed.

Lemma stream_receive_is_one_packet_witness :
  exists l,
    Forall (fun e => idle e = true) l /\
    ((PyStr "push-empty-data" = PyFalse /\
      trace (snd (receive 4 (connected_client (os_reply 2 "push-empty-data")
                               true)))
      = [] ++ l ++ [Polled RecvError]) \/
     (exists d,
        PyStr "push-empty-data" = PyStr d /\ d <> "" /\ utf8_valid d = true /\
        trace (snd (receive 4 (connected_client (os_reply 2 "push-empty-data")
                                 true)))
        = [] ++ l ++ [Polled (Chunk d)])).
Proof.
  exact (stream_receive_is_one_packet 4
           (connected_client (os_reply 2 "push-empty-data") true) eq_refl).
Defined.

Lemma burst_tail (o : Os) (start : nat) (d : string) (chunks : list string) :
  burst o start (d :: chunks) -> burst o (S (S start)) chunks.
Proof.
  intros H i x Hx. specialize (H (S i) x Hx).
  replace (S (S start) + 2 * i) with (start + 2 * S i) by lia. exact H.
Qed.

Lemma burst_prefix (o : Os) (start : nat) (chunks rest : list string) :
  burst o start (chunks ++ rest) -> burst o start chunks.
Proof.
  intros H i x Hx. apply H. apply lookup_app_l_Some. exact Hx.
Qed.

(** One round of the loop on a chunk that decodes. *)
Lemma receive_loop_chunk (n : nat) (acc d : string) (c : state) :
  _stream c = false ->
  socket_recv (os c) (clock c) = Chunk d ->
  d <> "" -> utf8_valid d = true ->
  receive_loop (S n) acc c
  = receive_loop n (String.append acc d)
      (step Sleep (step (Polled (Chunk d)) c)).
Proof.
  intros Hs Hd Hne Hv.
  assert (Hlen : 0 < String.length d)
    by (destruct d; [contradiction | simpl; lia]).
  cbn [receive_loop]. unfold bind at 1. unfold sys at 1. rewrite Hd.
  rewrite Hv. cbn [negb]. rewrite andb_false_r.
  unfold bind at 1. unfold gets at 1. cbn [_stream step]. rewrite Hs.
  cbn [andb negb].
  replace (0 <? String.length d) with true
    by (symmetry; apply Nat.ltb_lt; exact Hlen).
  replace (String.length d <=? 0) with false
    by (symmetry; apply Nat.leb_gt; exact Hlen).
  reflexivity.
Qed.

Lemma receive_loop_burst (chunks : list string) :
  forall (n : nat) (acc : string) (c : state),
    _stream c = false ->
    burst (os c) (clock c) chunks ->
    Forall (fun d => utf8_valid d = true) chunks ->
    socket_recv (os c) (clock c + 2 * length chunks) = Quiet ->
    length chunks < n ->
    exists c' l,
      receive_loop n acc c = (Val (PyStr (String.append acc (join chunks))), c') /\
      trace c' = trace c ++ l /\ sleeps l = length chunks.
Proof.
  induction chunks as [| d chunks IH]; intros n acc c Hs Hb Hv Hq Hn.
  - destruct n as [| n]; [simpl in Hn; lia |].
    cbn [length] in Hq. rewrite Nat.mul_0_r, Nat.add_0_r in Hq.
    cbn [receive_loop]. unfold bind, sys, gets. rewrite Hq.
    cbn [String.length Nat.ltb Nat.leb andb _stream step]. rewrite Hs. cbn.
    rewrite append_empty_r. eexists. exists [Polled Quiet].
    split; [reflexivity |]. split; reflexivity.
  - destruct n as [| n]; [simpl in Hn; lia |].
    destruct (Hb 0 d eq_refl) as [Hd Hne].
    rewrite Nat.mul_0_r, Nat.add_0_r in Hd.
    apply Forall_cons in Hv as [Hvd Hv].
    rewrite (receive_loop_chunk n acc d c Hs Hd Hne Hvd).
    set (c1 := step Sleep (step (Polled (Chunk d)) c)).
    destruct (IH n (String.append acc d) c1) as (c' & l & E & Hl & Hsl).
    + exact Hs.
    + apply (burst_tail _ _ d). exact Hb.
    + exact Hv.
    + cbn [c1 clock step os]. cbn [length] in Hq.
      replace (S (S (clock c)) + 2 * length chunks)
        with (clock c + 2 * S (length chunks)) by lia.
      exact Hq.
    + simpl in Hn. lia.
    + exists c', (Polled (Chunk d) :: Sleep :: l).
      rewrite E. cbn [join fold_right]. rewrite append_assoc.
      split; [reflexivity |]. split.
      * rewrite Hl. cbn. rewrite <- !app_assoc. reflexivity.
      * cbn. rewrite Hsl. reflexivity.
Qed.

Lemma receive_loop_undecodable (good : list string) (bad : string) :
  forall (n : nat) (acc : string) (c : state),
    _stream c = false ->
    burst (os c) (clock c) (good ++ [bad]) ->
    Forall (fun d => utf8_valid d = true) good ->
    utf8_valid bad = false ->
    length good < n ->
    exists c' l,
      receive_loop n acc c = (Raised UnicodeDecodeError, c') /\
      trace c' = trace c ++ l /\ sleeps l = length good.
Proof.
  induction good as [| d good IH]; intros n acc c Hs Hb Hv Hbad Hn.
  - destruct n as [| n]; [simpl in Hn; lia |].
    destruct (Hb 0 bad eq_refl) as [Hd Hne].
    rewrite Nat.mul_0_r, Nat.add_0_r in Hd.
    assert (Hlen : 0 < String.length bad)
      by (destruct bad; [contradiction | simpl; lia]).
    cbn [receive_loop]. unfold bind at 1. unfold sys at 1. rewrite Hd.
    rewrite Hbad.
    replace (0 <? String.length bad) with true
      by (symmetry; apply Nat.ltb_lt; exact Hlen).
    cbn [andb negb]. eexists. exists [Polled (Chunk bad)].
    split; [reflexivity |]. split; reflexivity.
  - destruct n as [| n]; [simpl in Hn; lia |].
    destruct (Hb 0 d eq_refl) as [Hd Hne].
    rewrite Nat.mul_0_r, Nat.add_0_r in Hd.
    apply Forall_cons in Hv as [Hvd Hv].
    rewrite (receive_loop_chunk n acc d c Hs Hd Hne Hvd).
    set (c1 := step Sleep (step (Polled (Chunk d)) c)).
    destruct (IH n (String.append acc d) c1) as (c' & l & E & Hl & Hsl).
    + exact Hs.
    + apply (burst_tail _ _ d). exact Hb.
    + exact Hv.
    + exact Hbad.
    + simpl in Hn. lia.
    + exists c', (Polled (Chunk d) :: Sleep :: l).
      split; [exact E |]. split.
      * rewrite Hl. cbn. rewrite <- !app_assoc. reflexivity.
      * cbn. rewrite Hsl. reflexivity.
Qed.

(** X8.  Not in streaming mode, when the chunks of a response arrive one
    per poll: if every chunk is well-formed UTF-8 by itself and the poll
    after the last finds nothing, [receive] returns the chunks joined in
    their order of arrival, having slept once per chunk; if a chunk is
    not well formed by itself, as when the bytes of one character arrive
    in two chunks, [receive] raises [UnicodeDecodeError] at that chunk,
    having slept once for each chunk before it. *)
Theorem receive_joins_the_burst (fuel : nat) (c : state)
  (chunks : list string) :
  _stream c = false ->
  burst (os c) (clock c) chunks ->
  length chunks < fuel ->
  (Forall (fun d => utf8_valid d = true) chunks ->
   socket_recv (os c) (clock c + 2 * length chunks) = Quiet ->
   exists c' l,
     receive fuel c = (Val (PyStr (join chunks)), c') /\
     trace c' = trace c ++ l /\ sleeps l = length chunks) /\
  (forall good bad rest,
     chunks = good ++ bad :: rest ->
     Forall (fun d => utf8_valid d = true) good ->
     utf8_valid bad = false ->
     exists c' l,
       receive fuel c = (Raised UnicodeDecodeError, c') /\
       trace c' = trace c ++ l /\ sleeps l = length good).
Proof.
  intros Hs Hb Hf. split.
  - intros Hv Hq. exact (receive_loop_burst chunks fuel "" c Hs Hb Hv Hq Hf).
  - intros good bad rest -> Hv Hbad.
    apply (receive_loop_undecodable good bad fuel "" c Hs); try assumption.
    + apply (burst_prefix _ _ _ rest).
      rewrite <- app_assoc. exact Hb.
    + rewrite length_app in Hf. lia.
Qed.

Lemma receive_joins_the_burst_witness :
  exists c' l,
    receive 4 (connected_client os_two_chunks false)
    = (Val (PyStr "balance"), c') /\
    trace c' = [] ++ l /\ sleeps l = 2.
Proof.
  destruct (receive_joins_the_burst 4 (connected_client os_two_chunks false)
              ["bal"; "ance"]) as [H _].
  - reflexivity.
  - intros [| [| i]] d H; try discriminate H; injection H as <-;
      split; [reflexivity | discriminate | reflexivity | discriminate].
  - vm_compute. lia.
  - apply H; [repeat constructor | reflexivity].
Defined.

(** The bytes 0xC3 and 0xA9 of one character, split over two chunks. *)
Lemma split_character_raises :
  fst (receive 4 (connected_client os_split_character false))
  = Raised UnicodeDecodeError.
Proof. vm_compute. reflexivity. Qed.

(** ** [open] *)

Lemma connect_loop_run (k : link) (i : nat) :
  forall (n : nat) (c : state),
    (forall j, j < i -> socket_connect k (clock c + j) = false) ->
    i = n \/ (i < n /\ socket_connect k (clock c + i) = true) ->
    exists c',
      connect_loop k n c = (Val (i <? n), c') /\
      trace c' = trace c ++ repeat Sleep i /\
      _socket c' = _socket c /\ _used_addresses c' = _used_addresses c.
Proof.
  induction i as [| i IH]; intros n c Hfail Hend.
  - destruct Hend as [<- | [Hlt Hok]].
    + exists c. cbn. rewrite app_nil_r. auto.
    + destruct n as [| n]; [lia |]. rewrite Nat.add_0_r in Hok.
      cbn [connect_loop]. unfold bind, gets. rewrite Hok.
      exists c. cbn. rewrite app_nil_r. auto.
  - destruct n as [| n]; [lia |].
    cbn [connect_loop]. unfold bind at 1. unfold gets at 1.
    rewrite <- (Nat.add_0_r (clock c)), (Hfail 0) by lia.
    unfold bind at 1. unfold modify at 1.
    destruct (IH n (step Sleep c)) as (c' & E & Ht & Hs & Hu).
    + intros j Hj. cbn [clock step].
      replace (S (clock c) + j) with (clock c + S j) by lia.
      apply Hfail. lia.
    + destruct Hend as [Hn | [Hlt Hok]]; [left; lia | right].
      split; [lia |]. cbn [clock step].
      replace (S (clock c) + i) with (clock c + S i) by lia. exact Hok.
    + exists c'. rewrite E. split.
      * replace (S i <? S n) with (i <? n) by reflexivity. reflexivity.
      * rewrite Ht. cbn. rewrite <- app_assoc. auto.
Qed.

(** X9.  On a socket that passes the basic check, [open] makes no new
    socket and tries to connect at most [_max_fails] times, sleeping
    after each failure: if the first [i] attempts fail and the next one
    succeeds, it returns [True] after [i] sleeps; if all [_max_fails]
    attempts fail it returns [False] after that many sleeps. *)
Theorem open_retries_are_bounded (k : link) (fuel _max_fails i : nat)
  (c : state) :
  check k "basic" c = true ->
  (forall j, j < i -> socket_connect k (clock c + j) = false) ->
  i = _max_fails \/ (i < _max_fails /\ socket_connect k (clock c + i) = true) ->
  exists c',
    open k fuel _max_fails c = (Val (i <? _max_fails), c') /\
    trace c' = trace c ++ repeat Sleep i /\
    _socket c' = _socket c /\ _used_addresses c' = _used_addresses c.
Proof.
  intros Hc Hfail Hend. unfold open, bind, gets. rewrite Hc. cbn [negb ret].
  exact (connect_loop_run k i _max_fails c Hfail Hend).
Qed.

Lemma open_retries_are_bounded_witness :
  exists c',
    open link_third_try 4 10 (connected_client (os_reply 99 "") false)
    = (Val true, c') /\
    trace c' = [] ++ repeat Sleep 2 /\
    _socket c' = _socket (connected_client (os_reply 99 "") false) /\
    _used_addresses c'
    = _used_addresses (connected_client (os_reply 99 "") false).
Proof.
  apply (open_retries_are_bounded link_third_try 4 10 2
           (connected_client (os_reply 99 "") false)).
  - reflexivity.
  - intros [| [| j]] Hj; [reflexivity | reflexivity | lia].
  - right. split; [lia | reflexivity].
Defined.

Lemma send_with_zero_chunk_never_ends_witness :
  fst (send 1000 "ping" zero_chunk_client) = OutOfFuel.
Proof.
  apply (send_with_zero_chunk_never_ends "ping" zero_chunk_client).
  - reflexivity.
  - intros i size. exists size. split; [reflexivity | lia].
  - discriminate.
Defined.

End TransportFacts.

(** * More on the protocol layer *)

Module ProtocolFacts.
Import Handler Session Scenario HandlerFacts.

(** ** Dictionaries *)

Lemma dict_get_set_eq {A : Type} (k : string) (v : A) (d : list (string * A)) :
  dict_get k (dict_set k v d) = Some v.
Proof.
  induction d as [| [k' v'] d IH]; cbn.
  - rewrite String.eqb_refl. reflexivity.
  - destruct (String.eqb k k') eqn:E; cbn.
    + rewrite String.eqb_refl. reflexivity.
    + rewrite E. exact IH.
Qed.

Lemma dict_get_set_ne {A : Type} (k k' : string) (v : A)
  (d : list (string * A)) :
  k <> k' -> dict_get k' (dict_set k v d) = dict_get k' d.
Proof.
  intros Hne. induction d as [| [k0 v0] d IH]; cbn.
  - destruct (String.eqb_spec k' k); [congruence | reflexivity].
  - destruct (String.eqb_spec k k0) as [-> | Hk]; cbn.
    + destruct (String.eqb_spec k' k0); [congruence | reflexivity].
    + destruct (String.eqb_spec k' k0); [reflexivity | exact IH].
Qed.

Lemma dict_get_absent {A : Type} (k : string) (d : list (string * A)) :
  k ∉ (fst <$> d) -> dict_get k d = None.
Proof.
  induction d as [| [k' v'] d IH]; [reflexivity |].
  cbn. intros Hn. apply not_elem_of_cons in Hn as [Hne Hn].
  destruct (String.eqb_spec k k'); [contradiction | exact (IH Hn)].
Qed.

(** [d.update(e)] followed by a lookup: the entry of [e] wins. *)
Lemma dict_get_update {A : Type} (k : string) (e : list (string * A)) :
  forall d : list (string * A),
    NoDup (fst <$> e) ->
    dict_get k (dict_update d e)
    = match dict_get k e with
      | Some v => Some v
      | None => dict_get k d
      end.
Proof.
  unfold dict_update.
  induction e as [| [k' v'] e IH]; intros d Hnd; [reflexivity |].
  cbn [fold_left fst snd dict_get]. cbn in Hnd.
  apply NoDup_cons in Hnd as [Hk' Hnd].
  rewrite (IH _ Hnd).
  destruct (String.eqb_spec k k') as [-> | Hne].
  - rewrite (dict_get_absent _ _ Hk'). apply dict_get_set_eq.
  - destruct (dict_get k e); [reflexivity |].
    apply dict_get_set_ne. congruence.
Qed.

Section Facts.

Variable env : environment.

(** X10.  [_send_request] serialises and records the dictionary
    [request_of].  In it the stream token and the tag that the caller
    passes always win over entries of the same name in the arguments,
    while a [command] entry among the arguments replaces the command. *)
Theorem request_dictionary self command stream arguments tag :
  distinct_keys arguments ->
  _send_request env self command stream arguments tag
  = (sent <- on_net self
               (Client.send (fuel env)
                  (dumps env (request_of command stream arguments tag))) ;;
     emit (Request self (request_of command stream arguments tag) sent) ;;
     ret sent) /\
  dict_get "streamSessionId" (request_of command stream arguments tag)
  = (if is_not_None stream then Some stream
     else argument "streamSessionId" arguments) /\
  dict_get "customTag" (request_of command stream arguments tag)
  = (if is_not_None tag then Some tag else argument "customTag" arguments) /\
  dict_get "command" (request_of command stream arguments tag)
  = Some (default (PyStr command) (argument "command" arguments)).
Proof.
  intros Hd. split; [reflexivity |].
  assert (Hbase : forall key,
    dict_get key match arguments with
                 | Some a => dict_update [("command", PyStr command)] a
                 | None => [("command", PyStr command)]
                 end
    = match argument key arguments with
      | Some v => Some v
      | None => dict_get key [("command", PyStr command)]
      end).
  { intros key. destruct arguments as [a |]; [| reflexivity].
    cbn [argument]. apply dict_get_update. exact Hd. }
  unfold request_of.
  repeat split.
  - destruct tag; destruct stream; cbn [is_not_None];
      rewrite ?(dict_get_set_ne "customTag" "streamSessionId") by discriminate;
      rewrite ?dict_get_set_eq; try reflexivity;
      rewrite Hbase; destruct (argument "streamSessionId" arguments);
      reflexivity.
  - destruct tag; destruct stream; cbn [is_not_None];
      rewrite ?dict_get_set_eq; try reflexivity;
      rewrite ?(dict_get_set_ne "streamSessionId" "customTag") by discriminate;
      rewrite Hbase; destruct (argument "customTag" arguments);
      reflexivity.
  - destruct tag; destruct stream;
      rewrite ?(dict_get_set_ne "customTag" "command") by discriminate;
      rewrite ?(dict_get_set_ne "streamSessionId" "command") by discriminate;
      rewrite Hbase; destruct (argument "command" arguments); reflexivity.
Qed.

(** ** What [_receive] can return *)

Lemma receive_loop_truthy (n : nat) self :
  forall retry (m m' : machine) (r : pyval),
    _receive_loop env n self retry m = (Val (Some r), m') ->
    truthy r = true.
Proof.
  induction n as [| n IH]; intros retry m m' r; [discriminate |].
  cbn [_receive_loop]. unfold bind at 1.
  destruct (_receive_response env self m) as [[v | e |] m1]; try discriminate.
  destruct (truthy v) eqn:Hv; cbn [negb].
  - intros H. injection H as <- _. exact Hv.
  - destruct retry; [| discriminate].
    unfold bind at 1.
    destruct (reconnect env self m1) as [[w | e |] m2]; try discriminate.
    apply IH.
Qed.

(** X11.  Whatever the peer sends and whatever the flags, a value that
    [_receive] returns is [False] or is true in a condition: an empty
    object, an empty list, zero, [null] and the like never reach the
    caller as a response. *)
Theorem receive_returns_False_or_truthy self retry data
  (m m' : machine) (r : pyval) :
  _receive env self retry data m = (Val r, m') ->
  r = PyFalse \/ truthy r = true.
Proof.
  unfold _receive. unfold bind at 1.
  destruct (_receive_loop env (fuel env) self retry m)
    as [[[v |] | e |] m1] eqn:Hl; try discriminate.
  2: { intros H. injection H as <- _. left. reflexivity. }
  pose proof (receive_loop_truthy _ _ _ _ _ _ Hl) as Hv.
  destruct data.
  - unfold bind, lift_res, emit, ret.
    destruct (py_in "status" v) as [[] | e |]; cbn [negb]; try discriminate.
    + destruct (py_getitem v "status") as [st | e |]; try discriminate.
      destruct (truthy st); cbn [negb].
      * intros H. injection H as <- _. right. exact Hv.
      * destruct (py_getitem v "errorCode") as [c | e |]; try discriminate.
        destruct (py_getitem v "errorDescr") as [d | e |]; try discriminate.
        intros H. injection H as <- _. left. reflexivity.
    + intros H. injection H as <- _. left. reflexivity.
  - intros H. injection H as <- _. right. exact Hv.
Qed.

(** ** Subscribing *)

Lemma task_get_set_eq (index : nat) (t : task) (d : list (nat * task)) :
  task_get index (task_set index t d) = Some t.
Proof.
  induction d as [| [i t'] d IH]; cbn.
  - rewrite Nat.eqb_refl. reflexivity.
  - destruct (Nat.eqb index i) eqn:E; cbn; rewrite E; [reflexivity | exact IH].
Qed.

Lemma task_get_set_ne (index j : nat) (t : task) (d : list (nat * task)) :
  j <> index -> task_get j (task_set index t d) = task_get j d.
Proof.
  intros Hne. induction d as [| [i t'] d IH]; cbn.
  - destruct (Nat.eqb_spec j index); [contradiction | reflexivity].
  - destruct (Nat.eqb_spec index i) as [-> | Hi]; cbn.
    + destruct (Nat.eqb_spec j i); [contradiction | reflexivity].
    + destruct (Nat.eqb_spec j i); [reflexivity | exact IH].
Qed.

Lemma task_set_length (index : nat) (t : task) (d : list (nat * task)) :
  length (task_set index t d)
  = match task_get index d with
    | Some _ => length d
    | None => S (length d)
    end.
Proof.
  induction d as [| [i t'] d IH]; cbn; [reflexivity |].
  destruct (Nat.eqb index i); cbn; [reflexivity |].
  rewrite IH. destruct (task_get index d); reflexivity.
Qed.

(** X12.  A subscription whose request went out is recorded under the
    key [len(tasks)]: the entry can be read back, every other key keeps
    its entry, and when that key is taken (after a subscription with a
    smaller key was popped) the entry that was there is replaced and the
    table does not grow.  The read thread is started by the first
    subscription only; later ones leave the flag and the thread as they
    are. *)
Theorem streamData_registers self command kwargs
  (m m2 : machine) (h d h2 : handler) :
  heap m !! self = Some h ->
  heap m !! _dh h = Some d ->
  truthy (_ssid d) = true ->
  _request env self true ("get" ++ command) (_ssid d)
    (if truthy (PyDict kwargs) then Some kwargs else None) PyNone
    (set_heap (<[self := set_ssid (_ssid d) h]> (heap m)) m)
  = (Val true, m2) ->
  heap m2 !! self = Some h2 ->
  let old := tasks (_streams h2) in
  let index := length old in
  exists m' s',
    streamData env self command kwargs m = (Val true, m') /\
    heap m' !! self = Some (set_streams s' h2) /\
    task_get index (tasks s')
    = Some {| Handler.command := command; arguments := kwargs |} /\
    (forall j, j <> index -> task_get j (tasks s') = task_get j old) /\
    length (tasks s')
    = match task_get index old with
      | Some _ => length old
      | None => S (length old)
      end /\
    match stream (_streams h2) with
    | None =>
        stream s' = Some true /\ stream_thread s' = Some read_thread /\
        log m' = log m2 ++ [Spawn self read_thread]
    | Some running =>
        stream s' = Some running /\
        stream_thread s' = stream_thread (_streams h2) /\
        log m' = log m2
    end.
Proof.
  intros Hh Hd Htok Hreq Hh2 old index.
  unfold streamData.
  rewrite (bind_val _ _ _ _ _ (attr_run _ _ _ _ Hh)).
  rewrite (bind_val _ _ _ _ _ (attr_run _ _ _ _ Hd)).
  rewrite Htok. cbn [negb].
  rewrite (bind_val _ _ _ _ _ (setattr_run _ _ _ _ Hh)).
  assert (Hself : heap (set_heap (<[self := set_ssid (_ssid d) h]> (heap m)) m)
                  !! self = Some (set_ssid (_ssid d) h))
    by (cbn [heap set_heap]; apply (lookup_insert_self _ _ _ _ Hh)).
  rewrite (bind_val _ _ _ _ _ (attr_run _ _ _ _ Hself)).
  cbn [_ssid set_ssid].
  rewrite (bind_val _ _ _ _ _ Hreq). cbn [negb].
  rewrite (bind_val _ _ _ _ _ (attr_run _ _ _ _ Hh2)).
  set (ts := task_set index {| Handler.command := command; arguments := kwargs |}
               old).
  destruct (setattr_at self (set_streams (set_tasks ts (_streams h2))) m2 _ Hh2)
    as (m3 & E3 & Hh3 & L3).
  fold old. fold index. fold ts.
  rewrite (bind_val _ _ _ _ _ E3).
  cbn [stream set_tasks].
  destruct (stream (_streams h2)) as [running |] eqn:Hs.
  - cbn [bind ret]. unfold bind, ret.
    exists m3, (set_tasks ts (_streams h2)).
    split; [reflexivity |]. split; [exact Hh3 |].
    cbn [tasks set_tasks stream stream_thread].
    split; [apply task_get_set_eq |].
    split; [intros j Hj; apply task_get_set_ne, Hj |].
    split; [apply task_set_length |].
    split; [exact Hs |]. split; [reflexivity | exact L3].
  - destruct (setattr_at self
                (set_streams {| tasks := tasks (set_tasks ts (_streams h2));
                                stream := Some true;
                                stream_thread := Some read_thread |}) m3 _ Hh3)
      as (m4 & E4 & Hh4 & L4).
    rewrite (bind_val _ _ _ _ _ (bind_val _ _ _ _ _ E4)).
    unfold bind, emit, ret.
    eexists.
    exists {| tasks := ts; stream := Some true;
              stream_thread := Some read_thread |}.
    split; [reflexivity |]. cbn [heap log tasks stream stream_thread].
    split; [exact Hh4 |].
    split; [apply task_get_set_eq |].
    split; [intros j Hj; apply task_get_set_ne, Hj |].
    split; [apply task_set_length |].
    split; [reflexivity |]. split; [reflexivity |].
    rewrite L4, L3. reflexivity.
Qed.

(** ** Stream handlers attached to a data handler *)

Lemma existsb_snoc (x : nat) (l : list nat) :
  existsb (Nat.eqb x) (l ++ [x]) = true.
Proof.
  rewrite existsb_app. cbn. rewrite Nat.eqb_refl.
  destruct (existsb (Nat.eqb x) l); reflexivity.
Qed.

Lemma list_remove_snoc (x : nat) (l : list nat) :
  existsb (Nat.eqb x) l = false -> list_remove x (l ++ [x]) = l.
Proof.
  induction l as [| y l IH]; cbn.
  - rewrite Nat.eqb_refl. reflexivity.
  - destruct (Nat.eqb x y); cbn; [discriminate |].
    intros H. rewrite (IH H). reflexivity.
Qed.

(** X13.  The list of attached stream handlers behaves as a set:
    attaching a handler that is not attached puts it at the end,
    attaching it again changes nothing, and detaching it then gives back
    the machine from before the first attachment; detaching a handler
    that is not attached changes nothing. *)
Theorem attach_twice_detach_once self sh (m : machine) (h : handler) :
  heap m !! self = Some h ->
  existsb (Nat.eqb sh) (_stream_handlers h) = false ->
  exists m1,
    _attach_stream_handler self sh m = (Val tt, m1) /\
    heap m1 !! self
    = Some (set_stream_handlers (_stream_handlers h ++ [sh]) h) /\
    _attach_stream_handler self sh m1 = (Val tt, m1) /\
    _detach_stream_handler self sh m1 = (Val tt, m) /\
    _detach_stream_handler self sh m = (Val tt, m).
Proof.
  intros Hh Hn.
  destruct (setattr_at self
              (set_stream_handlers (_stream_handlers h ++ [sh])) m _ Hh)
    as (m1 & E1 & Hh1 & L1).
  exists m1. repeat split.
  - unfold _attach_stream_handler.
    rewrite (bind_val _ _ _ _ _ (attr_run _ _ _ _ Hh)), Hn. exact E1.
  - exact Hh1.
  - unfold _attach_stream_handler.
    rewrite (bind_val _ _ _ _ _ (attr_run _ _ _ _ Hh1)).
    cbn [_stream_handlers set_stream_handlers].
    rewrite existsb_snoc. reflexivity.
  - unfold _detach_stream_handler.
    rewrite (bind_val _ _ _ _ _ (attr_run _ _ _ _ Hh1)).
    cbn [_stream_handlers set_stream_handlers].
    rewrite existsb_snoc, (list_remove_snoc _ _ Hn).
    rewrite (setattr_run _ _ _ _ Hh1).
    rewrite (setattr_run _ _ _ _ Hh) in E1. injection E1 as <-.
    cbn [heap set_heap set_stream_handlers cls net _ping _status _deleted
         _ssid _dh _streams].
    rewrite list_insert_insert_eq.
    replace (set_stream_handlers (_stream_handlers h)
               (set_stream_handlers (_stream_handlers h ++ [sh]) h))
      with h by (destruct h; reflexivity).
    rewrite (list_insert_id _ _ _ Hh).
    destruct m. reflexivity.
  - unfold _detach_stream_handler.
    rewrite (bind_val _ _ _ _ _ (attr_run _ _ _ _ Hh)), Hn. reflexivity.
Qed.

(** ** Starting the keepalive *)

(** X14.  [_start_ping] on a handler whose ping dictionary is well formed
    returns [True]; it joins the old thread first exactly when a ping
    loop was running, and then spawns a thread whose argument is the
    token, or [None] for a falsy one.  [_stop_ping] right after joins
    the thread just spawned and leaves the flag [False]. *)
Theorem start_ping_restarts self ssid (m : machine) (h : handler) :
  heap m !! self = Some h ->
  (ping (_ping h) = Some true -> ping_thread (_ping h) <> None) ->
  let t := {| target := "_send_ping";
              thread_arg := if truthy ssid then ssid else PyNone |} in
  let joined :=
    match ping (_ping h), ping_thread (_ping h) with
    | Some true, Some old => [Join self old]
    | _, _ => []
    end in
  exists m1 m2,
    _start_ping self ssid m = (Val true, m1) /\
    heap m1 !! self
    = Some (set_ping {| ping := Some true; ping_thread := Some t |} h) /\
    log m1 = log m ++ joined ++ [Spawn self t] /\
    _stop_ping self false m1 = (Val true, m2) /\
    heap m2 !! self
    = Some (set_ping {| ping := Some false; ping_thread := Some t |} h) /\
    log m2 = log m1 ++ [Join self t].
Proof.
  intros Hh Hwf t joined.
  assert (Hfirst : exists m0 h0,
    (match ping (_ping h) with
     | Some true => _ <- _stop_ping self false ;; ret tt
     | _ => ret tt
     end) m = (Val tt, m0) /\
    heap m0 !! self = Some h0 /\ log m0 = log m ++ joined /\
    forall p, set_ping p h0 = set_ping p h).
  { subst joined. destruct (ping (_ping h)) as [[] |] eqn:Hp.
    - destruct (ping_thread (_ping h)) as [old |] eqn:Ht;
        [| exfalso; apply (Hwf eq_refl); reflexivity].
      rewrite (bind_val _ _ _ _ _
                 (stop_ping_started _ _ _ _ _ Hh Hp Ht)).
      eexists. eexists. split; [reflexivity |]. cbn [heap log].
      split; [apply (lookup_insert_self _ _ _ _ Hh) |].
      split; reflexivity.
    - exists m, h. rewrite app_nil_r. auto.
    - exists m, h. rewrite app_nil_r. auto. }
  destruct Hfirst as (m0 & h0 & E0 & Hh0 & L0 & Hsame).
  destruct (setattr_at self
              (set_ping {| ping := Some true; ping_thread := Some t |}) m0 _ Hh0)
    as (ma & Ea & Hha & La).
  rewrite Hsame in Hha.
  set (m1 := {| heap := heap ma; log := log ma ++ [Spawn self t] |}).
  assert (E1 : _start_ping self ssid m = (Val true, m1)).
  { unfold _start_ping.
    rewrite (bind_val _ _ _ _ _ (attr_run _ _ _ _ Hh)).
    rewrite (bind_val _ _ _ _ _ E0).
    fold t. rewrite (bind_val _ _ _ _ _ Ea). reflexivity. }
  exists m1. eexists. split; [exact E1 |].
  split; [exact Hha |].
  split; [subst m1; cbn [log]; rewrite La, L0, <- app_assoc; reflexivity |].
  rewrite (stop_ping_started self m1 _ true t Hha eq_refl eq_refl).
  split; [reflexivity |]. cbn [heap log].
  split; [| reflexivity].
  rewrite (lookup_insert_self _ _ _ _ Hha). reflexivity.
Qed.

(** ** Deleting *)




(** ** Logging out *)


(** ** The pace of the keepalive *)

(** X28.  While the keepalive flag is set, the ping loop sends nothing
    and changes nothing during the rounds in which the time waited since
    it started, or since the last ping, is below 9.9 minutes: after [r]
    such rounds it is where it would be had it been started [r] rounds
    later with that time on its clock.  In particular no ping goes out
    when the keepalive is started. *)
Theorem ping_waits_for_the_interval (r n : nat) self ssid (h : handler)
  (m : machine) :
  heap m !! self = Some h ->
  ping (_ping h) = Some true ->
  forall round next_ping,
    (forall j, j < r -> (next_ping + waited env round j < ping_interval)%Z) ->
    _send_ping_loop env (r + n) self ssid round next_ping m
    = _send_ping_loop env n self ssid (round + r)
        (next_ping + waited env round r)%Z m.
Proof.
  intros Hh Hp. induction r as [| r IH]; intros round next_ping Hw.
  - cbn [Nat.add waited]. rewrite Nat.add_0_r, Z.add_0_r. reflexivity.
  - cbn [Nat.add _send_ping_loop].
    rewrite (bind_val _ _ _ _ _ (attr_run _ _ _ _ Hh)), Hp.
    pose proof (Hw 0 ltac:(lia)) as H0. cbn [waited] in H0.
    replace (ping_interval <=? next_ping)%Z with false
      by (symmetry; apply Z.leb_gt; lia).
    rewrite IH.
    + cbn [waited]. rewrite Nat.add_succ_r, Z.add_assoc. reflexivity.
    + intros j Hj. pose proof (Hw (S j) ltac:(lia)) as Hj'.
      cbn [waited] in Hj'. lia.
Qed.

End Facts.

Lemma request_dictionary_witness :
  dict_get "streamSessionId"
    (request_of "getTickPrices" (PyStr "token")
       (Some [("symbol", PyStr "ETHEREUM"); ("streamSessionId", PyStr "other")])
       PyNone)
  = Some (PyStr "token").
Proof.
  destruct (request_dictionary scenario_env 1 "getTickPrices" (PyStr "token")
              (Some [("symbol", PyStr "ETHEREUM");
                     ("streamSessionId", PyStr "other")]) PyNone)
    as (_ & H & _).
  - cbn. apply (bool_decide_unpack _). vm_compute. reflexivity.
  - rewrite H. reflexivity.
Defined.

Lemma receive_returns_False_or_truthy_witness :
  PyDict [("status", PyTrue); ("returnData", PyDict [("balance", PyInt 100)])]
  = PyFalse \/
  truthy (PyDict [("status", PyTrue);
                  ("returnData", PyDict [("balance", PyInt 100)])]) = true.
Proof.
  apply (receive_returns_False_or_truthy scenario_env 0 true true
           (reply_machine 0 "balance")
           (snd (_receive scenario_env 0 true true (reply_machine 0 "balance")))).
  vm_compute. reflexivity.
Defined.

Lemma streamData_registers_witness :
  exists m' s',
    streamData scenario_env 1 "KeepAlive" [] ping_machine = (Val true, m') /\
    heap m' !! 1
    = Some (set_streams s'
              (set_ssid (PyStr "token")
                 (general_handler StreamHandler
                    (Client.step Client.Sleep
                       (Client.step (Client.SentBytes 7)
                          (connected_client (os_reply 99 "") true)))))) /\
    task_get 0 (tasks s') = Some keepalive_task.
Proof.
  edestruct (streamData_registers scenario_env 1 "KeepAlive" [] ping_machine)
    as (m' & s' & E & Hh & Hg & _);
    [reflexivity | reflexivity | reflexivity | vm_compute; reflexivity
    | vm_compute; reflexivity |].
  exists m', s'. split; [exact E |]. split; [exact Hh | exact Hg].
Defined.

Lemma attach_twice_detach_once_witness :
  exists m1,
    _attach_stream_handler 0 1 ping_machine = (Val tt, m1) /\
    _detach_stream_handler 0 1 m1 = (Val tt, ping_machine).
Proof.
  destruct (attach_twice_detach_once 0 1 ping_machine _ eq_refl eq_refl)
    as (m1 & E1 & _ & _ & E3 & _).
  exists m1. split; [exact E1 | exact E3].
Defined.

Lemma start_ping_restarts_witness :
  exists m1,
    _start_ping 0 (PyStr "") ping_machine = (Val true, m1) /\
    log m1 = [Join 0 (ping_thread_of PyNone); Spawn 0 (ping_thread_of PyNone)].
Proof.
  destruct (start_ping_restarts 0 (PyStr "") ping_machine _ eq_refl)
    as (m1 & m2 & E1 & _ & L1 & _).
  - discriminate.
  - exists m1. split; [exact E1 | exact L1].
Defined.



Lemma ping_waits_for_the_interval_witness :
  _send_ping_loop scenario_env (1 + 3) 0 PyNone 0 0%Z (reply_machine 99 "")
  = _send_ping_loop scenario_env 3 0 PyNone (0 + 1)
      (0 + waited scenario_env 0 1)%Z (reply_machine 99 "").
Proof.
  apply (ping_waits_for_the_interval scenario_env 1 3 0 PyNone _
           (reply_machine 99 "") eq_refl eq_refl).
  intros j Hj. replace j with 0 by lia. reflexivity.
Defined.

End ProtocolFacts.

(** * Logging in and reconnecting *)

Module SessionFacts.
Import Handler Session Scenario HandlerFacts.

Lemma bind_cong {S A B : Type} (c c' : M S A) (k k' : A -> M S B) (s : S) :
  c s = c' s -> (forall a s', k a s' = k' a s') ->
  bind c k s = bind c' k' s.
Proof.
  intros Hc Hk. unfold bind. rewrite Hc.
  destruct (c' s) as [[a | e |] s']; auto.
Qed.

(** ** The callback plays no part in one attempt *)

Section Same.

Variables env env' : environment.
Hypothesis Hsame : same_wire env env'.

Lemma send_request_same self cmd stream args tag (m : machine) :
  _send_request env self cmd stream args tag m
  = _send_request env' self cmd stream args tag m.
Proof.
  destruct Hsame as (Hf & Hd & _). unfold _send_request.
  rewrite Hf, Hd. reflexivity.
Qed.

Lemma receive_response_same self (m : machine) :
  _receive_response env self m = _receive_response env' self m.
Proof.
  destruct Hsame as (Hf & _ & Hr). unfold _receive_response.
  rewrite Hf, Hr. reflexivity.
Qed.

Lemma request_no_retry_same self cmd stream args tag (m : machine) :
  _request env self false cmd stream args tag m
  = _request env' self false cmd stream args tag m.
Proof.
  unfold _request. destruct Hsame as (-> & _ & _).
  destruct (fuel env'); [reflexivity |].
  rewrite !request_loop_no_retry. apply send_request_same.
Qed.

Lemma receive_no_retry_same self data (m : machine) :
  _receive env self false data m = _receive env' self false data m.
Proof.
  unfold _receive. destruct Hsame as (-> & _ & _).
  apply bind_cong; [| auto].
  destruct (fuel env'); [reflexivity |].
  rewrite !receive_loop_no_retry.
  apply bind_cong; [apply receive_response_same | auto].
Qed.

Lemma login_same k _max_fails userId password self (m : machine) :
  _login env k _max_fails userId password self m
  = _login env' k _max_fails userId password self m.
Proof.
  unfold _login. destruct Hsame as (Hf & _ & _). rewrite Hf.
  apply bind_cong; [reflexivity |]. intros opened m1.
  destruct (negb opened); [reflexivity |].
  apply bind_cong; [apply request_no_retry_same |]. intros sent m2.
  destruct (negb sent); [reflexivity |].
  apply bind_cong; [apply receive_no_retry_same | auto].
Qed.

Lemma reconnect_same k _max_fails userId password self (m : machine) :
  DataHandler_reconnect env k _max_fails userId password self m
  = DataHandler_reconnect env' k _max_fails userId password self m.
Proof.
  unfold DataHandler_reconnect. destruct Hsame as (Hf & _ & _). rewrite Hf.
  apply bind_cong; [reflexivity |]. intros [] m1.
  apply bind_cong; [reflexivity |]. intros healthy m2.
  destruct (negb healthy); [| reflexivity].
  apply bind_cong; [reflexivity |]. intros created m3.
  destruct (negb created); [reflexivity |].
  apply bind_cong; [apply login_same | auto].
Qed.

Lemma reconnect_under_ping_lock_same k self (m : machine) :
  reconnect_under_ping_lock env k self m
  = reconnect_under_ping_lock env' k self m.
Proof.
  unfold reconnect_under_ping_lock. destruct Hsame as (Hf & _ & _).
  rewrite Hf. reflexivity.
Qed.

End Same.

(** ** Computations that leave the callback alone *)

Lemma no_reconnect_bind {A B : Type} (c : M machine A) (k : A -> M machine B) :
  no_reconnect c -> (forall a, no_reconnect (k a)) -> no_reconnect (bind c k).
Proof.
  intros Hc Hk m. unfold bind. specialize (Hc m).
  destruct (c m) as [[a | e |] m1]; cbn [snd] in *; try exact Hc.
  rewrite (Hk a m1). exact Hc.
Qed.

Lemma no_reconnect_ret {A : Type} (a : A) : no_reconnect (ret a).
Proof. intros m. reflexivity. Qed.

Lemma no_reconnect_raise {A : Type} (e : exn) : no_reconnect (@raise _ A e).
Proof. intros m. reflexivity. Qed.

Lemma no_reconnect_lift {A : Type} (r : res A) : no_reconnect (lift_res r).
Proof. intros m. reflexivity. Qed.

Lemma no_reconnect_attr {A : Type} self (f : handler -> A) :
  no_reconnect (attr self f).
Proof. intros m. unfold attr. destruct (heap m !! self); reflexivity. Qed.

Lemma no_reconnect_setattr self (f : handler -> handler) :
  no_reconnect (setattr self f).
Proof. intros m. unfold setattr. destruct (heap m !! self); reflexivity. Qed.

Lemma no_reconnect_on_net {A : Type} self (c : M Client.state A) :
  no_reconnect (on_net self c).
Proof. intros m. rewrite on_net_log. reflexivity. Qed.

Lemma no_reconnect_emit (e : event) :
  is_reconnect e = false -> no_reconnect (emit e).
Proof.
  intros He m. unfold emit. cbn [snd log]. rewrite reconnects_app.
  unfold reconnects at 2. cbn. rewrite He. cbn. lia.
Qed.

Create HintDb quiet.

#[local] Hint Resolve no_reconnect_ret no_reconnect_raise no_reconnect_lift
  no_reconnect_attr no_reconnect_setattr no_reconnect_on_net : quiet.

Lemma no_reconnect_stop_ping self inThread :
  no_reconnect (_stop_ping self inThread).
Proof.
  unfold _stop_ping.
  apply no_reconnect_bind; [auto with quiet |]. intros p.
  destruct (ping p); [| auto with quiet].
  apply no_reconnect_bind; [auto with quiet |]. intros _.
  apply no_reconnect_bind; [| auto with quiet].
  destruct (negb inThread); [| auto with quiet].
  destruct (ping_thread p); [| auto with quiet].
  apply no_reconnect_emit. reflexivity.
Qed.

Lemma no_reconnect_start_ping self ssid :
  no_reconnect (_start_ping self ssid).
Proof.
  unfold _start_ping.
  apply no_reconnect_bind; [auto with quiet |]. intros p.
  apply no_reconnect_bind.
  { destruct (ping p) as [[] |]; auto with quiet.
    apply no_reconnect_bind; [apply no_reconnect_stop_ping | auto with quiet]. }
  intros _.
  apply no_reconnect_bind; [auto with quiet |]. intros _.
  apply no_reconnect_bind; [| auto with quiet].
  apply no_reconnect_emit. reflexivity.
Qed.

Section Facts.

Variable env : environment.
Variable k : Connect.link.
Variable _max_fails : nat.
Variable userId password : pyval.

Lemma no_reconnect_request self cmd stream args tag :
  no_reconnect (_request env self false cmd stream args tag).
Proof.
  intros m. unfold _request.
  destruct (fuel env); [reflexivity | apply request_reconnects_no_retry].
Qed.

Lemma no_reconnect_receive self data :
  no_reconnect (_receive env self false data).
Proof.
  intros m. rewrite receive_reconnects.
  destruct (fuel env); [reflexivity | apply receive_loop_reconnects_no_retry].
Qed.

Lemma no_reconnect_login self :
  no_reconnect (_login env k _max_fails userId password self).
Proof.
  unfold _login.
  apply no_reconnect_bind; [auto with quiet |]. intros opened.
  destruct (negb opened); [auto with quiet |].
  apply no_reconnect_bind; [apply no_reconnect_request |]. intros sent.
  destruct (negb sent); [auto with quiet |].
  apply no_reconnect_bind; [apply no_reconnect_receive |]. intros response.
  destruct (negb (truthy response)); [auto with quiet |].
  apply no_reconnect_bind; [auto with quiet |]. intros ssid.
  apply no_reconnect_bind; [auto with quiet |]. intros _.
  apply no_reconnect_bind; auto with quiet.
Qed.

Lemma no_reconnect_DataHandler_reconnect self :
  no_reconnect (DataHandler_reconnect env k _max_fails userId password self).
Proof.
  unfold DataHandler_reconnect.
  apply no_reconnect_bind; [auto with quiet |]. intros _.
  apply no_reconnect_bind; [auto with quiet |]. intros healthy.
  destruct (negb healthy); [| auto with quiet].
  apply no_reconnect_bind; [auto with quiet |]. intros created.
  destruct (negb created); [auto with quiet |].
  apply no_reconnect_bind; [apply no_reconnect_login |]. intros logged.
  destruct (negb logged); [auto with quiet |].
  apply no_reconnect_bind; [auto with quiet |]. intros _.
  apply no_reconnect_bind; [apply no_reconnect_start_ping | auto with quiet].
Qed.

(** X18.  The callback of a data handler is the handler's own
    [_reconnect], run in the handler's own environment; and neither
    [_reconnect] nor the [_login] inside it ever invokes the callback:
    their requests are sent with [retry=False], so that reconnecting
    cannot start another reconnection. *)
Theorem callback_is_own_reconnect :
  let own := data_environment env k _max_fails userId password in
  (forall self hp,
     call_reconnect own self hp
     = reconnect_method own k _max_fails userId password self hp) /\
  (forall self,
     no_reconnect (DataHandler_reconnect own k _max_fails userId password self)) /\
  (forall self,
     no_reconnect (_login own k _max_fails userId password self)).
Proof.
  intros own. split; [| split].
  - intros self hp. cbn [own data_environment call_reconnect].
    unfold reconnect_method.
    rewrite (reconnect_under_ping_lock_same env own); [reflexivity |].
    repeat split.
  - intros self m.
    rewrite <- (reconnect_same env own) by (repeat split).
    apply no_reconnect_DataHandler_reconnect.
  - intros self m.
    rewrite <- (login_same env own) by (repeat split).
    apply no_reconnect_login.
Qed.

(** ** One attempt on the wire *)

Lemma send_request_run self cmd stream args tag (m : machine) (h : handler)
  sent n :
  heap m !! self = Some h ->
  Client.send (fuel env) (dumps env (request_of cmd stream args tag)) (net h)
  = (Val sent, n) ->
  _send_request env self cmd stream args tag m
  = (Val sent,
     {| heap := <[self := set_net n h]> (heap m);
        log := log m ++ [Request self (request_of cmd stream args tag) sent] |}).
Proof.
  intros Hh Hs.
  change (_send_request env self cmd stream args tag)
    with (sent <- on_net self
                    (Client.send (fuel env)
                       (dumps env (request_of cmd stream args tag))) ;;
          emit (Request self (request_of cmd stream args tag) sent) ;;
          ret sent).
  rewrite (bind_val _ _ _ _ _ (on_net_run _ _ _ _ _ _ Hh Hs)). reflexivity.
Qed.

(** A response with a true [status] passes [_receive] at the first
    attempt. *)
Lemma receive_good self retry (m : machine) (h : handler) wire n d st :
  1 <= fuel env ->
  heap m !! self = Some h ->
  Client.receive (fuel env) (net h) = (Val (PyStr wire), n) ->
  truthy (PyStr wire) = true ->
  raw_decode env wire = Some (PyDict d) ->
  dict_get "status" d = Some st -> truthy st = true ->
  _receive env self retry true m
  = (Val (PyDict d), set_heap (<[self := set_net n h]> (heap m)) m).
Proof.
  intros Hfuel Hh Hrecv Hw Hdec Hst Htr.
  assert (Hresp : _receive_response env self m
                  = (Val (PyDict d),
                     set_heap (<[self := set_net n h]> (heap m)) m)).
  { unfold _receive_response.
    rewrite (bind_val _ _ _ _ _ (on_net_run _ _ _ _ _ _ Hh Hrecv)).
    rewrite Hw. cbn [negb]. rewrite Hdec. reflexivity. }
  unfold _receive. destruct (fuel env) as [| f]; [lia |].
  assert (Hloop : _receive_loop env (S f) self retry m
                  = (Val (Some (PyDict d)),
                     set_heap (<[self := set_net n h]> (heap m)) m)).
  { cbn [_receive_loop]. rewrite (bind_val _ _ _ _ _ Hresp).
    rewrite (dict_get_truthy _ _ _ Hst). reflexivity. }
  rewrite (bind_val _ _ _ _ _ Hloop).
  unfold bind, ret, lift_res, py_in, py_getitem.
  rewrite (dict_get_has _ _ _ Hst), Hst, Htr. reflexivity.
Qed.

(** X19.  [_login] on a socket that opens, takes the request and
    delivers a response with a true [status]: when the response carries
    a [streamSessionId], that value becomes the token, the status
    becomes ['active'] and the result is [True]; when it carries none,
    [_login] raises [KeyError] and leaves token and status as they
    were. *)
Theorem login_stores_the_token self (m : machine) (h : handler)
  n0 n1 n2 wire d st :
  1 <= fuel env ->
  heap m !! self = Some h ->
  Connect.open k (fuel env) _max_fails (net h) = (Val true, n0) ->
  Client.send (fuel env)
    (dumps env
       (request_of "login" PyNone
          (Some [("arguments",
                  PyDict [("userId", userId); ("password", password)])])
          PyNone)) n0
  = (Val true, n1) ->
  Client.receive (fuel env) n1 = (Val (PyStr wire), n2) ->
  truthy (PyStr wire) = true ->
  raw_decode env wire = Some (PyDict d) ->
  dict_get "status" d = Some st -> truthy st = true ->
  exists m',
    _login env k _max_fails userId password self m
    = (match dict_get "streamSessionId" d with
       | Some _ => Val true
       | None => Raised (KeyError (PyStr "streamSessionId"))
       end, m') /\
    heap m' !! self
    = Some match dict_get "streamSessionId" d with
           | Some token =>
               set_status (PyStr "active") (set_ssid token (set_net n2 h))
           | None => set_net n2 h
           end.
Proof.
  intros Hfuel Hh Hopen Hsend Hrecv Hw Hdec Hst Htr.
  destruct (on_net_at _ _ _ _ _ _ Hh Hopen) as (ma & Ea & Ha & _).
  pose proof (send_request_run self "login" PyNone _ PyNone ma _ _ _ Ha Hsend)
    as Eb.
  match type of Eb with _ = (_, ?x) => set (mb := x) in Eb end.
  assert (Hb : heap mb !! self = Some (set_net n1 h)).
  { subst mb. cbn [heap]. rewrite (lookup_insert_self _ _ _ _ Ha).
    reflexivity. }
  assert (Hreq : _request env self false "login" PyNone
                   (Some [("arguments",
                           PyDict [("userId", userId); ("password", password)])])
                   PyNone ma = (Val true, mb)).
  { unfold _request. destruct (fuel env) as [| f]; [lia |].
    rewrite request_loop_no_retry. exact Eb. }
  pose proof (receive_good self false mb _ wire n2 d st Hfuel Hb Hrecv Hw Hdec
                Hst Htr) as Ec.
  match type of Ec with _ = (_, ?x) => set (mc := x) in Ec end.
  assert (Hc : heap mc !! self = Some (set_net n2 h)).
  { subst mc. cbn [heap set_heap]. rewrite (lookup_insert_self _ _ _ _ Hb).
    reflexivity. }
  unfold _login.
  rewrite (bind_val _ _ _ _ _ Ea). cbn [negb].
  rewrite (bind_val _ _ _ _ _ Hreq). cbn [negb].
  rewrite (bind_val _ _ _ _ _ Ec).
  rewrite (dict_get_truthy _ _ _ Hst). cbn [negb].
  unfold lift_res, py_getitem.
  destruct (dict_get "streamSessionId" d) as [token |].
  - destruct (setattr_at self (set_ssid token) mc _ Hc) as (md & Ed & Hd & _).
    destruct (setattr_at self (set_status (PyStr "active")) md _ Hd)
      as (me & Ee & He & _).
    unfold bind at 1. rewrite (bind_val _ _ _ _ _ Ed), (bind_val _ _ _ _ _ Ee).
    exists me. split; [reflexivity | exact He].
  - exists mc. split; [reflexivity | exact Hc].
Qed.

(** ** Reconnecting a healthy socket *)

Lemma reconnect_healthy_run self (m : machine) (h : handler) :
  heap m !! self = Some h ->
  Connect.check k "basic" (net h) = true ->
  DataHandler_reconnect env k _max_fails userId password self m
  = (Val true,
     set_heap (<[self := set_status (PyStr "inactive") h]> (heap m)) m).
Proof.
  intros Hh Hc. unfold DataHandler_reconnect.
  rewrite (bind_val _ _ _ _ _ (setattr_run _ _ _ _ Hh)).
  assert (Hh1 : heap (set_heap (<[self := set_status (PyStr "inactive") h]>
                                  (heap m)) m) !! self
                = Some (set_status (PyStr "inactive") h))
    by (cbn [heap set_heap]; apply (lookup_insert_self _ _ _ _ Hh)).
  rewrite (bind_val _ _ _ _ _ (attr_run _ _ _ _ Hh1)).
  cbn [net set_status]. rewrite Hc. reflexivity.
Qed.

(** The same as the callback: on this path no lock is asked for. *)
Lemma callback_healthy_run self (m : machine) (h : handler) :
  heap m !! self = Some h ->
  Connect.check k "basic" (net h) = true ->
  reconnect_under_ping_lock env k self m
  = (Val true,
     set_heap (<[self := set_status (PyStr "inactive") h]> (heap m)) m).
Proof.
  intros Hh Hc. unfold reconnect_under_ping_lock.
  rewrite (bind_val _ _ _ _ _ (setattr_run _ _ _ _ Hh)).
  assert (Hh1 : heap (set_heap (<[self := set_status (PyStr "inactive") h]>
                                  (heap m)) m) !! self
                = Some (set_status (PyStr "inactive") h))
    by (cbn [heap set_heap]; apply (lookup_insert_self _ _ _ _ Hh)).
  rewrite (bind_val _ _ _ _ _ (attr_run _ _ _ _ Hh1)).
  cbn [net set_status]. rewrite Hc. reflexivity.
Qed.

(** X20.  [_reconnect] of a data handler whose socket [select] does not
    report as failed returns [True] having done one thing: the status is
    now ['inactive'].  Nothing is sent, the keepalive is not touched and
    nothing sets the status back; a manager in which this handler is the
    only data handler no longer offers it, and answers the next
    [provide_DataHandler] as [_generate_DataHandler] does. *)
Theorem reconnect_of_healthy_socket_deactivates self (m : machine)
  (h : handler) :
  heap m !! self = Some h ->
  Connect.check k "basic" (net h) = true ->
  let m' := set_heap (<[self := set_status (PyStr "inactive") h]> (heap m)) m in
  DataHandler_reconnect env k _max_fails userId password self m
  = (Val true, m') /\
  forall (g : Manager.manager) (new_DataHandler : M machine nat) name,
    Manager._handlers_data g = [(self, name)] ->
    Manager.provide_DataHandler new_DataHandler
      {| Manager.mach := m'; Manager.mgr := g |}
    = Manager._generate_DataHandler new_DataHandler
        {| Manager.mach := m'; Manager.mgr := g |}.
Proof.
  intros Hh Hc m'. split; [exact (reconnect_healthy_run self m h Hh Hc) |].
  intros g new_DataHandler name Hreg.
  assert (Hh1 : heap m' !! self = Some (set_status (PyStr "inactive") h))
    by (subst m'; cbn [heap set_heap]; apply (lookup_insert_self _ _ _ _ Hh)).
  unfold Manager.provide_DataHandler, Manager._avlb_DataHandler.
  unfold bind at 1. unfold bind at 1. unfold gets at 1.
  cbn [Manager.mgr]. rewrite Hreg. cbn [Manager.first_handler].
  unfold bind at 1. unfold bind at 1.
  unfold Manager.get_status, Manager.on_machine. cbn [Manager.mach].
  rewrite (attr_run _ _ _ _ Hh1). reflexivity.
Qed.

End Facts.

(** ** A send that fails on a healthy socket *)

Section Healthy.

Variable env : environment.
Variable k : Connect.link.
Variable _max_fails : nat.
Variable userId password : pyval.

Hypothesis Hk : forall i, Connect.select_errored k i = false.

Lemma check_open (c : Client.state) :
  socket_open c -> Connect.check k "basic" c = true.
Proof.
  intros (s & Hs & Ho). unfold Connect.check. rewrite Hs. cbn.
  rewrite Ho, Hk. reflexivity.
Qed.

Lemma on_net_kept_open {A : Type} self (h : handler) (c : M Client.state A)
  (m : machine) :
  (forall n r n', c n = (r, n') -> Client._socket n' = Client._socket n) ->
  kept_open self h m -> kept_open self h (snd (on_net self c m)).
Proof.
  intros Hc (n & Hh & s & Hs & Ho). unfold on_net. rewrite Hh.
  cbn [net set_net].
  destruct (c n) as [r n'] eqn:E. cbn [snd].
  exists n'. split.
  - cbn [heap set_heap]. rewrite (lookup_insert_self _ _ _ _ Hh). reflexivity.
  - exists s. rewrite (Hc _ _ _ E). auto.
Qed.

Lemma send_keeps_socket fuel msg (n : Client.state) (r : res bool)
  (n' : Client.state) :
  Client.send fuel msg n = (r, n') -> Client._socket n' = Client._socket n.
Proof. intros H. apply (ClientFacts.send_loop_keeps _ _ _ _ _ _ H). Qed.

Lemma receive_keeps_socket fuel (n : Client.state) (r : res pyval)
  (n' : Client.state) :
  Client.receive fuel n = (r, n') -> Client._socket n' = Client._socket n.
Proof. intros H. apply (ClientFacts.receive_loop_keeps _ _ _ _ _ H). Qed.

Lemma kept_open_heap self (h : handler) (m m' : machine) :
  heap m' = heap m -> kept_open self h m -> kept_open self h m'.
Proof. intros E (n & Hh & Ho). exists n. rewrite E. auto. Qed.

Section Own.

Variable own : environment.
Hypothesis Hown :
  forall self hp,
    call_reconnect own self hp
    = reconnect_method env k _max_fails userId password self hp.

Lemma send_request_kept_open self h cmd stream args tag (m : machine) :
  kept_open self h m ->
  kept_open self h (snd (_send_request own self cmd stream args tag m)).
Proof.
  intros H. unfold _send_request, bind.
  match goal with |- context [on_net self ?c m] =>
    pose proof (on_net_kept_open self h c m (send_keeps_socket _ _) H) as Hk';
    destruct (on_net self c m) as [[b | e |] m1]
  end; exact Hk'.
Qed.

Lemma receive_response_kept_open self h (m : machine) :
  kept_open self h m ->
  kept_open self h (snd (_receive_response own self m)).
Proof.
  intros H. unfold _receive_response, bind.
  match goal with |- context [on_net self ?c m] =>
    pose proof (on_net_kept_open self h c m (receive_keeps_socket _) H) as Hk';
    destruct (on_net self c m) as [[v | e |] m1]
  end; try exact Hk'.
  destruct (truthy v); cbn [negb]; [| exact Hk'].
  destruct v; try exact Hk'.
  destruct (raw_decode own s); exact Hk'.
Qed.

(** On an open socket the callback marks the handler as inactive and
    does nothing else. *)
Lemma callback_kept_open self h (m : machine) :
  kept_open self h m ->
  exists v m',
    reconnect own self m = (Val v, m') /\
    kept_open self (set_status (PyStr "inactive") h) m'.
Proof.
  intros (n & Hh & Ho). unfold reconnect, bind, emit. cbn [heap].
  rewrite Hown. unfold reconnect_method.
  rewrite (callback_healthy_run env k self
             {| heap := heap m; log := [] |} (set_net n h) Hh
             (check_open _ Ho)).
  eexists. eexists. split; [reflexivity |].
  exists n. split; [| exact Ho].
  cbn [heap set_heap]. rewrite (lookup_insert_self _ _ _ _ Hh). reflexivity.
Qed.

Lemma request_loop_kept_open (n : nat) self h cmd stream args tag :
  forall retry (m : machine),
    kept_open self (set_status (PyStr "inactive") h) m ->
    kept_open self (set_status (PyStr "inactive") h)
      (snd (_request_loop own n self retry cmd stream args tag m)).
Proof.
  induction n as [| n IH]; intros retry m H; [exact H |].
  cbn [_request_loop]. unfold bind at 1.
  pose proof (send_request_kept_open self _ cmd stream args tag m H) as H1.
  destruct (_send_request own self cmd stream args tag m) as [[[] | e |] m1];
    cbn [snd negb] in *; try exact H1.
  destruct retry; [| exact H1].
  destruct (callback_kept_open self _ m1 H1) as (v & m2 & E & H2).
  unfold bind at 1. rewrite E. apply IH. exact H2.
Qed.

Lemma receive_loop_kept_open (n : nat) self h :
  forall retry (m : machine),
    kept_open self (set_status (PyStr "inactive") h) m ->
    kept_open self (set_status (PyStr "inactive") h)
      (snd (_receive_loop own n self retry m)).
Proof.
  induction n as [| n IH]; intros retry m H; [exact H |].
  cbn [_receive_loop]. unfold bind at 1.
  pose proof (receive_response_kept_open self _ m H) as H1.
  destruct (_receive_response own self m) as [[v | e |] m1];
    cbn [snd] in *; try exact H1.
  destruct (truthy v); cbn [negb]; [exact H1 |].
  destruct retry; [| exact H1].
  destruct (callback_kept_open self _ m1 H1) as (w & m2 & E & H2).
  unfold bind at 1. rewrite E. apply IH. exact H2.
Qed.

Lemma receive_heap self retry data (m : machine) :
  heap (snd (_receive own self retry data m))
  = heap (snd (_receive_loop own (fuel own) self retry m)).
Proof.
  unfold _receive, bind.
  destruct (_receive_loop own (fuel own) self retry m) as [[[r |] | e |] m1];
    try reflexivity.
  destruct data; [| reflexivity].
  unfold lift_res, emit, ret.
  destruct (py_in "status" r) as [[] | e |]; try reflexivity.
  cbn [negb].
  destruct (py_getitem r "status") as [st | e |]; try reflexivity.
  destruct (truthy st); cbn [negb]; [reflexivity |].
  destruct (py_getitem r "errorCode") as [code | e |]; try reflexivity.
  destruct (py_getitem r "errorDescr") as [descr | e |]; reflexivity.
Qed.

Lemma getData_kept_open self h cmd kwargs (m : machine) n1 :
  fuel own = fuel env -> dumps own = dumps env ->
  1 <= fuel env ->
  heap m !! self = Some h ->
  socket_open (net h) ->
  truthy (_ssid h) = true ->
  Client.send (fuel env)
    (dumps env
       (request_of ("get" ++ cmd) PyNone
          (if truthy (PyDict kwargs)
           then Some [("arguments", PyDict kwargs)] else None) PyNone))
    (net h)
  = (Val false, n1) ->
  kept_open self (set_status (PyStr "inactive") h)
    (snd (getData own self cmd kwargs m)).
Proof.
  intros Hf Hd Hfuel Hh Ho Htok Hsend.
  rewrite <- Hf, <- Hd in Hsend.
  pose proof (send_request_run own self ("get" ++ cmd) PyNone _ PyNone m h
                false n1 Hh Hsend) as E1.
  match type of E1 with _ = (_, ?x) => set (m1 := x) in E1 end.
  assert (H1 : kept_open self h m1).
  { exists n1. split.
    - subst m1. cbn [heap]. apply (lookup_insert_self _ _ _ _ Hh).
    - destruct Ho as (s & Hs & Hop). exists s.
      rewrite (send_keeps_socket _ _ _ _ _ Hsend). auto. }
  destruct (callback_kept_open self h m1 H1) as (v & m2 & E2 & H2).
  unfold getData.
  rewrite (bind_val _ _ _ _ _ (attr_run _ _ _ _ Hh)), Htok. cbn [negb].
  unfold bind at 1. unfold _request.
  destruct (fuel own) as [| f] eqn:Hfo; [lia |].
  cbn [_request_loop]. rewrite (bind_val _ _ _ _ _ E1). cbn [negb].
  rewrite (bind_val _ _ _ _ _ E2).
  pose proof (request_loop_kept_open f self h ("get" ++ cmd) PyNone
                (if truthy (PyDict kwargs)
                 then Some [("arguments", PyDict kwargs)] else None)
                PyNone false m2 H2) as H3.
  destruct (_request_loop own f self false ("get" ++ cmd) PyNone _ PyNone m2)
    as [[[] | e |] m3]; cbn [snd negb] in *; try exact H3.
  unfold bind at 1.
  pose proof (receive_heap self true true m3) as Hheap.
  pose proof (receive_loop_kept_open (fuel own) self h true m3 H3) as H4.
  apply (kept_open_heap _ _ _ _ Hheap) in H4.
  destruct (_receive own self true true m3) as [[r | e |] m4];
    cbn [snd] in *; try exact H4.
  destruct (truthy r); cbn [negb]; [| exact H4].
  unfold bind, lift_res, ret.
  destruct (py_in "returnData" r) as [[] | e |]; cbn [negb snd]; exact H4.
Qed.

End Own.

(** X21.  A data handler, run with its own [_reconnect] as the callback
    on a socket that is open and that [select] never reports as failed:
    when the first attempt to send the request of [getData] fails, then
    whatever else happens (the second attempt succeeds or not, the
    response arrives or not) the call ends with the handler marked
    ['inactive'], its token and every other attribute of its own as
    before and its socket still open. *)
Theorem getData_after_failed_send_is_inactive self h cmd kwargs
  (m : machine) n1 :
  1 <= fuel env ->
  heap m !! self = Some h ->
  socket_open (net h) ->
  truthy (_ssid h) = true ->
  Client.send (fuel env)
    (dumps env
       (request_of ("get" ++ cmd) PyNone
          (if truthy (PyDict kwargs)
           then Some [("arguments", PyDict kwargs)] else None) PyNone))
    (net h)
  = (Val false, n1) ->
  kept_open self (set_status (PyStr "inactive") h)
    (snd (getData (data_environment env k _max_fails userId password)
            self cmd kwargs m)).
Proof.
  intros Hfuel Hh Ho Htok Hsend.
  apply (getData_kept_open (data_environment env k _max_fails userId password))
    with (n1 := n1); try assumption; try reflexivity.
Qed.

End Healthy.

Lemma login_stores_the_token_witness :
  exists m',
    _login login_env link_healthy 10 (PyStr "user") (PyStr "secret") 0
      (unlogged_machine 2 "welcome") = (Val true, m') /\
    _ssid <$> heap m' !! 0 = Some (PyStr "token") /\
    _status <$> heap m' !! 0 = Some (PyStr "active").
Proof.
  edestruct (login_stores_the_token login_env link_healthy 10
               (PyStr "user") (PyStr "secret") 0 (unlogged_machine 2 "welcome"))
    as (m' & E & Hh);
    [ vm_compute; lia | reflexivity | vm_compute; reflexivity
    | vm_compute; reflexivity | vm_compute; reflexivity | reflexivity
    | reflexivity | reflexivity | reflexivity |].
  exists m'. split; [exact E |]. rewrite Hh. split; reflexivity.
Defined.

Lemma reconnect_of_healthy_socket_deactivates_witness :
  DataHandler_reconnect login_env link_healthy 10 (PyStr "user")
    (PyStr "secret") 0 (reply_machine 99 "")
  = (Val true,
     set_heap
       (<[0 := set_status (PyStr "inactive")
                 (session (connected_client (os_reply 99 "") false))]>
          (heap (reply_machine 99 ""))) (reply_machine 99 "")).
Proof.
  apply (reconnect_of_healthy_socket_deactivates login_env link_healthy 10
           (PyStr "user") (PyStr "secret") 0 (reply_machine 99 "") _
           eq_refl eq_refl).
Defined.

Lemma getData_after_failed_send_is_inactive_witness :
  kept_open 0
    (set_status (PyStr "inactive")
       (session (connected_client (os_first_send_fails 3 "balance") false)))
    (snd (getData session_env 0 "Balance" []
            (machine_of
               [session (connected_client (os_first_send_fails 3 "balance")
                           false)]))).
Proof.
  apply (getData_after_failed_send_is_inactive login_env link_healthy 10
           (PyStr "user") (PyStr "secret") (fun _ => eq_refl) 0 _ "Balance" []
           (machine_of
              [session (connected_client (os_first_send_fails 3 "balance")
                          false)])
           (Client.step (Client.SentBytes 0)
              (connected_client (os_first_send_fails 3 "balance") false))).
  - vm_compute. lia.
  - reflexivity.
  - eexists. split; reflexivity.
  - reflexivity.
  - vm_compute. reflexivity.
Defined.

(** On that system the second attempt goes through and the balance is
    delivered. *)
Lemma getData_after_failed_send_delivers :
  fst (getData session_env 0 "Balance" []
         (machine_of
            [session (connected_client (os_first_send_fails 3 "balance")
                        false)]))
  = Val (PyDict [("balance", PyInt 100)]).
Proof. vm_compute. reflexivity. Qed.

(** ** Changing the data handler of a stream handler *)

(** X30.  The setter of [dataHandler] never changes the data handler:
    the dictionary [_streams] always holds the key ['tasks'], so that
    for every stream handler and every data handler offered the setter
    returns [False] and leaves every object as it was. *)
Theorem set_datahandler_changes_nothing self dataHandler (m : machine)
  (h d : handler) :
  heap m !! self = Some h ->
  heap m !! dataHandler = Some d ->
  cls d = DataHandler ->
  set_datahandler self dataHandler m = (Val PyFalse, m).
Proof.
  intros Hh Hd Hc. unfold set_datahandler.
  rewrite (bind_val _ _ _ _ _ (attr_run _ _ _ _ Hd)), Hc.
  rewrite (bind_val _ _ _ _ _ (attr_run _ _ _ _ Hh)).
  unfold streams_keys. reflexivity.
Qed.

Lemma set_datahandler_changes_nothing_witness :
  set_datahandler 1 0 (stream_machine "balance")
  = (Val PyFalse, stream_machine "balance").
Proof.
  apply (set_datahandler_changes_nothing 1 0 (stream_machine "balance") _ _
           eq_refl eq_refl eq_refl).
Defined.

End SessionFacts.

(** * More on the pool, and the facade *)

Module PoolFacts.
Import Manager Wrapper Scenario HandlerFacts.

Lemma world_same (w : world) : {| mach := mach w; mgr := mgr w |} = w.
Proof. destruct w. reflexivity. Qed.

(** ** Looking for a handler *)

(** A loop whose test only reads returns the first handler that passes,
    and changes nothing. *)
Lemma first_handler_find (d : list (nat * string)) (test : nat -> M world bool)
  (f : nat -> bool) (w : world) :
  (forall e, e ∈ d -> test (fst e) w = (Val (f (fst e)), w)) ->
  first_handler d test w
  = (Val (fst <$> List.find (fun e => f (fst e)) d), w).
Proof.
  induction d as [| [h name] d IH]; intros H; [reflexivity |].
  cbn [first_handler List.find fst].
  rewrite (bind_val _ _ _ _ _ (H (h, name) (list_elem_of_here _ _))).
  cbn [fst]. destruct (f h); [reflexivity |].
  apply IH. intros e He. apply H. apply list_elem_of_further, He.
Qed.

Lemma avlb_data_find (w : world) :
  registered (_handlers_data (mgr w)) (mach w) ->
  _avlb_DataHandler w
  = (Val (fst <$> List.find (fun e => is_active (mach w) (fst e))
                    (_handlers_data (mgr w))), w).
Proof.
  intros Hreg. unfold _avlb_DataHandler. unfold bind at 1. unfold gets at 1.
  apply (first_handler_find _ _ (is_active (mach w))). intros e He.
  destruct (Hreg e He) as [h Hh].
  unfold get_status, on_machine, bind, is_active.
  rewrite (attr_run _ _ _ _ Hh), Hh, world_same. reflexivity.
Qed.

Lemma avlb_stream_find (w : world) :
  registered (_handlers_stream (mgr w)) (mach w) ->
  _avlb_StreamHandler w
  = (Val (fst <$> List.find
                    (fun e => is_active (mach w) (fst e)
                              && has_room (mach w) (_max_streams (mgr w)) (fst e))
                    (_handlers_stream (mgr w))), w).
Proof.
  intros Hreg. unfold _avlb_StreamHandler. unfold bind at 1. unfold gets at 1.
  apply (first_handler_find _ _
           (fun h => is_active (mach w) h
                     && has_room (mach w) (_max_streams (mgr w)) h)).
  intros e He.
  destruct (Hreg e He) as [h Hh].
  unfold get_status, on_machine, is_active, has_room. unfold bind at 1.
  rewrite (attr_run _ _ _ _ Hh), Hh, world_same.
  destruct (py_eq (Handler._status h) (PyStr "active")); [| reflexivity].
  unfold bind. rewrite (attr_run _ _ _ _ Hh), world_same. reflexivity.
Qed.

(** When no registered data handler is active and the pool is at
    capacity, none can be provided. *)
Lemma provide_data_at_capacity (new_DataHandler : M Handler.machine nat)
  (w : world) :
  registered (_handlers_data (mgr w)) (mach w) ->
  List.find (fun e => is_active (mach w) (fst e)) (_handlers_data (mgr w))
  = None ->
  (_max_connections (mgr w) <= _connections (mgr w))%Z ->
  provide_DataHandler new_DataHandler w = (Val None, w).
Proof.
  intros Hreg Hnone Hcap. unfold provide_DataHandler.
  rewrite (bind_val _ _ _ _ _ (avlb_data_find w Hreg)), Hnone.
  cbn [fmap option_fmap option_map].
  unfold _generate_DataHandler, bind, gets.
  replace (_max_connections (mgr w) <=? _connections (mgr w))%Z with true
    by (symmetry; apply Z.leb_le; exact Hcap).
  reflexivity.
Qed.

(** X22.  The pool offers the first registered handler, in the order of
    registration, whose status is ['active'] and, for a stream handler,
    whose number of subscriptions is below the maximum; looking changes
    nothing, and a data handler found is handed out as it is, without a
    new connection and whatever the connection count. *)
Theorem pool_offers_first_fit (new_DataHandler : M Handler.machine nat)
  (w : world) :
  registered (_handlers_data (mgr w)) (mach w) ->
  registered (_handlers_stream (mgr w)) (mach w) ->
  _avlb_DataHandler w
  = (Val (fst <$> List.find (fun e => is_active (mach w) (fst e))
                    (_handlers_data (mgr w))), w) /\
  _avlb_StreamHandler w
  = (Val (fst <$> List.find
                    (fun e => is_active (mach w) (fst e)
                              && has_room (mach w) (_max_streams (mgr w)) (fst e))
                    (_handlers_stream (mgr w))), w) /\
  forall e,
    List.find (fun e => is_active (mach w) (fst e)) (_handlers_data (mgr w))
    = Some e ->
    provide_DataHandler new_DataHandler w = (Val (Some (fst e)), w).
Proof.
  intros Hd Hs. split; [exact (avlb_data_find w Hd) |].
  split; [exact (avlb_stream_find w Hs) |].
  intros e He. unfold provide_DataHandler.
  rewrite (bind_val _ _ _ _ _ (avlb_data_find w Hd)), He. reflexivity.
Qed.

(** ** The connection count *)

Lemma first_handler_mgr (d : list (nat * string)) (test : nat -> M world bool) :
  (forall h w, mgr (snd (test h w)) = mgr w) ->
  forall w, mgr (snd (first_handler d test w)) = mgr w.
Proof.
  intros Ht. induction d as [| [h name] d IH]; intros w; [reflexivity |].
  cbn [first_handler]. unfold bind. specialize (Ht h w).
  destruct (test h w) as [[[] | e |] w1]; cbn [snd] in *; try exact Ht.
  rewrite IH. exact Ht.
Qed.

Lemma on_machine_mgr {A : Type} (c : M Handler.machine A) (w : world) :
  mgr (snd (on_machine c w)) = mgr w.
Proof. unfold on_machine. destruct (c (mach w)). reflexivity. Qed.

Lemma avlb_data_mgr (w : world) : mgr (snd (_avlb_DataHandler w)) = mgr w.
Proof.
  unfold _avlb_DataHandler. unfold bind at 1. unfold gets at 1.
  apply first_handler_mgr. intros h w0. unfold get_status, bind.
  pose proof (on_machine_mgr (Handler.attr h Handler._status) w0) as H.
  destruct (on_machine (Handler.attr h Handler._status) w0) as [[v | e |] w1];
    exact H.
Qed.

Lemma avlb_stream_mgr (w : world) : mgr (snd (_avlb_StreamHandler w)) = mgr w.
Proof.
  unfold _avlb_StreamHandler. unfold bind at 1. unfold gets at 1.
  apply first_handler_mgr. intros h w0. unfold get_status. unfold bind at 1.
  pose proof (on_machine_mgr (Handler.attr h Handler._status) w0) as H.
  destruct (on_machine (Handler.attr h Handler._status) w0) as [[v | e |] w1];
    cbn [snd] in *; try exact H.
  destruct (py_eq v (PyStr "active")); [| exact H].
  unfold bind.
  pose proof (on_machine_mgr (Handler.attr h Handler._streams) w1) as H'.
  destruct (on_machine (Handler.attr h Handler._streams) w1) as [[s | e |] w2];
    unfold ret; cbn [snd] in *; rewrite H'; exact H.
Qed.

Section Bounds.

Variable new_DataHandler : M Handler.machine nat.
Variable new_StreamHandler : nat -> M Handler.machine nat.

Lemma generate_data_bound (w : world) :
  let g := mgr (snd (_generate_DataHandler new_DataHandler w)) in
  _max_connections g = _max_connections (mgr w) /\
  (_connections (mgr w) <= _connections g)%Z /\
  (_connections g
   <= Z.max (_connections (mgr w)) (_max_connections (mgr w)))%Z.
Proof.
  unfold _generate_DataHandler, bind, gets.
  destruct (Z.leb_spec (_max_connections (mgr w)) (_connections (mgr w)))
    as [Hle | Hlt]; cbn [ret snd]; [lia |].
  pose proof (on_machine_mgr new_DataHandler w) as H.
  destruct (on_machine new_DataHandler w) as [[dh | e |] w1];
    cbn [snd] in *; try (rewrite H; lia).
  unfold update_mgr, modify, ret. cbn. rewrite H. lia.
Qed.

Lemma provide_data_bound (w : world) :
  let g := mgr (snd (provide_DataHandler new_DataHandler w)) in
  _max_connections g = _max_connections (mgr w) /\
  (_connections (mgr w) <= _connections g)%Z /\
  (_connections g
   <= Z.max (_connections (mgr w)) (_max_connections (mgr w)))%Z.
Proof.
  unfold provide_DataHandler, bind.
  pose proof (avlb_data_mgr w) as H.
  destruct (_avlb_DataHandler w) as [[[h |] | e |] w1]; cbn [snd ret] in *;
    try (rewrite H; lia).
  pose proof (generate_data_bound w1) as Hg. cbn zeta in Hg.
  rewrite H in Hg. exact Hg.
Qed.

(** X23.  Starting within the maximum, the data path keeps the
    connection count within the maximum, whatever the constructor does;
    the stream path keeps it within the maximum plus one; neither path
    lowers it or touches the maximum. *)
Theorem allocation_bounds (w : world) :
  (_connections (mgr w) <= _max_connections (mgr w))%Z ->
  let data := mgr (snd (provide_DataHandler new_DataHandler w)) in
  let stream :=
    mgr (snd (provide_StreamHandler new_DataHandler new_StreamHandler w)) in
  (_connections (mgr w) <= _connections data <= _max_connections data)%Z /\
  _max_connections data = _max_connections (mgr w) /\
  (_connections (mgr w) <= _connections stream
   <= _max_connections stream + 1)%Z /\
  _max_connections stream = _max_connections (mgr w).
Proof.
  intros Hin data stream.
  pose proof (provide_data_bound w) as Hd. cbn zeta in Hd. fold data in Hd.
  split; [lia |]. split; [tauto |].
  subst stream. unfold provide_StreamHandler, bind.
  pose proof (avlb_stream_mgr w) as H.
  destruct (_avlb_StreamHandler w) as [[[h |] | e |] w1]; unfold ret;
    cbn [snd] in *; try (rewrite H; lia).
  unfold _generate_StreamHandler, bind, gets.
  rewrite H.
  destruct (Z.leb_spec (_max_connections (mgr w)) (_connections (mgr w)))
    as [Hle | Hlt]; [unfold ret; cbn [snd]; rewrite ?H; lia |].
  pose proof (provide_data_bound w1) as Hp. cbn zeta in Hp. rewrite H in Hp.
  destruct (provide_DataHandler new_DataHandler w1) as [[[dh |] | e |] w2];
    cbn [snd] in *; try lia.
  - pose proof (on_machine_mgr (new_StreamHandler dh) w2) as Hs.
    destruct (on_machine (new_StreamHandler dh) w2) as [[sh | e |] w3];
      cbn [snd] in *; try (rewrite Hs; lia).
    unfold update_mgr, modify. cbn. rewrite Hs. lia.
  - unfold raise. cbn [snd]. lia.
Qed.

(** ** Names *)

Lemma entry_register (h : nat) (name : string) (d : list (nat * string)) :
  entry h (register h name d) = Some name.
Proof.
  unfold entry. induction d as [| [h' name'] d IH]; cbn.
  - rewrite Nat.eqb_refl. reflexivity.
  - destruct (Nat.eqb h h') eqn:E; cbn; rewrite E; [reflexivity | exact IH].
Qed.

(** X24.  A data handler that [_generate_DataHandler] has made is
    registered under the name [DH_] followed by the number of data
    handlers registered before it, and [_get_name] gives that name back;
    for a handler that is not in the table of data handlers, such as
    every stream handler, [_get_name] raises [KeyError]. *)
Theorem get_name_after_generate (w w1 : world) (dh : nat) :
  _generate_DataHandler new_DataHandler w = (Val (Some dh), w1) ->
  _get_name dh w1
  = (Val (String.append "DH_" (pretty (length (_handlers_data (mgr w))))), w1)
  /\
  forall sh,
    entry sh (_handlers_data (mgr w1)) = None ->
    _get_name sh w1 = (Raised (KeyError (PyInt (Z.of_nat sh))), w1).
Proof.
  intros Hg. split.
  - unfold _generate_DataHandler, bind, gets in Hg.
    destruct (_max_connections (mgr w) <=? _connections (mgr w))%Z;
      [discriminate |].
    pose proof (on_machine_mgr new_DataHandler w) as H.
    destruct (on_machine new_DataHandler w) as [[d | e |] w0];
      try discriminate.
    unfold update_mgr, modify, ret in Hg. cbn in Hg, H.
    injection Hg as <- <-.
    unfold _get_name, bind, gets.
    cbn [mgr _handlers_data set_connections set_handlers_data].
    rewrite entry_register. reflexivity.
  - intros sh Hsh. unfold _get_name, bind, gets. rewrite Hsh. reflexivity.
Qed.

End Bounds.

Section Facade.

Variable env : Handler.environment.
Variable new_DataHandler : M Handler.machine nat.

Lemma channel_at_capacity command kwargs (w : world) :
  registered (_handlers_data (mgr w)) (mach w) ->
  List.find (fun e => is_active (mach w) (fst e)) (_handlers_data (mgr w))
  = None ->
  (_max_connections (mgr w) <= _connections (mgr w))%Z ->
  _open_data_channel env new_DataHandler command kwargs w
  = (Raised TypeError, w).
Proof.
  intros Hreg Hnone Hcap. unfold _open_data_channel.
  rewrite (bind_val _ _ _ _ _
             (provide_data_at_capacity new_DataHandler w Hreg Hnone Hcap)).
  reflexivity.
Qed.

(** X25.  When no registered data handler is active and the pool is at
    capacity, a data call of the facade does not return [False]: it
    raises [TypeError], from calling the logger, and changes nothing.
    And whenever a data call returns, the result is [False] or a value
    that is true in a condition: an empty payload, such as an empty list
    of trades, reaches the caller as [False]. *)
Theorem data_channel_outcomes command kwargs (w : world) :
  registered (_handlers_data (mgr w)) (mach w) ->
  List.find (fun e => is_active (mach w) (fst e)) (_handlers_data (mgr w))
  = None ->
  (_max_connections (mgr w) <= _connections (mgr w))%Z ->
  _open_data_channel env new_DataHandler command kwargs w
  = (Raised TypeError, w) /\
  forall (w0 w' : world) (r : pyval),
    _open_data_channel env new_DataHandler command kwargs w0 = (Val r, w') ->
    r = PyFalse \/ truthy r = true.
Proof.
  intros Hreg Hnone Hcap.
  split; [exact (channel_at_capacity command kwargs w Hreg Hnone Hcap) |].
  intros w0 w' r. unfold _open_data_channel. unfold bind at 1.
  destruct (provide_DataHandler new_DataHandler w0) as [[[d |] | e |] w1];
    try discriminate.
  unfold bind.
  destruct (on_machine (Handler.getData env d command kwargs) w1)
    as [[v | e |] w2]; try discriminate.
  destruct (truthy v) eqn:Hv; cbn [negb]; intros H; injection H as <- _; auto.
Qed.

(** X26.  The two list validations of the facade are inverted.  In a
    pool that can provide no data handler, [getTradeRecords] with a list
    of integers and [getTradingHours] with a list of strings, the empty
    list included, return [False], while a list with an item of another
    type passes the validation and reaches the data channel, which
    raises. *)
Theorem list_validation_is_inverted (orders symbols : list pyval) (w : world) :
  registered (_handlers_data (mgr w)) (mach w) ->
  List.find (fun e => is_active (mach w) (fst e)) (_handlers_data (mgr w))
  = None ->
  (_max_connections (mgr w) <= _connections (mgr w))%Z ->
  getTradeRecords env new_DataHandler orders w
  = (if forallb isinstance_int orders then Val PyFalse else Raised TypeError,
     w) /\
  getTradingHours env new_DataHandler symbols w
  = (if forallb isinstance_str symbols then Val PyFalse else Raised TypeError,
     w).
Proof.
  intros Hreg Hnone Hcap. unfold getTradeRecords, getTradingHours.
  split.
  - destruct (forallb isinstance_int orders); [reflexivity |].
    apply channel_at_capacity; assumption.
  - destruct (forallb isinstance_str symbols); [reflexivity |].
    apply channel_at_capacity; assumption.
Qed.

(** X27.  A [cmd] outside 0..7 makes [getProfitCalculation] and
    [tradeTransaction] raise [TypeError] instead of returning [False]:
    the error message joins the list of integers as if they were
    strings.  Nothing is requested and nothing changes. *)
Theorem invalid_cmd_raises (symbol volume openPrice closePrice sl tp comment
  cmd : pyval) (w : world) :
  py_mem cmd cmds = false ->
  getProfitCalculation env new_DataHandler symbol volume openPrice closePrice
    cmd w
  = (Raised TypeError, w) /\
  tradeTransaction env new_DataHandler cmd symbol volume openPrice sl tp
    comment w
  = (Raised TypeError, w).
Proof.
  intros Hc. unfold getProfitCalculation, tradeTransaction. rewrite Hc.
  split; reflexivity.
Qed.

(** X29.  [getChartLastRequest] can succeed for the intraday periods
    only, and only with an explicit start: for a period that is not in
    the list it raises [TypeError], for the periods D1, W1 and MN1 it
    raises [AttributeError] because their time limit is [None], and
    without a start it raises [AttributeError] too.  With an intraday
    period and a start, a start in the future gives [False]; otherwise
    the request goes to the data channel with the start moved up to the
    time limit of the period when it lies before it. *)
Theorem chart_request_outcomes (now : Z) (before : span -> Z)
  (symbol period : pyval) (start : option Z) (w : world) :
  getChartLastRequest env new_DataHandler now before symbol period start w
  = if negb (py_mem period periods) then (Raised TypeError, w)
    else if py_mem period [PyStr "D1"; PyStr "W1"; PyStr "MN1"]
    then (Raised (AttributeError "timestamp"), w)
    else
      match start with
      | None => (Raised (AttributeError "min"), w)
      | Some t =>
          if (now <? t)%Z then (Val PyFalse, w)
          else
            let limit :=
              before (if py_eq period (PyStr "H4") then Years13
                      else if py_eq period (PyStr "M30")
                              || py_eq period (PyStr "H1")
                           then Months7 else Months1) in
            _open_data_channel env new_DataHandler "ChartLastRequest"
              [("period", period); ("start", PyInt (Z.max t limit));
               ("symbol", symbol)] w
      end.
Proof.
  unfold getChartLastRequest.
  destruct (py_mem period periods) eqn:Hin; cbn [negb]; [| reflexivity].
  change (drop 6 periods) with [PyStr "D1"; PyStr "W1"; PyStr "MN1"].
  destruct (py_mem period [PyStr "D1"; PyStr "W1"; PyStr "MN1"]) eqn:Hday;
    [reflexivity |].
  assert (Hlimit : forall A (kont : Z -> M world A),
    bind (if py_mem period (drop 5 periods) then ret (before Years13)
          else if py_mem period (drop 3 periods) then ret (before Months7)
          else ret (before Months1)) kont w
    = kont (before (if py_eq period (PyStr "H4") then Years13
                    else if py_eq period (PyStr "M30")
                            || py_eq period (PyStr "H1")
                         then Months7 else Months1)) w).
  { intros A kont.
    change (drop 5 periods)
      with [PyStr "H4"; PyStr "D1"; PyStr "W1"; PyStr "MN1"].
    change (drop 3 periods)
      with [PyStr "M30"; PyStr "H1"; PyStr "H4"; PyStr "D1"; PyStr "W1";
            PyStr "MN1"].
    unfold py_mem in *. cbn [existsb] in *.
    destruct (py_eq period (PyStr "H4")); cbn [orb]; [reflexivity |].
    rewrite Hday.
    destruct (py_eq period (PyStr "M30")); cbn [orb]; [reflexivity |].
    destruct (py_eq period (PyStr "H1")); reflexivity. }
  rewrite Hlimit.
  destruct start as [t |]; [| reflexivity].
  unfold bind at 1. cbn [ret].
  destruct (now <? t)%Z; [reflexivity |].
  cbn zeta.
  replace (if (t <? before
                      (if py_eq period (PyStr "H4") then Years13
                       else if py_eq period (PyStr "M30")
                               || py_eq period (PyStr "H1")
                            then Months7 else Months1))%Z
           then before
                  (if py_eq period (PyStr "H4") then Years13
                   else if py_eq period (PyStr "M30")
                           || py_eq period (PyStr "H1")
                        then Months7 else Months1)
           else t)
    with (Z.max t (before
                     (if py_eq period (PyStr "H4") then Years13
                      else if py_eq period (PyStr "M30")
                              || py_eq period (PyStr "H1")
                           then Months7 else Months1))).
  - reflexivity.
  - destruct (Z.ltb_spec t (before
                     (if py_eq period (PyStr "H4") then Years13
                      else if py_eq period (PyStr "M30")
                              || py_eq period (PyStr "H1")
                           then Months7 else Months1))); lia.
Qed.

End Facade.

Lemma pool_offers_first_fit_witness :
  provide_DataHandler construct_session manager_with_session
  = (Val (Some 0), manager_with_session).
Proof.
  destruct (pool_offers_first_fit construct_session manager_with_session)
    as (_ & _ & H).
  - intros e He. apply list_elem_of_singleton in He as ->. eexists. reflexivity.
  - intros e He. inversion He.
  - apply (H (0, "DH_0")). reflexivity.
Defined.

Lemma allocation_bounds_witness :
  (_connections
     (mgr (snd (provide_StreamHandler construct_session construct_multiplexer
                  (new_manager 1))))
   <= 1 + 1)%Z.
Proof.
  destruct (allocation_bounds construct_session construct_multiplexer
              (new_manager 1)) as (_ & _ & H & _).
  - vm_compute. discriminate.
  - exact (proj2 H).
Defined.

Lemma get_name_after_generate_witness :
  _get_name 0
    (snd (_generate_DataHandler construct_session (new_manager 1)))
  = (Val "DH_0",
     snd (_generate_DataHandler construct_session (new_manager 1))).
Proof.
  destruct (get_name_after_generate construct_session (new_manager 1)
              (snd (_generate_DataHandler construct_session (new_manager 1)))
              0 eq_refl) as (H & _).
  exact H.
Defined.

Lemma data_channel_outcomes_witness :
  _open_data_channel scenario_env construct_session "Balance" []
    (new_manager 0)
  = (Raised TypeError, new_manager 0).
Proof.
  destruct (data_channel_outcomes scenario_env construct_session "Balance" []
              (new_manager 0)) as (H & _).
  - intros e He. inversion He.
  - reflexivity.
  - vm_compute. discriminate.
  - exact H.
Defined.

Lemma list_validation_is_inverted_witness :
  getTradeRecords scenario_env construct_session [PyInt 7; PyInt 8]
    (new_manager 0)
  = (Val PyFalse, new_manager 0) /\
  getTradingHours scenario_env construct_session [PyStr "EURUSD"; PyInt 8]
    (new_manager 0)
  = (Raised TypeError, new_manager 0).
Proof.
  apply (list_validation_is_inverted scenario_env construct_session
           [PyInt 7; PyInt 8] [PyStr "EURUSD"; PyInt 8] (new_manager 0)).
  - intros e He. inversion He.
  - reflexivity.
  - vm_compute. discriminate.
Defined.

Lemma invalid_cmd_raises_witness :
  getProfitCalculation scenario_env construct_session (PyStr "EURUSD")
    (PyInt 1) (PyInt 1) (PyInt 2) (PyInt 8) manager_with_session
  = (Raised TypeError, manager_with_session).
Proof.
  apply (invalid_cmd_raises scenario_env construct_session (PyStr "EURUSD")
           (PyInt 1) (PyInt 1) (PyInt 2) PyNone PyNone PyNone (PyInt 8)
           manager_with_session eq_refl).
Defined.

End PoolFacts.
